(** * FreshKart daily sales consolidation: the pipeline of [pipeline.py]

    A shallow embedding of the stages of the pipeline ([load_data]'s item
    expansion, [clean_data], [enrich_and_calculate], [aggregate_daily],
    [export_results], [main]) and the properties of its outputs.

    Modelling conventions.
    - A dataframe is a [list] of typed rows, in row order; a column is a
      record field.  The frames are the frames as the dataframe library
      holds them after loading: every cell of an input frame is
      populated, and a numeric column has one dtype, [int64] or
      [float64], which is a parameter of the row type (the dtype the
      library infers from a file that holds at least one row).
    - Computed numbers are what the library computes: int64 arithmetic
      wraps around (two's complement), float64 arithmetic is IEEE 754
      binary64 (the kernel's primitive floats), an int64 meeting a
      float64 is converted first, and a column becomes float64 as soon
      as a left merge leaves a null in it.  The [sum] aggregator is the
      library's: wrap-around addition on int64, compensated (Kahan)
      summation that skips NaN on float64.
    - Identifiers, cities, channels, timestamps and payment statuses are
      [string]s.
    - [groupby] builds the index of groups in order of first appearance
      and then sorts the groups by key, as the library does with its
      default [sort=True], and leaves out the rows whose key is null; a
      merge keeps the order of the left rows and, for one left row, the
      order of the matching right rows.
    - [pd.to_datetime(...).dt.date] is library code and a parameter,
      [to_datetime]: what it makes of a cell may depend on the whole
      column (the format is inferred once for the column); it may raise,
      and it may yield NaT, a null date.
    - A frame built from no record has no column, and a [query] that
      names a missing column raises: [main] raises in [clean_data],
      before any output, when the order file expands to no item row.
    - The rows written to a file or a table are kept as rows: the text
      of a CSV line and the layout of the database file are not
      modelled. *)

From Stdlib Require Import List ZArith String Bool Lia Permutation Sorted.
From Stdlib Require Import Floats Uint63 Eqdep_dec.
Import ListNotations.

Local Open Scope Z_scope.
Local Open Scope list_scope.

Set Implicit Arguments.

(** ** Numbers *)

(* A proof of [b = true] in canonical form: it computes to [eq_refl]. *)
Definition sure (b : bool) : b = true -> b = true :=
  match b with
  | true => fun _ => eq_refl
  | false => fun H => H
  end.

(* An int64 cell. *)
Module Int64.
Definition in_range (z : Z) : bool :=
  (- 9223372036854775808 <=? z) && (z <? 9223372036854775808).

Record t : Type := mk { to_Z : Z; range : in_range to_Z = true }.

(* Two's complement wrap-around. *)
Definition wrap (z : Z) : Z :=
  (z + 9223372036854775808) mod 18446744073709551616 - 9223372036854775808.

Lemma wrap_in_range (z : Z) : in_range (wrap z) = true.
Proof.
  unfold in_range, wrap.
  pose proof (Z.mod_pos_bound (z + 9223372036854775808) 18446744073709551616
                              eq_refl) as B.
  apply andb_true_iff. rewrite Z.leb_le, Z.ltb_lt. lia.
Qed.

Definition of_Z (z : Z) : t := mk (wrap z) (sure (wrap_in_range z)).

Definition zero : t := of_Z 0.
Definition add (a b : t) : t := of_Z (to_Z a + to_Z b).
Definition mul (a b : t) : t := of_Z (to_Z a * to_Z b).

(* The conversion to float64: to nearest, ties to even. *)
Definition to_float (a : t) : float :=
  let z := to_Z a in
  if z =? - 9223372036854775808 then (-0x1p63)%float
  else if z <? 0 then (- of_uint63 (Uint63.of_Z (- z)))%float
       else of_uint63 (Uint63.of_Z z).
End Int64.

(* A populated float64 cell: any binary64 number but NaN, which is how
   a float64 column holds a null. *)
Module F64.
Record t : Type := mk { val : float; populated : PrimFloat.is_nan val = false }.

Definition of_float (f : float) : t :=
  match PrimFloat.is_nan f as b return PrimFloat.is_nan f = b -> t with
  | false => fun H => mk f H
  | true => fun _ => mk 0%float eq_refl
  end eq_refl.
End F64.

Inductive dtype : Type := int64 | float64.

(* A populated cell of a numeric column of the given dtype. *)
Definition cell (d : dtype) : Type :=
  match d with
  | int64 => Int64.t
  | float64 => F64.t
  end.

(* A computed number: a cell of an int64 or of a float64 column, NaN
   included. *)
Module Num.
Inductive t : Type :=
| Int (i : Int64.t)
| Float (f : float).

Definition is_int (a : t) : bool :=
  match a with
  | Int _ => true
  | Float _ => false
  end.

Definition to_float (a : t) : float :=
  match a with
  | Int i => Int64.to_float i
  | Float f => f
  end.

(* [astype(float64)] *)
Definition astype_float (a : t) : t := Float (to_float a).

Definition add (a b : t) : t :=
  match a, b with
  | Int x, Int y => Int (Int64.add x y)
  | _, _ => Float (to_float a + to_float b)
  end.

Definition mul (a b : t) : t :=
  match a, b with
  | Int x, Int y => Int (Int64.mul x y)
  | _, _ => Float (to_float a * to_float b)
  end.

(* [isna]: only a float64 cell can be null, and NaN is the null. *)
Definition isna (a : t) : bool :=
  match a with
  | Int _ => false
  | Float f => PrimFloat.is_nan f
  end.

(* [fillna(0)] on a cell. *)
Definition fillna0 (a : t) : t := if isna a then Float 0 else a.

(* A cell of a column that came out of a left merge: the column is
   float64 as soon as one of its cells is null. *)
Definition after_merge (has_null : bool) (a : t) : t :=
  if has_null then astype_float a else a.

(* The float64 group sum: compensated summation over the cells that are
   not NaN, the compensation being reset when it is NaN itself. *)
Fixpoint kahan (vals : list float) (sumx compensation : float) : float :=
  match vals with
  | [] => sumx
  | val :: rest =>
      if PrimFloat.is_nan val then kahan rest sumx compensation
      else
        let y := (val - compensation)%float in
        let t := (sumx + y)%float in
        let c := (t - sumx - y)%float in
        kahan rest t (if PrimFloat.is_nan c then 0%float else c)
  end.

(* The int64 group sum. *)
Definition wrap_sum (cells : list t) : Int64.t :=
  fold_left (fun acc c =>
               match c with
               | Int i => Int64.add acc i
               | Float _ => acc
               end) cells Int64.zero.

(* The [sum] aggregator on the cells of one group. *)
Definition sum (cells : list t) : t :=
  if forallb is_int cells then Int (wrap_sum cells)
  else Float (kahan (map to_float cells) 0 0).

(* The cells of a nullable column that are not null. *)
Definition values (cells : list (option t)) : list t :=
  flat_map (fun c => match c with
                     | Some v => [v]
                     | None => []
                     end) cells.

(* The [sum] aggregator on the cells of one group of a column that came
   out of a left merge: nulls are skipped, and the column is float64
   when it holds one. *)
Definition sum_nullable (cells : list (option t)) : t :=
  if existsb (fun c => match c with
                       | Some _ => false
                       | None => true
                       end) cells
  then Float (kahan (map to_float (values cells)) 0 0)
  else sum (values cells).

(* The integer a number is, when it is one. *)
Definition int_value (a : t) : option Z :=
  match a with
  | Int i => Some (Int64.to_Z i)
  | Float f =>
      match Prim2SF f with
      | S754_zero _ => Some 0
      | S754_finite s m e =>
          let sign := if s then -1 else 1 in
          if 0 <=? e then Some (sign * (Z.pos m * 2 ^ e))
          else if Z.pos m mod 2 ^ (- e) =? 0
               then Some (sign * (Z.pos m / 2 ^ (- e)))
               else None
      | _ => None
      end
  end.
End Num.

Module Cell.
Definition to_num {d : dtype} : cell d -> Num.t :=
  match d with
  | int64 => fun i => Num.Int i
  | float64 => fun f => Num.Float (F64.val f)
  end.

(* The comparisons of a [query]: [cell >= 0] and [cell < 0]. *)
Definition ge0 {d : dtype} : cell d -> bool :=
  match d with
  | int64 => fun i => 0 <=? Int64.to_Z i
  | float64 => fun f => (0 <=? F64.val f)%float
  end.

Definition lt0 {d : dtype} : cell d -> bool :=
  match d with
  | int64 => fun i => Int64.to_Z i <? 0
  | float64 => fun f => (F64.val f <? 0)%float
  end.
End Cell.

(** ** Keys: decidable equality and the order used to sort groups *)

Class Key (K : Type) : Type := {
  keqb : K -> K -> bool;
  kleb : K -> K -> bool;
  keqb_eq : forall x y, keqb x y = true <-> x = y
}.

#[export] Instance Key_string : Key string := {
  keqb := String.eqb;
  kleb := String.leb;
  keqb_eq := String.eqb_eq
}.

Module Date.
Record t : Type := mk { year : Z; month : Z; day : Z }.

Definition eqb (a b : t) : bool :=
  (year a =? year b) && (month a =? month b) && (day a =? day b).

(* Chronological order, as Python's [datetime.date] compares. *)
Definition leb (a b : t) : bool :=
  if year a =? year b then
    if month a =? month b then day a <=? day b
    else month a <? month b
  else year a <? year b.
End Date.

Lemma Date_eqb_eq (a b : Date.t) : Date.eqb a b = true <-> a = b.
Proof.
  unfold Date.eqb. destruct a as [y m d], b as [y' m' d']; simpl.
  rewrite !andb_true_iff, !Z.eqb_eq. split.
  - intros [[-> ->] ->]. reflexivity.
  - intros H. injection H as -> -> ->. auto.
Qed.

#[export] Instance Key_date : Key Date.t := {
  keqb := Date.eqb;
  kleb := Date.leb;
  keqb_eq := Date_eqb_eq
}.

(* Tuples compare lexicographically. *)
Definition pair_eqb {A B} `{Key A} `{Key B} (p q : A * B) : bool :=
  keqb (fst p) (fst q) && keqb (snd p) (snd q).

Definition pair_leb {A B} `{Key A} `{Key B} (p q : A * B) : bool :=
  if keqb (fst p) (fst q) then kleb (snd p) (snd q) else kleb (fst p) (fst q).

Lemma pair_eqb_eq {A B} `{Key A} `{Key B} (p q : A * B) :
  pair_eqb p q = true <-> p = q.
Proof.
  unfold pair_eqb. destruct p as [a b], q as [a' b']; simpl.
  rewrite andb_true_iff, !keqb_eq. split.
  - intros [-> ->]. reflexivity.
  - intros E. injection E as -> ->. auto.
Qed.

#[export] Instance Key_pair {A B} `{Key A} `{Key B} : Key (A * B) := {
  keqb := pair_eqb;
  kleb := pair_leb;
  keqb_eq := pair_eqb_eq
}.

(** ** Rows *)

Module Customer.
Record t : Type := mk {
  customer_id : string;
  city : string;
  is_active : bool
}.
End Customer.

(* One element of an order's nested [items] array; [dq] and [dp] are the
   dtypes of the qty and unit_price columns. *)
Module Line.
Record t (dq dp : dtype) : Type := mk { qty : cell dq; unit_price : cell dp }.
Arguments mk {dq dp} qty unit_price.
Arguments qty {dq dp} t.
Arguments unit_price {dq dp} t.
End Line.

(* One record of [orders_<date>.json]; also one row of [df_orders]. *)
Module Order.
Record t (dq dp : dtype) : Type := mk {
  order_id : string;
  customer_id : string;
  channel : string;
  created_at : string;
  payment_status : string;
  items : list (Line.t dq dp)
}.
Arguments mk {dq dp} order_id customer_id channel created_at payment_status
          items.
Arguments order_id {dq dp} t.
Arguments customer_id {dq dp} t.
Arguments channel {dq dp} t.
Arguments created_at {dq dp} t.
Arguments payment_status {dq dp} t.
Arguments items {dq dp} t.
End Order.

(* One row of [df_items]: a line with the order-level fields copied on it. *)
Module Item.
Record t (dq dp : dtype) : Type := mk {
  qty : cell dq;
  unit_price : cell dp;
  order_id : string;
  customer_id : string;
  channel : string;
  created_at : string;
  payment_status : string
}.
Arguments mk {dq dp} qty unit_price order_id customer_id channel created_at
          payment_status.
Arguments qty {dq dp} t.
Arguments unit_price {dq dp} t.
Arguments order_id {dq dp} t.
Arguments customer_id {dq dp} t.
Arguments channel {dq dp} t.
Arguments created_at {dq dp} t.
Arguments payment_status {dq dp} t.

End Item.

(* One row of [refunds.csv]; [da] is the dtype of the amount column. *)
Module Refund.
Record t (da : dtype) : Type := mk { order_id : string; amount : cell da }.
Arguments mk {da} order_id amount.
Arguments order_id {da} t.
Arguments amount {da} t.
End Refund.

(* One row of [df_items_full]. *)
Module ItemFull.
Record t (dq dp : dtype) : Type := mk {
  item : Item.t dq dp;
  city : string;
  line_total : Num.t
}.
Arguments mk {dq dp} item city line_total.
Arguments item {dq dp} t.
Arguments city {dq dp} t.
Arguments line_total {dq dp} t.
Definition order_id {dq dp} (x : t dq dp) : string := Item.order_id (item x).
Definition customer_id {dq dp} (x : t dq dp) : string :=
  Item.customer_id (item x).
Definition channel {dq dp} (x : t dq dp) : string := Item.channel (item x).
Definition created_at {dq dp} (x : t dq dp) : string :=
  Item.created_at (item x).
Definition qty {dq dp} (x : t dq dp) : cell dq := Item.qty (item x).
Definition unit_price {dq dp} (x : t dq dp) : cell dp :=
  Item.unit_price (item x).
End ItemFull.

(* [df_order_revenue] right after the group-by of [enrich_and_calculate]. *)
Module OrderGross.
Record t : Type := mk {
  order_id : string;
  gross_revenue : Num.t;
  customer_id : string;
  channel : string;
  city : string;
  created_at : string
}.
End OrderGross.

(* One row of [df_refunds_agg]. *)
Module RefundAgg.
Record t : Type := mk { order_id : string; refunds_amount : Num.t }.
End RefundAgg.

(* [df_order_revenue] as [enrich_and_calculate] returns it. *)
Module OrderRevenue.
Record t : Type := mk {
  base : OrderGross.t;
  refunds_amount : Num.t;
  net_revenue : Num.t
}.
Definition order_id (r : t) : string := OrderGross.order_id (base r).
Definition gross_revenue (r : t) : Num.t := OrderGross.gross_revenue (base r).
Definition customer_id (r : t) : string := OrderGross.customer_id (base r).
Definition channel (r : t) : string := OrderGross.channel (base r).
Definition city (r : t) : string := OrderGross.city (base r).
Definition created_at (r : t) : string := OrderGross.created_at (base r).
End OrderRevenue.

(* [df_order_revenue] as [aggregate_daily] returns it: with [date], null
   when the timestamp came out as NaT, and [items_sold], which comes
   from a left merge and may be null. *)
Module OrderFact.
Record t : Type := mk {
  rev : OrderRevenue.t;
  date : option Date.t;
  items_sold : option Num.t
}.
Definition order_id (f : t) : string := OrderRevenue.order_id (rev f).
Definition customer_id (f : t) : string := OrderRevenue.customer_id (rev f).
Definition channel (f : t) : string := OrderRevenue.channel (rev f).
Definition city (f : t) : string := OrderRevenue.city (rev f).
Definition gross_revenue (f : t) : Num.t := OrderRevenue.gross_revenue (rev f).
Definition refunds_amount (f : t) : Num.t :=
  OrderRevenue.refunds_amount (rev f).
Definition net_revenue (f : t) : Num.t := OrderRevenue.net_revenue (rev f).
(* The grouping key of the daily summary; a row with a null date has
   none. *)
Definition group_key (f : t) : option (Date.t * (string * string)) :=
  match date f with
  | Some d => Some (d, (city f, channel f))
  | None => None
  end.
(* Whether the row belongs to the group of a key. *)
Definition in_group (k : Date.t * (string * string)) (f : t) : bool :=
  match group_key f with
  | Some k' => keqb k' k
  | None => false
  end.
End OrderFact.

Module DailySummary.
Record t : Type := mk {
  date : Date.t;
  city : string;
  channel : string;
  orders_count : Z;
  unique_customers : Z;
  items_sold : Num.t;
  gross_revenue_eur : Num.t;
  refunds_eur : Num.t;
  net_revenue_eur : Num.t
}.
Definition group_key (s : t) : Date.t * (string * string) :=
  (date s, (city s, channel s)).
End DailySummary.

(** ** Dataframe operations *)

Section Frames.
Context {K : Type} `{Key K}.
Variable R : Type.

(* [Series.isin]. *)
Definition isin (k : K) (ks : list K) : bool := existsb (keqb k) ks.

(* [drop_duplicates(subset=key, keep="first")]: a row is kept when its
   key was not seen on an earlier row. *)
Fixpoint drop_duplicates_from (key : R -> K) (seen : list K) (rows : list R)
  : list R :=
  match rows with
  | [] => []
  | r :: rest =>
      if isin (key r) seen then drop_duplicates_from key seen rest
      else r :: drop_duplicates_from key (key r :: seen) rest
  end.

Definition drop_duplicates (key : R -> K) (rows : list R) : list R :=
  drop_duplicates_from key [] rows.

(* The rows of one key. *)
Definition rows_of (key : R -> K) (k : K) (rows : list R) : list R :=
  filter (fun r => keqb (key r) k) rows.

(* Group index: one entry per key, in order of first appearance, the
   rows of a group in row order. *)
Fixpoint add_row (k : K) (r : R) (idx : list (K * list R))
  : list (K * list R) :=
  match idx with
  | [] => [(k, [r])]
  | (k', rs) :: rest =>
      if keqb k k' then (k', rs ++ [r]) :: rest
      else (k', rs) :: add_row k r rest
  end.

Definition group_index (key : R -> K) (rows : list R) : list (K * list R) :=
  fold_left (fun idx r => add_row (key r) r idx) rows [].

(* Groups are emitted in sorted key order. *)
Fixpoint insert_group (g : K * list R) (gs : list (K * list R))
  : list (K * list R) :=
  match gs with
  | [] => [g]
  | h :: rest =>
      if kleb (fst g) (fst h) then g :: gs else h :: insert_group g rest
  end.

Definition sort_groups (gs : list (K * list R)) : list (K * list R) :=
  fold_right insert_group [] gs.

Definition groupby (key : R -> K) (rows : list R) : list (K * list R) :=
  sort_groups (group_index key rows).

End Frames.

Section NullKeys.
Context {K : Type} `{Key K}.
Variable R : Type.

(* [groupby] on a key that may be null: the rows without a key are left
   out (the library's default [dropna=True]). *)
Definition keyed (key : R -> option K) (rows : list R) : list (K * R) :=
  flat_map (fun r => match key r with
                     | Some k => [(k, r)]
                     | None => []
                     end) rows.

Definition groupby_dropna (key : R -> option K) (rows : list R)
  : list (K * list R) :=
  map (fun g => (fst g, map snd (snd g))) (groupby fst (keyed key rows)).
End NullKeys.

Section Merges.
Context {K : Type} `{Key K}.
Variables R S : Type.

(* [left.merge(right, on=key, how="inner")]. *)
Definition merge_inner (kl : R -> K) (kr : S -> K)
           (left : list R) (right : list S) : list (R * S) :=
  flat_map (fun l => map (fun r => (l, r)) (rows_of kr (kl l) right)) left.

(* [left.merge(right, on=key, how="left")]: an unmatched left row is
   kept once, with nulls on the right. *)
Definition merge_left (kl : R -> K) (kr : S -> K)
           (left : list R) (right : list S) : list (R * option S) :=
  flat_map (fun l =>
              match rows_of kr (kl l) right with
              | [] => [(l, None)]
              | ms => map (fun r => (l, Some r)) ms
              end) left.

(* Whether the right columns of a left merge hold a null. *)
Definition has_null (joined : list (R * option S)) : bool :=
  existsb (fun lr => match snd lr with
                     | Some _ => false
                     | None => true
                     end) joined.
End Merges.

(* The [first] aggregator; a group is never empty, the default is for
   the type only. *)
Definition first {R} (f : R -> string) (rs : list R) : string :=
  match rs with
  | [] => EmptyString
  | r :: _ => f r
  end.

(* The [nunique] aggregator. *)
Definition nunique (l : list string) : Z :=
  Z.of_nat (List.length (drop_duplicates (fun s : string => s) l)).

(** ** load_data: expansion of the nested items *)

(* [pd.json_normalize(data, record_path="items", meta=[...])]. *)
Definition json_normalize {dq dp : dtype} (data : list (Order.t dq dp))
  : list (Item.t dq dp) :=
  flat_map (fun o =>
              map (fun l =>
                     Item.mk (Line.qty l) (Line.unit_price l)
                             (Order.order_id o) (Order.customer_id o)
                             (Order.channel o) (Order.created_at o)
                             (Order.payment_status o))
                  (Order.items o))
           data.

(** ** clean_data *)

Definition is_paid (status : string) : bool := String.eqb status "paid".

Module Cleaned.
Record t (dq dp : dtype) : Type := mk {
  customers : list Customer.t;
  orders : list (Order.t dq dp);
  items_clean : list (Item.t dq dp);
  (* [rejected_items_<date>.csv]; [None] when no file is written. *)
  rejected_file : option (list (Item.t dq dp))
}.
Arguments mk {dq dp} customers orders items_clean rejected_file.
Arguments customers {dq dp} t.
Arguments orders {dq dp} t.
Arguments items_clean {dq dp} t.
Arguments rejected_file {dq dp} t.
Definition rejected {dq dp} (c : t dq dp) : list (Item.t dq dp) :=
  match rejected_file c with
  | Some rows => rows
  | None => []
  end.
End Cleaned.

Definition clean_data {dq dp : dtype} (df_customers : list Customer.t)
           (df_orders : list (Order.t dq dp)) (df_items : list (Item.t dq dp))
  : Cleaned.t dq dp :=
  let df_customers := filter Customer.is_active df_customers in
  let df_orders := filter (fun o => is_paid (Order.payment_status o)) df_orders in
  let df_items := filter (fun i => is_paid (Item.payment_status i)) df_items in
  let df_orders := drop_duplicates Order.order_id df_orders in
  let df_items_clean :=
    filter (fun i => Cell.ge0 (Item.unit_price i)) df_items in
  let df_items_rejected :=
    filter (fun i => Cell.lt0 (Item.unit_price i)) df_items in
  Cleaned.mk df_customers df_orders df_items_clean
             (match df_items_rejected with
              | [] => None
              | _ => Some df_items_rejected
              end).

(** ** enrich_and_calculate *)

Definition enrich_and_calculate {dq dp da : dtype}
           (df_items_clean : list (Item.t dq dp))
           (df_customers : list Customer.t) (df_refunds : list (Refund.t da))
  : list (ItemFull.t dq dp) * list OrderRevenue.t :=
  (* Enrichment with the customer's city, then line_total. *)
  let df_items_full :=
    map (fun ic : Item.t dq dp * (string * string) =>
           let i := fst ic in
           ItemFull.mk i (snd (snd ic))
                       (Num.mul (Cell.to_num (Item.qty i))
                                (Cell.to_num (Item.unit_price i))))
        (merge_inner Item.customer_id fst df_items_clean
           (map (fun c => (Customer.customer_id c, Customer.city c))
                df_customers)) in
  (* One row per order. *)
  let df_order_revenue :=
    map (fun g : string * list (ItemFull.t dq dp) =>
           let rs := snd g in
           OrderGross.mk (fst g)
                         (Num.sum (map ItemFull.line_total rs))
                         (first ItemFull.customer_id rs)
                         (first ItemFull.channel rs)
                         (first ItemFull.city rs)
                         (first ItemFull.created_at rs))
        (groupby ItemFull.order_id df_items_full) in
  (* Refunds of the orders of the day. *)
  let valid_orders :=
    drop_duplicates (fun s : string => s)
                    (map OrderGross.order_id df_order_revenue) in
  let df_refunds_agg :=
    map (fun g : string * list (Refund.t da) =>
           RefundAgg.mk (fst g)
                        (Num.sum (map (fun f => Cell.to_num (Refund.amount f))
                                      (snd g))))
        (groupby Refund.order_id
           (filter (fun f => isin (Refund.order_id f) valid_orders)
                   df_refunds)) in
  (* Final join, refunds_amount and net_revenue. *)
  let joined :=
    merge_left OrderGross.order_id RefundAgg.order_id
               df_order_revenue df_refunds_agg in
  let null := has_null joined in
  let df_order_revenue :=
    map (fun gm : OrderGross.t * option RefundAgg.t =>
           let refunds_amount :=
             match snd gm with
             | Some a =>
                 Num.fillna0
                   (Num.after_merge null (RefundAgg.refunds_amount a))
             | None => Num.Float 0
             end in
           OrderRevenue.mk (fst gm) refunds_amount
                           (Num.add (OrderGross.gross_revenue (fst gm))
                                    refunds_amount))
        joined in
  (df_items_full, df_order_revenue).

(** ** aggregate_daily *)

(* What [pd.to_datetime(...).dt.date] makes of one cell of a column. *)
Module Parsed.
Inductive t : Type :=
| Stamp (d : Date.t)
| NaT
| Fails.

Definition fails (p : t) : bool :=
  match p with
  | Fails => true
  | _ => false
  end.

Definition date (p : t) : option Date.t :=
  match p with
  | Stamp d => Some d
  | _ => None
  end.
End Parsed.

(* What one run leaves behind: the rejected-items file, written by the
   cleaning stage, and the daily summary with the order-level rows, both
   absent when the run raises before it gets to them. *)
Module Run.
Record t (dq dp : dtype) : Type := mk {
  rejected_file : option (list (Item.t dq dp));
  result : option (list DailySummary.t * list OrderFact.t)
}.
Arguments mk {dq dp} rejected_file result.
Arguments rejected_file {dq dp} t.
Arguments result {dq dp} t.
End Run.

Definition summary_row (g : (Date.t * (string * string)) * list OrderFact.t)
  : DailySummary.t :=
  let k := fst g in
  let fs := snd g in
  DailySummary.mk (fst k) (fst (snd k)) (snd (snd k))
                  (Z.of_nat (List.length (map OrderFact.order_id fs)))
                  (nunique (map OrderFact.customer_id fs))
                  (Num.sum_nullable (map OrderFact.items_sold fs))
                  (Num.sum (map OrderFact.gross_revenue fs))
                  (Num.sum (map OrderFact.refunds_amount fs))
                  (Num.sum (map OrderFact.net_revenue fs)).

Section Aggregation.
(* [to_datetime column cell]: the outcome for a cell of that column. *)
Variable to_datetime : list string -> string -> Parsed.t.
Context {dq dp da : dtype}.

(* The [date] column; the assignment raises as a whole when one
   timestamp of the column cannot be parsed. *)
Definition assign_date (rows : list OrderRevenue.t)
  : option (list (OrderRevenue.t * option Date.t)) :=
  let column := map OrderRevenue.created_at rows in
  if existsb (fun s => Parsed.fails (to_datetime column s)) column then None
  else Some (map (fun r =>
                    (r, Parsed.date
                          (to_datetime column (OrderRevenue.created_at r))))
                 rows).

Definition aggregate_daily (df_order_revenue : list OrderRevenue.t)
           (df_items_full : list (ItemFull.t dq dp))
  : option (list DailySummary.t * list OrderFact.t) :=
  match assign_date df_order_revenue with
  | None => None
  | Some dated =>
      let df_items_count :=
        map (fun g : string * list (ItemFull.t dq dp) =>
               (fst g,
                Num.sum (map (fun x => Cell.to_num (ItemFull.qty x))
                             (snd g))))
            (groupby ItemFull.order_id df_items_full) in
      let joined :=
        merge_left (fun rd : OrderRevenue.t * option Date.t =>
                      OrderRevenue.order_id (fst rd)) fst
                   dated df_items_count in
      let null := has_null joined in
      let df_order_revenue :=
        map (fun rm : (OrderRevenue.t * option Date.t)
                      * option (string * Num.t) =>
               OrderFact.mk (fst (fst rm)) (snd (fst rm))
                            (option_map
                               (fun kv => Num.after_merge null (snd kv))
                               (snd rm)))
            joined in
      let df_daily_summary :=
        map summary_row
            (groupby_dropna OrderFact.group_key df_order_revenue) in
      Some (df_daily_summary, df_order_revenue)
  end.

(** ** main *)

(* The stages from the loaded frames to the outputs.  The frames built
   from an order file that holds no line have no column for [clean_data]
   to query: the run raises there, before any output. *)
Definition main (df_customers : list Customer.t) (data : list (Order.t dq dp))
           (df_refunds : list (Refund.t da)) : Run.t dq dp :=
  let df_orders := data in
  let df_items := json_normalize data in
  match df_items with
  | [] => Run.mk None None
  | _ =>
      let cleaned := clean_data df_customers df_orders df_items in
      let enriched :=
        enrich_and_calculate (Cleaned.items_clean cleaned)
                             (Cleaned.customers cleaned) df_refunds in
      Run.mk (Cleaned.rejected_file cleaned)
             (aggregate_daily (snd enriched) (fst enriched))
  end.
End Aggregation.

(** ** The output directory: files and cumulative store *)

Inductive File (dq dp : dtype) : Type :=
| RejectedItemsCsv (rows : list (Item.t dq dp))
| DailySummaryCsv (rows : list DailySummary.t).
Arguments RejectedItemsCsv {dq dp} rows.
Arguments DailySummaryCsv {dq dp} rows.

Module Disk.
Record t (dq dp : dtype) : Type := mk {
  (* The files of [data/out], by path. *)
  files : string -> option (File dq dp);
  (* The two tables of [data/out/sales.db]; a table that does not exist
     yet has no rows. *)
  orders_clean : list OrderFact.t;
  daily_city_sales : list DailySummary.t
}.
Arguments mk {dq dp} files orders_clean daily_city_sales.
Arguments files {dq dp} t.
Arguments orders_clean {dq dp} t.
Arguments daily_city_sales {dq dp} t.

(* [to_csv(path)]: creates or overwrites the file. *)
Definition write {dq dp} (path : string) (content : File dq dp) (d : t dq dp)
  : t dq dp :=
  mk (fun p => if String.eqb p path then Some content else files d p)
     (orders_clean d) (daily_city_sales d).
End Disk.

Definition rejected_items_path (date_str : string) : string :=
  ("data/out/rejected_items_" ++ date_str ++ ".csv")%string.

Definition daily_summary_path (date_str : string) : string :=
  ("data/out/daily_summary_" ++ date_str ++ ".csv")%string.

(* The file effect of [clean_data]: the rejected items are written when
   there are some; otherwise nothing is written. *)
Definition save_rejected {dq dp} (date_str : string)
           (rejected_file : option (list (Item.t dq dp)))
           (disk : Disk.t dq dp) : Disk.t dq dp :=
  match rejected_file with
  | Some rows =>
      Disk.write (rejected_items_path date_str) (RejectedItemsCsv rows) disk
  | None => disk
  end.

Definition export_results {dq dp} (df_daily_summary : list DailySummary.t)
           (df_order_revenue : list OrderFact.t) (date_str : string)
           (disk : Disk.t dq dp) : Disk.t dq dp :=
  let disk :=
    Disk.write (daily_summary_path date_str)
               (DailySummaryCsv df_daily_summary) disk in
  (* to_sql(..., if_exists="append") on both tables. *)
  Disk.mk (Disk.files disk)
          (Disk.orders_clean disk ++ df_order_revenue)
          (Disk.daily_city_sales disk ++ df_daily_summary).

(* How a run ends, and the output directory it leaves. *)
Inductive Outcome (dq dp : dtype) : Type :=
| Completed (disk : Disk.t dq dp)
| Raised (disk : Disk.t dq dp).
Arguments Completed {dq dp} disk.
Arguments Raised {dq dp} disk.

Definition disk_after {dq dp} (o : Outcome dq dp) : Disk.t dq dp :=
  match o with
  | Completed d => d
  | Raised d => d
  end.

Section OnDisk.
Variable to_datetime : list string -> string -> Parsed.t.
Context {dq dp da : dtype}.

(* [main(date_str)] from the loaded frames on: cleaning (which may raise
   at once, and otherwise writes the rejected items), enrichment,
   aggregation (which may raise), then export. *)
Definition main_on_disk (date_str : string) (df_customers : list Customer.t)
           (data : list (Order.t dq dp)) (df_refunds : list (Refund.t da))
           (disk : Disk.t dq dp) : Outcome dq dp :=
  let run := main to_datetime df_customers data df_refunds in
  let disk := save_rejected date_str (Run.rejected_file run) disk in
  match Run.result run with
  | Some (df_daily_summary, df_order_revenue) =>
      Completed (export_results df_daily_summary df_order_revenue
                                date_str disk)
  | None => Raised disk
  end.
End OnDisk.

(** ** Sample data *)

Module Sample.
(* Reads the calendar date off an ISO timestamp [YYYY-MM-DD...]; an
   empty cell is NaT. *)
Definition digit (c : Ascii.ascii) : option Z :=
  let n := Z.of_nat (Ascii.nat_of_ascii c) in
  if (48 <=? n) && (n <=? 57) then Some (n - 48) else None.

Fixpoint number (acc : Z) (s : string) : option Z :=
  match s with
  | EmptyString => Some acc
  | String c rest =>
      match digit c with
      | Some d => number (10 * acc + d) rest
      | None => None
      end
  end.

Definition iso_date (s : string) : option Date.t :=
  match number 0 (substring 0 4 s), number 0 (substring 5 2 s),
        number 0 (substring 8 2 s) with
  | Some y, Some m, Some d =>
      if (String.length s <? 10)%nat then None else Some (Date.mk y m d)
  | _, _, _ => None
  end.

Definition to_datetime (column : list string) (s : string) : Parsed.t :=
  match s with
  | EmptyString => Parsed.NaT
  | _ => match iso_date s with
         | Some d => Parsed.Stamp d
         | None => Parsed.Fails
         end
  end.

(* An int64 cell and a float64 cell. *)
Definition int (z : Z) : cell int64 := Int64.of_Z z.
Definition dec (f : float) : cell float64 := F64.of_float f.

Local Open Scope string_scope.

Definition c1 := Customer.mk "C1" "Paris" true.
Definition c2 := Customer.mk "C2" "Lyon" false.
Definition c3 := Customer.mk "C3" "Paris" true.

(* A day with int64 quantities and float64 prices. *)
Definition o1 : Order.t int64 float64 :=
  Order.mk "O1" "C1" "web" "2024-01-15T10:00:00" "paid"
           [Line.mk (int 2) (dec 10); Line.mk (int 1) (dec (-5))].
Definition o2 : Order.t int64 float64 :=
  Order.mk "O2" "C2" "app" "2024-01-15T11:00:00" "paid"
           [Line.mk (int 3) (dec 2)].
Definition o3 : Order.t int64 float64 :=
  Order.mk "O3" "C3" "web" "2024-01-15T12:30:00" "paid"
           [Line.mk (int 1) (dec 3); Line.mk (int 4) (dec 0)].
Definition o4 : Order.t int64 float64 :=
  Order.mk "O4" "C1" "web" "2024-01-15T13:00:00" "pending"
           [Line.mk (int 1) (dec 9)].

Definition customers := [c1; c2; c3].
Definition orders := [o1; o2; o3; o4].
Definition refunds : list (Refund.t float64) :=
  [Refund.mk "O1" (dec (-5)); Refund.mk "O9" (dec (-7));
   Refund.mk "O1" (dec (-1))].

Definition items := json_normalize orders.
Definition cleaned := clean_data customers orders items.
Definition enriched :=
  enrich_and_calculate (Cleaned.items_clean cleaned)
                       (Cleaned.customers cleaned) refunds.
Definition run := main to_datetime customers orders refunds.
Definition summary : list DailySummary.t :=
  match Run.result run with
  | Some out => fst out
  | None => []
  end.
Definition facts : list OrderFact.t :=
  match Run.result run with
  | Some out => snd out
  | None => []
  end.

(* The order rows of O1 (refunded twice) and O3 (never refunded). *)
Definition row_o1 :=
  OrderRevenue.mk
    (OrderGross.mk "O1" (Num.Float 20) "C1" "web" "Paris"
                   "2024-01-15T10:00:00")
    (Num.Float (-6)) (Num.Float 14).
Definition row_o3 :=
  OrderRevenue.mk
    (OrderGross.mk "O3" (Num.Float 3) "C3" "web" "Paris"
                   "2024-01-15T12:30:00")
    (Num.Float 0) (Num.Float 3).
Definition fact_o1 :=
  OrderFact.mk row_o1 (Some (Date.mk 2024 1 15)) (Some (Num.Int (int 2))).
Definition fact_o3 :=
  OrderFact.mk row_o3 (Some (Date.mk 2024 1 15)) (Some (Num.Int (int 5))).
Definition paris_web :=
  DailySummary.mk (Date.mk 2024 1 15) "Paris" "web" 2 2
                  (Num.Int (int 7)) (Num.Float 23) (Num.Float (-6))
                  (Num.Float 17).
(* The enriched row of the valid line of O1. *)
Definition full_o1 : ItemFull.t int64 float64 :=
  ItemFull.mk (Item.mk (int 2) (dec 10) "O1" "C1" "web"
                       "2024-01-15T10:00:00" "paid")
              "Paris" (Num.Float 20).

(* A paid order that was sent without lines. *)
Definition o5 : Order.t int64 float64 :=
  Order.mk "O5" "C1" "web" "2024-01-15T14:00:00" "paid" [].
(* An order of the inactive customer with a line of negative price. *)
Definition o2neg : Order.t int64 float64 :=
  Order.mk "O2" "C2" "app" "2024-01-15T11:00:00" "paid"
           [Line.mk (int 3) (dec 2); Line.mk (int 1) (dec (-1))].

(* An output directory no run has written to yet. *)
Definition empty_disk : Disk.t int64 float64 := Disk.mk (fun _ => None) [] [].

(* Days with int64 prices, in minor units. *)
Definition big : Order.t int64 int64 :=
  Order.mk "B1" "C1" "web" "2024-01-15T10:00:00" "paid"
           [Line.mk (int 4611686018427387904) (int 4)].
Definition odd : Order.t int64 int64 :=
  Order.mk "B2" "C1" "web" "2024-01-15T10:00:00" "paid"
           [Line.mk (int 1) (int 9007199254740993)].
Definition half (order_id : string) : Order.t int64 int64 :=
  Order.mk order_id "C1" "web" "2024-01-15T10:00:00" "paid"
           [Line.mk (int 1) (int 4611686018427387904)].
Definition cents : Order.t int64 int64 :=
  Order.mk "B5" "C1" "web" "2024-01-15T10:00:00" "paid"
           [Line.mk (int 2) (int 1000); Line.mk (int 3) (int 250)].
(* A ledger that holds no refund of these orders. *)
Definition old_refunds : list (Refund.t int64) :=
  [Refund.mk "A7" (int (-100))].
Definition cent_refunds : list (Refund.t int64) :=
  [Refund.mk "B5" (int (-500)); Refund.mk "B5" (int (-100))].
(* The order row of [cents], refunded twice. *)
Definition cent_out :=
  enrich_and_calculate (json_normalize [cents])
                       (filter Customer.is_active customers) cent_refunds.
Definition row_cents :=
  OrderRevenue.mk
    (OrderGross.mk "B5" (Num.Int (int 2750)) "C1" "web" "Paris"
                   "2024-01-15T10:00:00")
    (Num.Int (int (-600))) (Num.Int (int 2150)).
(* The run on [cents] and its outputs. *)
Definition cent_run := main to_datetime customers [cents] cent_refunds.
Definition cent_summary : list DailySummary.t :=
  match Run.result cent_run with
  | Some out => fst out
  | None => []
  end.
Definition cent_facts : list OrderFact.t :=
  match Run.result cent_run with
  | Some out => snd out
  | None => []
  end.
Definition cent_row :=
  DailySummary.mk (Date.mk 2024 1 15) "Paris" "web" 1 1
                  (Num.Int (int 5)) (Num.Int (int 2750))
                  (Num.Int (int (-600))) (Num.Int (int 2150)).
(* The key of the orders of Paris on the web that day. *)
Definition paris_web_key : Date.t * (string * string) :=
  (Date.mk 2024 1 15, ("Paris", "web")).
End Sample.


(** * Facts about the dataframe operations *)

(** ** Rows kept in place: subsequences *)

Inductive subseq {A : Type} : list A -> list A -> Prop :=
| subseq_nil : subseq [] []
| subseq_skip : forall x l1 l2, subseq l1 l2 -> subseq l1 (x :: l2)
| subseq_keep : forall x l1 l2, subseq l1 l2 -> subseq (x :: l1) (x :: l2).

Create HintDb frames.
#[local] Hint Constructors subseq : frames.

Lemma subseq_refl {A} (l : list A) : subseq l l.
Proof. induction l; auto with frames. Qed.

Lemma subseq_In {A} (l1 l2 : list A) :
  subseq l1 l2 -> forall x, In x l1 -> In x l2.
Proof.
  induction 1; simpl; intros y Hy; auto.
  destruct Hy as [-> | Hy]; auto.
Qed.

Lemma filter_subseq {A} (p : A -> bool) (l : list A) : subseq (filter p l) l.
Proof.
  induction l as [|x l IH]; simpl; auto with frames.
  destruct (p x); auto with frames.
Qed.

(** ** Keys *)

Section KeyFacts.
Context {K : Type} `{Key K}.

Lemma keqb_refl (k : K) : keqb k k = true.
Proof. apply keqb_eq. reflexivity. Qed.

Lemma keqb_neq (x y : K) : keqb x y = false <-> x <> y.
Proof.
  split.
  - intros E ->. rewrite keqb_refl in E. discriminate.
  - intros N. destruct (keqb x y) eqn:E; auto.
    apply keqb_eq in E. contradiction.
Qed.

Lemma keqb_sym (x y : K) : keqb x y = keqb y x.
Proof.
  destruct (keqb y x) eqn:E.
  - apply keqb_eq in E. subst. apply keqb_refl.
  - apply keqb_neq in E. apply keqb_neq. auto.
Qed.

Lemma isin_In (k : K) (ks : list K) : isin k ks = true <-> In k ks.
Proof.
  unfold isin. rewrite existsb_exists. split.
  - intros [x [Hx E]]. apply keqb_eq in E. subst. assumption.
  - intros Hk. exists k. split; [assumption | apply keqb_refl].
Qed.

Lemma isin_not_In (k : K) (ks : list K) : isin k ks = false <-> ~ In k ks.
Proof.
  rewrite <- isin_In. destruct (isin k ks); split; intros E; easy.
Qed.
End KeyFacts.

(** ** drop_duplicates *)

Section DropDuplicates.
Context {K : Type} `{Key K}.
Variable R : Type.
Variable key : R -> K.

Lemma drop_duplicates_from_subseq (rows : list R) :
  forall seen, subseq (drop_duplicates_from key seen rows) rows.
Proof.
  induction rows as [|r rest IH]; simpl; intros seen; auto with frames.
  destruct (isin (key r) seen); auto with frames.
Qed.

Lemma drop_duplicates_from_fresh (rows : list R) :
  forall seen r, In r (drop_duplicates_from key seen rows) ->
                 ~ In (key r) seen.
Proof.
  induction rows as [|x rest IH]; simpl; intros seen r Hr; [contradiction|].
  destruct (isin (key x) seen) eqn:E.
  - eauto.
  - destruct Hr as [-> | Hr].
    + apply isin_not_In. assumption.
    + apply IH in Hr. simpl in Hr. tauto.
Qed.

Lemma drop_duplicates_from_NoDup (rows : list R) :
  forall seen, NoDup (map key (drop_duplicates_from key seen rows)).
Proof.
  induction rows as [|x rest IH]; simpl; intros seen; [constructor|].
  destruct (isin (key x) seen); auto.
  simpl. constructor; auto.
  rewrite in_map_iff. intros [y [Ey Hy]].
  apply drop_duplicates_from_fresh in Hy. rewrite Ey in Hy.
  simpl in Hy. tauto.
Qed.

(* First wins: looking a key up in the result finds the row that
   looking it up in the input finds. *)
Lemma drop_duplicates_from_find (rows : list R) (k : K) :
  forall seen,
    find (fun r => keqb (key r) k) (drop_duplicates_from key seen rows) =
    if isin k seen then None else find (fun r => keqb (key r) k) rows.
Proof.
  induction rows as [|x rest IH]; simpl; intros seen.
  - destruct (isin k seen); reflexivity.
  - destruct (isin (key x) seen) eqn:Ex.
    + rewrite IH. destruct (isin k seen) eqn:Ek; auto.
      destruct (keqb (key x) k) eqn:E; auto.
      apply keqb_eq in E. congruence.
    + simpl. rewrite IH. simpl. rewrite (keqb_sym k (key x)).
      destruct (keqb (key x) k) eqn:E; simpl.
      * apply keqb_eq in E. subst. rewrite Ex. reflexivity.
      * reflexivity.
Qed.

Lemma drop_duplicates_from_id (rows : list R) :
  forall seen,
    NoDup (map key rows) ->
    (forall r, In r rows -> ~ In (key r) seen) ->
    drop_duplicates_from key seen rows = rows.
Proof.
  induction rows as [|x rest IH]; simpl; intros seen ND Hs; auto.
  inversion ND as [|? ? Hx ND']; subst.
  assert (E : isin (key x) seen = false)
    by (apply isin_not_In; apply Hs; auto).
  rewrite E. f_equal. apply IH; auto.
  intros r Hr [Ek | Hk].
  - apply Hx. rewrite Ek. apply in_map. assumption.
  - apply (Hs r); auto.
Qed.

Lemma drop_duplicates_keys (rows : list R) :
  forall seen k,
    In k (map key (drop_duplicates_from key seen rows)) <->
    In k (map key rows) /\ ~ In k seen.
Proof.
  induction rows as [|x rest IH]; simpl; intros seen k; [tauto|].
  destruct (isin (key x) seen) eqn:E.
  - rewrite IH. apply isin_In in E. split; [tauto|].
    intros [[Ek | Hk] Hs]; [subst; contradiction | tauto].
  - simpl. rewrite IH. simpl. apply isin_not_In in E.
    split.
    + intros [Ek | [Hk Hs]]; [subst; tauto | tauto].
    + intros [[Ek | Hk] Hs]; [tauto|].
      destruct (keqb (key x) k) eqn:Ek.
      * apply keqb_eq in Ek. tauto.
      * apply keqb_neq in Ek. right. split; [assumption|]. tauto.
Qed.
End DropDuplicates.

(** ** groupby *)

Section GroupBy.
Context {K : Type} `{Key K}.
Variable R : Type.
Variable key : R -> K.

(* The group stored under a key in an index. *)
Definition group_of (k : K) (idx : list (K * list R)) : option (list R) :=
  option_map snd (find (fun g => keqb (fst g) k) idx).

(* The rows of a key, as a group: no group when there are none. *)
Definition nonempty (rs : list R) : option (list R) :=
  match rs with
  | [] => None
  | _ => Some rs
  end.

Lemma rows_of_app (k : K) (l1 l2 : list R) :
  rows_of key k (l1 ++ l2) = rows_of key k l1 ++ rows_of key k l2.
Proof. apply filter_app. Qed.

Lemma rows_of_key (k : K) (rows : list R) (r : R) :
  In r (rows_of key k rows) <-> In r rows /\ key r = k.
Proof. unfold rows_of. rewrite filter_In, keqb_eq. tauto. Qed.

Lemma group_of_add_row (k k0 : K) (r : R) (idx : list (K * list R)) :
  group_of k (add_row k0 r idx) =
  if keqb k0 k then
    Some (match group_of k idx with
          | Some old => old ++ [r]
          | None => [r]
          end)
  else group_of k idx.
Proof.
  unfold group_of.
  induction idx as [|[k' rs] rest IH]; simpl.
  - destruct (keqb k0 k); reflexivity.
  - destruct (keqb k0 k') eqn:E0; simpl.
    + apply keqb_eq in E0. subst k'.
      destruct (keqb k0 k); reflexivity.
    + destruct (keqb k' k) eqn:E'; simpl.
      * apply keqb_eq in E'. subst k'. rewrite E0. reflexivity.
      * apply IH.
Qed.

Lemma add_row_keys (k0 : K) (r : R) (idx : list (K * list R)) :
  map fst (add_row k0 r idx) =
  if isin k0 (map fst idx) then map fst idx else map fst idx ++ [k0].
Proof.
  induction idx as [|[k' rs] rest IH]; simpl; auto.
  destruct (keqb k0 k') eqn:E0; simpl; auto.
  rewrite IH. destruct (isin k0 (map fst rest)); reflexivity.
Qed.

Lemma add_row_NoDup (k0 : K) (r : R) (idx : list (K * list R)) :
  NoDup (map fst idx) -> NoDup (map fst (add_row k0 r idx)).
Proof.
  intros ND. rewrite add_row_keys.
  destruct (isin k0 (map fst idx)) eqn:E; auto.
  apply isin_not_In in E.
  apply (Permutation_NoDup (l := k0 :: map fst idx)).
  - apply Permutation_cons_append.
  - constructor; assumption.
Qed.

(* An index holds the rows seen so far. *)
Definition indexes (rows : list R) (idx : list (K * list R)) : Prop :=
  NoDup (map fst idx) /\
  forall k, group_of k idx = nonempty (rows_of key k rows).

Lemma indexes_add_row (rows : list R) (idx : list (K * list R)) (r : R) :
  indexes rows idx -> indexes (rows ++ [r]) (add_row (key r) r idx).
Proof.
  intros [ND G]. split; [apply add_row_NoDup; assumption|].
  intros k. rewrite group_of_add_row, G, rows_of_app. simpl.
  destruct (keqb (key r) k).
  - destruct (rows_of key k rows); reflexivity.
  - rewrite app_nil_r. reflexivity.
Qed.

Lemma indexes_fold (rows done : list R) :
  forall idx,
    indexes done idx ->
    indexes (done ++ rows)
            (fold_left (fun idx r => add_row (key r) r idx) rows idx).
Proof.
  revert done.
  induction rows as [|r rest IH]; simpl; intros done idx I.
  - rewrite app_nil_r. assumption.
  - replace (done ++ r :: rest) with ((done ++ [r]) ++ rest)
      by (rewrite <- app_assoc; reflexivity).
    apply IH. apply indexes_add_row. assumption.
Qed.

Lemma group_index_indexes (rows : list R) :
  indexes rows (group_index key rows).
Proof.
  apply (indexes_fold rows (done := [])). split; [constructor|].
  intros k. reflexivity.
Qed.

Lemma group_of_In (idx : list (K * list R)) (k : K) (rs : list R) :
  NoDup (map fst idx) ->
  (In (k, rs) idx <-> group_of k idx = Some rs).
Proof.
  unfold group_of.
  induction idx as [|[k' rs'] rest IH]; simpl; intros ND.
  - split; [contradiction | discriminate].
  - inversion ND as [|? ? Hk ND']; subst.
    destruct (keqb k' k) eqn:E; simpl.
    + apply keqb_eq in E. subst k'. split.
      * intros [E | Hin]; [congruence|].
        exfalso. apply Hk. apply (in_map fst) in Hin. assumption.
      * intros E. left. congruence.
    + apply keqb_neq in E. rewrite <- (IH ND'). split.
      * intros [E' | Hin]; [congruence | assumption].
      * auto.
Qed.

Lemma insert_group_perm (g : K * list R) (gs : list (K * list R)) :
  Permutation (insert_group g gs) (g :: gs).
Proof.
  induction gs as [|h rest IH]; simpl; auto.
  destruct (kleb (fst g) (fst h)); auto.
  rewrite IH. apply perm_swap.
Qed.

Lemma sort_groups_perm (gs : list (K * list R)) :
  Permutation (sort_groups gs) gs.
Proof.
  induction gs as [|g rest IH]; simpl; auto.
  rewrite insert_group_perm. auto.
Qed.

(** The groups of [groupby]: one per key, and the group of a key is
    the rows of that key, in row order. *)
Lemma groupby_NoDup (rows : list R) : NoDup (map fst (groupby key rows)).
Proof.
  unfold groupby.
  apply (Permutation_NoDup (l := map fst (group_index key rows))).
  - apply Permutation_map. symmetry. apply sort_groups_perm.
  - apply group_index_indexes.
Qed.

Lemma groupby_In (rows : list R) (k : K) (rs : list R) :
  In (k, rs) (groupby key rows) <->
  rs = rows_of key k rows /\ rs <> [].
Proof.
  unfold groupby.
  destruct (group_index_indexes rows) as [ND G].
  split.
  - intros Hin.
    apply (Permutation_in _ (sort_groups_perm _)) in Hin.
    apply (group_of_In _ _ _ ND) in Hin. rewrite G in Hin.
    destruct (rows_of key k rows); simpl in Hin; [discriminate|].
    injection Hin as <-. split; [reflexivity | discriminate].
  - intros [-> Hne].
    apply (Permutation_in _ (Permutation_sym (sort_groups_perm _))).
    apply (group_of_In _ _ _ ND). rewrite G.
    destruct (rows_of key k rows); simpl; [contradiction | reflexivity].
Qed.

Lemma groupby_keys (rows : list R) (k : K) :
  In k (map fst (groupby key rows)) <-> In k (map key rows).
Proof.
  rewrite !in_map_iff. split.
  - intros [[k' rs] [E Hin]]. simpl in E. subst k'.
    apply groupby_In in Hin. destruct Hin as [-> Hne].
    destruct (rows_of key k rows) as [|r l] eqn:Er; [contradiction|].
    assert (Hr : In r (rows_of key k rows)) by (rewrite Er; left; auto).
    apply rows_of_key in Hr. exists r. tauto.
  - intros [r [E Hr]].
    exists (k, rows_of key k rows). split; [reflexivity|].
    apply groupby_In. split; [reflexivity|].
    intros E0.
    assert (Hin : In r (rows_of key k rows))
      by (apply rows_of_key; auto).
    rewrite E0 in Hin. contradiction.
Qed.

(* A group found by its key. *)
Lemma groupby_find (rows : list R) (k : K) :
  find (fun g => keqb (fst g) k) (groupby key rows) =
  match rows_of key k rows with
  | [] => None
  | rs => Some (k, rs)
  end.
Proof.
  destruct (find (fun g => keqb (fst g) k) (groupby key rows))
    as [[k' rs']|] eqn:F.
  - apply find_some in F. destruct F as [Hin E]. simpl in E.
    apply keqb_eq in E. subst k'.
    apply groupby_In in Hin. destruct Hin as [-> Hne].
    destruct (rows_of key k rows); [contradiction | reflexivity].
  - destruct (rows_of key k rows) as [|r l] eqn:E; auto.
    exfalso.
    assert (Hin : In (k, r :: l) (groupby key rows)).
    { apply groupby_In. rewrite E. split; [reflexivity | discriminate]. }
    apply (find_none _ _ F) in Hin. simpl in Hin.
    rewrite keqb_refl in Hin. discriminate.
Qed.
End GroupBy.

(** ** merge *)

Section MergeFacts.
Context {K : Type} `{Key K}.
Variables R S : Type.
Variable kl : R -> K.
Variable kr : S -> K.

Lemma rows_of_unique (right : list S) (k : K) :
  NoDup (map kr right) ->
  rows_of kr k right =
  match find (fun r => keqb (kr r) k) right with
  | Some r => [r]
  | None => []
  end.
Proof.
  induction right as [|x rest IH]; simpl; intros ND; auto.
  inversion ND as [|? ? Hx ND']; subst.
  destruct (keqb (kr x) k) eqn:E.
  - apply keqb_eq in E. subst k. f_equal.
    destruct (rows_of kr (kr x) rest) as [|y l] eqn:Ey; auto.
    exfalso. apply Hx.
    assert (Hy : In y (rows_of kr (kr x) rest)) by (rewrite Ey; left; auto).
    apply rows_of_key in Hy. destruct Hy as [Hy <-].
    apply in_map. assumption.
  - apply IH. assumption.
Qed.

(* With unique keys on the right a left merge is a lookup: one output
   row per left row, in the same order. *)
Lemma merge_left_unique (left : list R) (right : list S) :
  NoDup (map kr right) ->
  merge_left kl kr left right =
  map (fun l => (l, find (fun r => keqb (kr r) (kl l)) right)) left.
Proof.
  intros ND. unfold merge_left.
  induction left as [|l rest IH]; [reflexivity|].
  cbn [flat_map]. rewrite IH, rows_of_unique by assumption.
  destruct (find (fun r => keqb (kr r) (kl l)) right) eqn:F;
    simpl; rewrite F; reflexivity.
Qed.

Lemma merge_inner_In (left : list R) (right : list S) (l : R) (r : S) :
  In (l, r) (merge_inner kl kr left right) <->
  In l left /\ In r right /\ kr r = kl l.
Proof.
  unfold merge_inner. rewrite in_flat_map. split.
  - intros [l' [Hl Hin]]. apply in_map_iff in Hin.
    destruct Hin as [r' [E Hr]]. injection E as -> ->.
    apply rows_of_key in Hr. tauto.
  - intros [Hl [Hr E]]. exists l. split; [assumption|].
    apply in_map. apply rows_of_key. tauto.
Qed.
End MergeFacts.

Lemma subseq_length {A} (l1 l2 : list A) :
  subseq l1 l2 -> (List.length l1 <= List.length l2)%nat.
Proof. induction 1; simpl; lia. Qed.

Lemma nunique_le_length (l : list string) :
  nunique l <= Z.of_nat (List.length l).
Proof.
  unfold nunique, drop_duplicates.
  apply inj_le. apply subseq_length. apply drop_duplicates_from_subseq.
Qed.


Lemma subseq_trans {A} (l1 l2 l3 : list A) :
  subseq l1 l2 -> subseq l2 l3 -> subseq l1 l3.
Proof.
  intros H12 H23. revert l1 H12.
  induction H23 as [|x l2 l3 H IH|x l2 l3 H IH]; intros l1 H12.
  - assumption.
  - constructor. apply IH. assumption.
  - inversion H12; subst; auto with frames.
Qed.


Lemma filter_map_commute {A B} (h : A -> B) (p : B -> bool) (l : list A) :
  filter p (map h l) = map h (filter (fun x => p (h x)) l).
Proof.
  induction l as [|x l IH]; simpl; auto.
  destruct (p (h x)); simpl; congruence.
Qed.

Lemma find_map {A B} (f : A -> B) (p : B -> bool) (l : list A) :
  find p (map f l) = option_map f (find (fun a => p (f a)) l).
Proof.
  induction l as [|a l IH]; simpl; auto.
  destruct (p (f a)); auto.
Qed.

Lemma rows_of_filter {R} (key : R -> string) (p : R -> bool) k (rows : list R) :
  (forall r, In r rows -> key r = k -> p r = true) ->
  rows_of key k (filter p rows) = rows_of key k rows.
Proof.
  unfold rows_of.
  induction rows as [|r rest IH]; cbn [filter]; intros Hp; auto.
  destruct (keqb (key r) k) eqn:E.
  - rewrite (Hp r) by (simpl; auto; apply keqb_eq; assumption).
    cbn [filter]. rewrite E. f_equal. apply IH. simpl in Hp. auto.
  - destruct (p r); cbn [filter]; [rewrite E|]; apply IH; simpl in Hp; auto.
Qed.

Lemma first_In {R} (f : R -> string) (rs : list R) :
  rs <> [] -> exists r, In r rs /\ first f rs = f r.
Proof.
  destruct rs as [|r l]; [contradiction|].
  intros _. exists r. split; [left; reflexivity | reflexivity].
Qed.

Lemma filter_nil_all {A} (p : A -> bool) (l : list A) :
  (forall x, In x l -> p x = false) -> filter p l = [].
Proof.
  induction l as [|x l IH]; intros Hp; [reflexivity|].
  cbn [filter]. rewrite (Hp x) by (left; reflexivity).
  apply IH. intros y Hy. apply Hp. right. exact Hy.
Qed.

Lemma filter_perm {A} (p : A -> bool) (l1 l2 : list A) :
  Permutation l1 l2 -> Permutation (filter p l1) (filter p l2).
Proof.
  induction 1 as [|x l l' _ IH|x y l|l l' l'' _ IH1 _ IH2]; cbn [filter].
  - constructor.
  - destruct (p x); [constructor|]; exact IH.
  - destruct (p x), (p y); try reflexivity. apply perm_swap.
  - exact (Permutation_trans IH1 IH2).
Qed.

Lemma isin_find {R} (key : R -> string) (k : string) (rows : list R) :
  isin k (map key rows) =
  match find (fun r => keqb (key r) k) rows with
  | Some _ => true
  | None => false
  end.
Proof.
  unfold isin. induction rows as [|r rest IH]; [reflexivity|].
  cbn [map existsb find]. rewrite (keqb_sym k (key r)).
  destruct (keqb (key r) k); [reflexivity | exact IH].
Qed.

(** ** The order on keys *)

(* The laws that make [kleb] a total order. *)
Class KeyOrder (K : Type) `{Key K} : Prop := {
  kleb_total : forall x y : K, kleb x y = true \/ kleb y x = true;
  kleb_trans : forall x y z : K,
      kleb x y = true -> kleb y z = true -> kleb x z = true;
  kleb_antisym : forall x y : K,
      kleb x y = true -> kleb y x = true -> x = y
}.
Arguments KeyOrder K {_}.

Lemma ascii_compare_trans_lt (a b c : Ascii.ascii) :
  Ascii.compare a b = Lt -> Ascii.compare b c = Lt -> Ascii.compare a c = Lt.
Proof.
  unfold Ascii.compare. rewrite !N.compare_lt_iff. apply N.lt_trans.
Qed.

Lemma string_leb_cons (a b : Ascii.ascii) (s t : string) :
  String.leb (String a s) (String b t) =
  match Ascii.compare a b with
  | Eq => String.leb s t
  | Lt => true
  | Gt => false
  end.
Proof.
  unfold String.leb. simpl. destruct (Ascii.compare a b); reflexivity.
Qed.

Lemma string_leb_trans (s t u : string) :
  String.leb s t = true -> String.leb t u = true -> String.leb s u = true.
Proof.
  revert t u. induction s as [|a s IH]; intros [|b t] [|c u]; try easy.
  rewrite !string_leb_cons.
  destruct (Ascii.compare a b) eqn:Eab; try discriminate;
    destruct (Ascii.compare b c) eqn:Ebc; try discriminate; intros H1 H2.
  - apply Ascii.compare_eq_iff in Eab. apply Ascii.compare_eq_iff in Ebc.
    subst. rewrite (proj2 (N.compare_eq_iff _ _) eq_refl : Ascii.compare c c = Eq).
    eauto.
  - apply Ascii.compare_eq_iff in Eab. subst. rewrite Ebc. reflexivity.
  - apply Ascii.compare_eq_iff in Ebc. subst. rewrite Eab. reflexivity.
  - rewrite (ascii_compare_trans_lt _ _ _ Eab Ebc). reflexivity.
Qed.

#[export] Instance KeyOrder_string : KeyOrder string := {
  kleb_total := String.leb_total;
  kleb_trans := string_leb_trans;
  kleb_antisym := String.leb_antisym
}.

Lemma Date_leb_total (a b : Date.t) :
  Date.leb a b = true \/ Date.leb b a = true.
Proof.
  unfold Date.leb. destruct a as [y m d], b as [y' m' d']; simpl.
  destruct (Z.eqb_spec y y'), (Z.eqb_spec y' y),
    (Z.eqb_spec m m'), (Z.eqb_spec m' m);
    rewrite ?Z.leb_le, ?Z.ltb_lt; lia.
Qed.

Lemma Date_leb_trans (a b c : Date.t) :
  Date.leb a b = true -> Date.leb b c = true -> Date.leb a c = true.
Proof.
  unfold Date.leb.
  destruct a as [y m d], b as [y' m' d'], c as [y'' m'' d'']; simpl.
  destruct (Z.eqb_spec y y'), (Z.eqb_spec y' y''), (Z.eqb_spec y y''),
    (Z.eqb_spec m m'), (Z.eqb_spec m' m''), (Z.eqb_spec m m'');
    rewrite ?Z.leb_le, ?Z.ltb_lt; lia.
Qed.

Lemma Date_leb_antisym (a b : Date.t) :
  Date.leb a b = true -> Date.leb b a = true -> a = b.
Proof.
  unfold Date.leb. destruct a as [y m d], b as [y' m' d']; simpl.
  destruct (Z.eqb_spec y y'), (Z.eqb_spec y' y),
    (Z.eqb_spec m m'), (Z.eqb_spec m' m);
    rewrite ?Z.leb_le, ?Z.ltb_lt; intros; try lia.
  f_equal; lia.
Qed.

#[export] Instance KeyOrder_date : KeyOrder Date.t := {
  kleb_total := Date_leb_total;
  kleb_trans := Date_leb_trans;
  kleb_antisym := Date_leb_antisym
}.

Section PairOrder.
Context {A B : Type} `{KeyOrder A} `{KeyOrder B}.

Lemma pair_leb_total (p q : A * B) :
  pair_leb p q = true \/ pair_leb q p = true.
Proof.
  unfold pair_leb. destruct p as [a b], q as [a' b']; simpl.
  rewrite (keqb_sym a' a).
  destruct (keqb a a'); [apply kleb_total | apply kleb_total].
Qed.

Lemma pair_leb_antisym (p q : A * B) :
  pair_leb p q = true -> pair_leb q p = true -> p = q.
Proof.
  unfold pair_leb. destruct p as [a b], q as [a' b']; simpl.
  rewrite (keqb_sym a' a).
  destruct (keqb a a') eqn:E; intros Hpq Hqr.
  - apply keqb_eq in E. subst. f_equal. apply kleb_antisym; assumption.
  - apply keqb_neq in E. exfalso. apply E. apply kleb_antisym; assumption.
Qed.

Lemma pair_leb_trans (p q r : A * B) :
  pair_leb p q = true -> pair_leb q r = true -> pair_leb p r = true.
Proof.
  unfold pair_leb. destruct p as [a b], q as [a' b'], r as [a'' b'']; simpl.
  destruct (keqb a a') eqn:E1; destruct (keqb a' a'') eqn:E2;
    destruct (keqb a a'') eqn:E3;
    rewrite ?keqb_eq, ?keqb_neq in *; subst; intros Hpq Hqr;
    try congruence; eauto using kleb_trans.
  exfalso. apply E1. apply kleb_antisym; assumption.
Qed.

#[export] Instance KeyOrder_pair : KeyOrder (A * B) := {
  kleb_total := pair_leb_total;
  kleb_trans := pair_leb_trans;
  kleb_antisym := pair_leb_antisym
}.
End PairOrder.

(** ** Groups come out in key order *)

Section GroupOrder.
Context {K : Type} `{KeyOrder K}.
Variable R : Type.

Definition key_le (a b : K) : Prop := kleb a b = true.

Lemma insert_group_sorted (g : K * list R) (gs : list (K * list R)) :
  StronglySorted key_le (map fst gs) ->
  StronglySorted key_le (map fst (insert_group g gs)).
Proof.
  induction gs as [|h rest IH]; simpl; intros S.
  - constructor; constructor.
  - apply StronglySorted_inv in S. destruct S as [S F].
    destruct (kleb (fst g) (fst h)) eqn:E; simpl.
    + constructor.
      * constructor; assumption.
      * constructor; [exact E|].
        revert F. apply Forall_impl. intros k Hk.
        exact (kleb_trans _ _ _ E Hk).
    + constructor; [apply IH; assumption|].
      apply Forall_forall. intros k Hk.
      apply (Permutation_in _ (Permutation_map fst (insert_group_perm g rest)))
        in Hk.
      destruct Hk as [<- | Hk].
      * destruct (kleb_total (fst g) (fst h)) as [T | T];
          [congruence | exact T].
      * rewrite Forall_forall in F. apply F. exact Hk.
Qed.

Lemma sort_groups_sorted (gs : list (K * list R)) :
  StronglySorted key_le (map fst (sort_groups gs)).
Proof.
  induction gs as [|g rest IH]; simpl; [constructor|].
  apply insert_group_sorted. assumption.
Qed.

Lemma groupby_sorted (key : R -> K) (rows : list R) :
  StronglySorted key_le (map fst (groupby key rows)).
Proof. apply sort_groups_sorted. Qed.

(* Distinct and ordered: strictly ascending. *)
Lemma sorted_NoDup_strict (ks : list K) :
  StronglySorted key_le ks -> NoDup ks ->
  StronglySorted (fun a b => key_le a b /\ a <> b) ks.
Proof.
  induction 1 as [|k l S IH F]; intros ND; constructor.
  - apply IH. inversion ND; assumption.
  - inversion ND as [|? ? Hk ND']; subst.
    apply Forall_forall. intros x Hx. split.
    + rewrite Forall_forall in F. auto.
    + intros <-. contradiction.
Qed.
End GroupOrder.

(** ** The groups partition the rows *)

Lemma Permutation_concat {A} (l1 l2 : list (list A)) :
  Permutation l1 l2 -> Permutation (List.concat l1) (List.concat l2).
Proof.
  induction 1 as [|x l l' _ IH|x y l|l l' l'' _ IH1 _ IH2]; simpl.
  - constructor.
  - apply Permutation_app_head. exact IH.
  - rewrite !app_assoc. apply Permutation_app_tail. apply Permutation_app_comm.
  - exact (Permutation_trans IH1 IH2).
Qed.

Section GroupPartition.
Context {K : Type} `{Key K}.
Variable R : Type.
Variable key : R -> K.

Lemma add_row_concat (k : K) (r : R) (idx : list (K * list R)) :
  Permutation (List.concat (map snd (add_row k r idx)))
              (r :: List.concat (map snd idx)).
Proof.
  induction idx as [|[k' rs] rest IH]; simpl.
  - constructor. constructor.
  - destruct (keqb k k'); simpl.
    + rewrite <- app_assoc. simpl. symmetry. apply Permutation_middle.
    + rewrite IH. symmetry. apply Permutation_middle.
Qed.

Lemma group_index_concat (rows : list R) :
  forall idx,
    Permutation
      (List.concat (map snd (fold_left (fun idx r => add_row (key r) r idx)
                                  rows idx)))
      (List.concat (map snd idx) ++ rows).
Proof.
  induction rows as [|r rest IH]; simpl; intros idx.
  - rewrite app_nil_r. reflexivity.
  - rewrite IH, add_row_concat. simpl. apply Permutation_middle.
Qed.

(* Every row is in exactly one group. *)
Lemma groupby_partition (rows : list R) :
  Permutation (List.concat (map snd (groupby key rows))) rows.
Proof.
  unfold groupby.
  rewrite (Permutation_concat (Permutation_map snd (sort_groups_perm _))).
  unfold group_index. rewrite group_index_concat. reflexivity.
Qed.
End GroupPartition.


(** ** Paths *)

Lemma string_length_append (s t : string) :
  String.length (s ++ t) = (String.length s + String.length t)%nat.
Proof. induction s as [|c s IH]; simpl; [reflexivity | rewrite IH; reflexivity]. Qed.

Lemma string_append_cancel_r (s s' t : string) :
  (s ++ t = s' ++ t)%string -> s = s'.
Proof.
  revert s'. induction s as [|c s IH]; intros [|c' s'] E; simpl in E.
  - reflexivity.
  - exfalso. apply (f_equal String.length) in E.
    simpl in E. rewrite string_length_append in E. lia.
  - exfalso. apply (f_equal String.length) in E.
    simpl in E. rewrite string_length_append in E. lia.
  - injection E as -> E. f_equal. apply IH. exact E.
Qed.

Lemma rejected_items_path_inj d d' :
  rejected_items_path d = rejected_items_path d' -> d = d'.
Proof.
  unfold rejected_items_path. simpl. intros E.
  repeat (injection E as E).
  exact (string_append_cancel_r _ _ _ E).
Qed.

Lemma daily_summary_path_inj d d' :
  daily_summary_path d = daily_summary_path d' -> d = d'.
Proof.
  unfold daily_summary_path. simpl. intros E.
  repeat (injection E as E).
  exact (string_append_cancel_r _ _ _ E).
Qed.

Lemma paths_apart d d' : rejected_items_path d <> daily_summary_path d'.
Proof. unfold rejected_items_path, daily_summary_path. simpl. intros E. discriminate E. Qed.


(** * Facts about the numbers *)

Lemma Int64_eq (a b : Int64.t) : Int64.to_Z a = Int64.to_Z b -> a = b.
Proof.
  destruct a as [x Hx], b as [y Hy]. simpl. intros ->.
  f_equal. apply (UIP_dec bool_dec).
Qed.

Lemma Int64_in_range (a : Int64.t) :
  - 9223372036854775808 <= Int64.to_Z a < 9223372036854775808.
Proof.
  pose proof (Int64.range a) as H. unfold Int64.in_range in H.
  apply andb_true_iff in H. rewrite Z.leb_le, Z.ltb_lt in H. exact H.
Qed.

Lemma Int64_wrap_small (z : Z) :
  - 9223372036854775808 <= z < 9223372036854775808 -> Int64.wrap z = z.
Proof. intros H. unfold Int64.wrap. rewrite Z.mod_small; lia. Qed.

Lemma Int64_wrap_add_l (a b : Z) :
  Int64.wrap (Int64.wrap a + b) = Int64.wrap (a + b).
Proof.
  unfold Int64.wrap. f_equal.
  replace ((a + 9223372036854775808) mod 18446744073709551616
           - 9223372036854775808 + b + 9223372036854775808)
    with ((a + 9223372036854775808) mod 18446744073709551616 + b) by lia.
  rewrite Zplus_mod_idemp_l. f_equal. lia.
Qed.

Lemma Int64_wrap_add_r (a b : Z) :
  Int64.wrap (a + Int64.wrap b) = Int64.wrap (a + b).
Proof. rewrite Z.add_comm, Int64_wrap_add_l. f_equal. lia. Qed.

Lemma Int64_to_Z_of_Z (z : Z) : Int64.to_Z (Int64.of_Z z) = Int64.wrap z.
Proof. reflexivity. Qed.

Lemma Int64_of_Z_to_Z (a : Int64.t) : Int64.of_Z (Int64.to_Z a) = a.
Proof.
  apply Int64_eq. rewrite Int64_to_Z_of_Z.
  apply Int64_wrap_small. apply Int64_in_range.
Qed.

(* Wrapping commutes with addition: only the final wrap counts. *)
Lemma Int64_add_of_Z (a b : Z) :
  Int64.add (Int64.of_Z a) (Int64.of_Z b) = Int64.of_Z (a + b).
Proof.
  apply Int64_eq. unfold Int64.add. rewrite !Int64_to_Z_of_Z.
  rewrite Int64_wrap_add_l, Int64_wrap_add_r. reflexivity.
Qed.

Lemma Int64_add_comm (a b : Int64.t) : Int64.add a b = Int64.add b a.
Proof. unfold Int64.add. rewrite Z.add_comm. reflexivity. Qed.

Lemma Int64_add_assoc (a b c : Int64.t) :
  Int64.add (Int64.add a b) c = Int64.add a (Int64.add b c).
Proof.
  apply Int64_eq. unfold Int64.add. rewrite !Int64_to_Z_of_Z.
  rewrite Int64_wrap_add_l, Int64_wrap_add_r. f_equal. lia.
Qed.

Lemma Int64_add_zero_l (a : Int64.t) : Int64.add Int64.zero a = a.
Proof. unfold Int64.add. simpl. apply Int64_of_Z_to_Z. Qed.

(* The exact sum of the integers that int64 cells hold. *)
Definition exact_sum (l : list Z) : Z := fold_right Z.add 0 l.

Lemma exact_sum_app (l1 l2 : list Z) :
  exact_sum (l1 ++ l2) = exact_sum l1 + exact_sum l2.
Proof. induction l1 as [|x l IH]; simpl; lia. Qed.

Lemma exact_sum_perm (l1 l2 : list Z) :
  Permutation l1 l2 -> exact_sum l1 = exact_sum l2.
Proof. induction 1; simpl; lia. Qed.

Lemma wrap_sum_from (l : list Int64.t) :
  forall acc,
    fold_left (fun acc c =>
                 match c with
                 | Num.Int i => Int64.add acc i
                 | Num.Float _ => acc
                 end) (map Num.Int l) acc =
    Int64.of_Z (Int64.to_Z acc + exact_sum (map Int64.to_Z l)).
Proof.
  induction l as [|i l IH]; intros acc.
  - simpl. rewrite Z.add_0_r. symmetry. apply Int64_of_Z_to_Z.
  - cbn [map fold_left]. rewrite IH.
    apply Int64_eq. unfold Int64.add. rewrite !Int64_to_Z_of_Z.
    rewrite Int64_wrap_add_l. f_equal.
    unfold exact_sum. cbn [map fold_right]. lia.
Qed.

(* On int64 cells the [sum] aggregator is the exact sum, wrapped once. *)
Lemma Num_sum_ints (l : list Int64.t) :
  Num.sum (map Num.Int l) =
  Num.Int (Int64.of_Z (exact_sum (map Int64.to_Z l))).
Proof.
  unfold Num.sum.
  assert (E : forallb Num.is_int (map Num.Int l) = true)
    by (apply forallb_forall; intros x Hx; apply in_map_iff in Hx;
        destruct Hx as [i [<- _]]; reflexivity).
  rewrite E. unfold Num.wrap_sum. rewrite wrap_sum_from. reflexivity.
Qed.

Lemma Num_mul_ints (a b : Int64.t) :
  Num.mul (Num.Int a) (Num.Int b) =
  Num.Int (Int64.of_Z (Int64.to_Z a * Int64.to_Z b)).
Proof. reflexivity. Qed.

Lemma Num_add_ints (a b : Int64.t) :
  Num.add (Num.Int a) (Num.Int b) =
  Num.Int (Int64.of_Z (Int64.to_Z a + Int64.to_Z b)).
Proof. reflexivity. Qed.

Lemma Int64_of_Z_sum_wrapped (l : list Z) :
  Int64.of_Z (exact_sum (map Int64.wrap l)) = Int64.of_Z (exact_sum l).
Proof.
  apply Int64_eq. rewrite !Int64_to_Z_of_Z.
  induction l as [|x l IH]; [reflexivity|].
  cbn [map exact_sum fold_right].
  rewrite Int64_wrap_add_l, <- Int64_wrap_add_r.
  change (fold_right Z.add 0 (map Int64.wrap l))
    with (exact_sum (map Int64.wrap l)).
  rewrite IH, Int64_wrap_add_r. reflexivity.
Qed.

(** ** A populated cell is below zero or not *)

Lemma float_not_nan (f : float) :
  PrimFloat.is_nan f = false -> Prim2SF f <> S754_nan.
Proof.
  unfold PrimFloat.is_nan. rewrite FloatAxioms.eqb_spec. intros H E.
  rewrite E in H. discriminate H.
Qed.

Lemma float_lt0_ge0 (f : float) :
  PrimFloat.is_nan f = false ->
  PrimFloat.ltb f 0%float = negb (PrimFloat.leb 0%float f).
Proof.
  intros H. apply float_not_nan in H.
  rewrite FloatAxioms.ltb_spec, FloatAxioms.leb_spec.
  change (Prim2SF 0%float) with (S754_zero false).
  destruct (Prim2SF f) as [s | s | | s m e]; try contradiction;
    try destruct s; reflexivity.
Qed.

Lemma Cell_lt0_ge0 {d : dtype} (c : cell d) : Cell.lt0 c = negb (Cell.ge0 c).
Proof.
  destruct d; simpl in *.
  - apply Z.ltb_antisym.
  - apply float_lt0_ge0. apply F64.populated.
Qed.

Lemma Cell_ge0_lt0 {d : dtype} (c : cell d) : Cell.ge0 c = negb (Cell.lt0 c).
Proof. rewrite Cell_lt0_ge0, negb_involutive. reflexivity. Qed.

(** * Facts about the stages *)

(** ** groupby on a key that may be null *)

Section NullKeyFacts.
Context {K : Type} `{Key K}.
Variable R : Type.
Variable key : R -> option K.

(* The rows that carry a key. *)
Definition rows_with (k : K) (rows : list R) : list R :=
  filter (fun r => match key r with
                   | Some k' => keqb k' k
                   | None => false
                   end) rows.

Lemma keyed_rows_of (k : K) (rows : list R) :
  map snd (rows_of fst k (keyed key rows)) = rows_with k rows.
Proof.
  unfold rows_of, rows_with, keyed.
  induction rows as [|r rest IH]; [reflexivity|].
  cbn [flat_map filter]. rewrite filter_app, map_app, IH.
  destruct (key r) as [k'|]; [|reflexivity].
  cbn [filter fst]. destruct (keqb k' k); reflexivity.
Qed.

Lemma groupby_dropna_keys (rows : list R) :
  map fst (groupby_dropna key rows) = map fst (groupby fst (keyed key rows)).
Proof. unfold groupby_dropna. rewrite map_map. reflexivity. Qed.

Lemma groupby_dropna_In (rows : list R) (k : K) (rs : list R) :
  In (k, rs) (groupby_dropna key rows) <->
  rs = rows_with k rows /\ rs <> [].
Proof.
  unfold groupby_dropna. rewrite in_map_iff. split.
  - intros [[k' krs] [E Hin]]. cbn [fst snd] in E. injection E as -> <-.
    apply groupby_In in Hin. destruct Hin as [-> Hne].
    rewrite keyed_rows_of. split; [reflexivity|].
    intros E. apply Hne. rewrite <- keyed_rows_of in E.
    destruct (rows_of fst k (keyed key rows)); [reflexivity | discriminate].
  - intros [-> Hne].
    exists (k, rows_of fst k (keyed key rows)). cbn [fst snd].
    rewrite keyed_rows_of. split; [reflexivity|].
    apply groupby_In. split; [reflexivity|].
    intros E. apply Hne. rewrite <- keyed_rows_of, E. reflexivity.
Qed.

Lemma rows_with_In (k : K) (rows : list R) (r : R) :
  In r (rows_with k rows) <-> In r rows /\ key r = Some k.
Proof.
  unfold rows_with. rewrite filter_In. split.
  - intros [Hr E]. split; [exact Hr|].
    destruct (key r) as [k'|]; [|discriminate].
    apply keqb_eq in E. congruence.
  - intros [Hr ->]. split; [exact Hr | apply keqb_refl].
Qed.

End NullKeyFacts.

(** ** The cleaning stage *)

Lemma clean_data_customers {dq dp} customers (orders : list (Order.t dq dp))
      items :
  Cleaned.customers (clean_data customers orders items) =
  filter Customer.is_active customers.
Proof. reflexivity. Qed.

Lemma clean_data_orders {dq dp} customers (orders : list (Order.t dq dp))
      items :
  Cleaned.orders (clean_data customers orders items) =
  drop_duplicates Order.order_id
    (filter (fun o => is_paid (Order.payment_status o)) orders).
Proof. reflexivity. Qed.

Lemma clean_data_items_clean {dq dp} customers (orders : list (Order.t dq dp))
      items :
  Cleaned.items_clean (clean_data customers orders items) =
  filter (fun i => Cell.ge0 (Item.unit_price i))
         (filter (fun i => is_paid (Item.payment_status i)) items).
Proof. reflexivity. Qed.

Lemma clean_data_rejected {dq dp} customers (orders : list (Order.t dq dp))
      items :
  Cleaned.rejected (clean_data customers orders items) =
  filter (fun i => Cell.lt0 (Item.unit_price i))
         (filter (fun i => is_paid (Item.payment_status i)) items).
Proof.
  unfold Cleaned.rejected, clean_data. cbn [Cleaned.rejected_file].
  destruct (filter _ (filter _ items)); reflexivity.
Qed.

Lemma clean_data_items_clean_app {dq dp} customers
      (orders : list (Order.t dq dp)) items1 items2 :
  Cleaned.items_clean (clean_data customers orders (items1 ++ items2)) =
  Cleaned.items_clean (clean_data customers orders items1) ++
  Cleaned.items_clean (clean_data customers orders items2).
Proof. rewrite !clean_data_items_clean, !filter_app. reflexivity. Qed.

Lemma clean_data_items_clean_In {dq dp} customers
      (orders : list (Order.t dq dp)) items i :
  In i (Cleaned.items_clean (clean_data customers orders items)) ->
  In i items /\ Cell.ge0 (Item.unit_price i) = true.
Proof.
  rewrite clean_data_items_clean. intros Hi.
  apply filter_In in Hi. destruct Hi as [Hi Hp].
  apply filter_In in Hi. tauto.
Qed.

Lemma is_paid_true (status : string) :
  is_paid status = true <-> status = "paid"%string.
Proof. unfold is_paid. apply String.eqb_eq. Qed.

Lemma no_negative_price_no_file {dq dp} customers
      (orders : list (Order.t dq dp)) items :
  (forall i, In i items -> Item.payment_status i = "paid"%string ->
             Cell.ge0 (Item.unit_price i) = true) ->
  Cleaned.rejected_file (clean_data customers orders items) = None.
Proof.
  intros Hall. unfold clean_data. cbn [Cleaned.rejected_file].
  rewrite filter_nil_all; [reflexivity|].
  intros i Hi. apply filter_In in Hi. destruct Hi as [Hi Hp].
  apply is_paid_true in Hp. rewrite Cell_lt0_ge0, (Hall i Hi Hp).
  reflexivity.
Qed.

(** ** The expansion of the order file *)

(* The item row [json_normalize] makes of a line of an order. *)
Definition item_of {dq dp} (o : Order.t dq dp) (l : Line.t dq dp)
  : Item.t dq dp :=
  Item.mk (Line.qty l) (Line.unit_price l)
          (Order.order_id o) (Order.customer_id o)
          (Order.channel o) (Order.created_at o) (Order.payment_status o).

Lemma json_normalize_eq {dq dp} (data : list (Order.t dq dp)) :
  json_normalize data =
  flat_map (fun o => map (item_of o) (Order.items o)) data.
Proof. reflexivity. Qed.

Lemma json_normalize_app {dq dp} (data1 data2 : list (Order.t dq dp)) :
  json_normalize (data1 ++ data2) =
  json_normalize data1 ++ json_normalize data2.
Proof. apply flat_map_app. Qed.

Lemma json_normalize_In_iff {dq dp} (data : list (Order.t dq dp)) i :
  In i (json_normalize data) <->
  exists o l, In o data /\ In l (Order.items o) /\ i = item_of o l.
Proof.
  rewrite json_normalize_eq, in_flat_map. split.
  - intros [o [Ho Hi]]. apply in_map_iff in Hi. destruct Hi as [l [<- Hl]].
    exists o, l. auto.
  - intros [o [l [Ho [Hl ->]]]]. exists o. split; [assumption|].
    apply in_map. assumption.
Qed.

(* An item row carries the order-level fields of the record it was
   expanded from. *)
Lemma json_normalize_In {dq dp} (data : list (Order.t dq dp)) i :
  In i (json_normalize data) ->
  exists o, In o data /\
            Item.order_id i = Order.order_id o /\
            Item.customer_id i = Order.customer_id o /\
            Item.payment_status i = Order.payment_status o.
Proof.
  intros Hi. apply json_normalize_In_iff in Hi.
  destruct Hi as [o [l [Ho [_ ->]]]]. exists o. cbn. auto.
Qed.

(** ** The stages of enrich_and_calculate, named *)

(* [df_items_full]. *)
Definition items_full_of {dq dp} (df_items_clean : list (Item.t dq dp))
           (df_customers : list Customer.t) : list (ItemFull.t dq dp) :=
  fst (enrich_and_calculate df_items_clean df_customers
                            (@nil (Refund.t int64))).

(* [df_order_revenue] before the refunds are joined. *)
Definition order_gross_of {dq dp} (df_items_full : list (ItemFull.t dq dp))
  : list OrderGross.t :=
  map (fun g : string * list (ItemFull.t dq dp) =>
         let rs := snd g in
         OrderGross.mk (fst g)
                       (Num.sum (map ItemFull.line_total rs))
                       (first ItemFull.customer_id rs)
                       (first ItemFull.channel rs)
                       (first ItemFull.city rs)
                       (first ItemFull.created_at rs))
      (groupby ItemFull.order_id df_items_full).

(* [df_refunds_agg]. *)
Definition refunds_agg_of {da} (valid_orders : list string)
           (df_refunds : list (Refund.t da)) : list RefundAgg.t :=
  map (fun g : string * list (Refund.t da) =>
         RefundAgg.mk (fst g)
                      (Num.sum (map (fun f => Cell.to_num (Refund.amount f))
                                    (snd g))))
      (groupby Refund.order_id
         (filter (fun f => isin (Refund.order_id f) valid_orders) df_refunds)).

(* The refunds of the ledger that carry an order_id, and their sum. *)
Definition refunds_of {da} (df_refunds : list (Refund.t da)) (k : string)
  : list (Refund.t da) :=
  rows_of Refund.order_id k df_refunds.

Definition refund_total {da} (df_refunds : list (Refund.t da)) (k : string)
  : Num.t :=
  Num.sum (map (fun f => Cell.to_num (Refund.amount f))
               (refunds_of df_refunds k)).

(* Whether the ledger holds no refund of an order. *)
Definition unrefunded {da} (df_refunds : list (Refund.t da))
           (g : OrderGross.t) : bool :=
  match refunds_of df_refunds (OrderGross.order_id g) with
  | [] => true
  | _ => false
  end.

(* The row the final join makes of an order, given its refunds and
   whether the joined column holds a null. *)
Definition with_refunds {da} (null : bool) (df_refunds : list (Refund.t da))
           (g : OrderGross.t) : OrderRevenue.t :=
  let refunds_amount :=
    if unrefunded df_refunds g then Num.Float 0
    else Num.fillna0
           (Num.after_merge null
                            (refund_total df_refunds (OrderGross.order_id g)))
  in
  OrderRevenue.mk g refunds_amount
                  (Num.add (OrderGross.gross_revenue g) refunds_amount).

Lemma enrich_and_calculate_fst {dq dp da} (items : list (Item.t dq dp))
      customers (refunds : list (Refund.t da)) :
  fst (enrich_and_calculate items customers refunds) =
  items_full_of items customers.
Proof. reflexivity. Qed.

Lemma order_gross_ids {dq dp} (full : list (ItemFull.t dq dp)) :
  map OrderGross.order_id (order_gross_of full) =
  map fst (groupby ItemFull.order_id full).
Proof. unfold order_gross_of. rewrite map_map. reflexivity. Qed.

Lemma order_gross_NoDup {dq dp} (full : list (ItemFull.t dq dp)) :
  NoDup (map OrderGross.order_id (order_gross_of full)).
Proof. rewrite order_gross_ids. apply groupby_NoDup. Qed.

(* An order row is the fold of the enriched items of its order_id. *)
Lemma order_gross_In {dq dp} (full : list (ItemFull.t dq dp))
      (g : OrderGross.t) :
  In g (order_gross_of full) ->
  let rs := rows_of ItemFull.order_id (OrderGross.order_id g) full in
  rs <> [] /\
  OrderGross.gross_revenue g = Num.sum (map ItemFull.line_total rs) /\
  OrderGross.customer_id g = first ItemFull.customer_id rs /\
  OrderGross.channel g = first ItemFull.channel rs /\
  OrderGross.city g = first ItemFull.city rs /\
  OrderGross.created_at g = first ItemFull.created_at rs.
Proof.
  unfold order_gross_of. rewrite in_map_iff.
  intros [[k rs'] [<- Hin]]. apply groupby_In in Hin.
  destruct Hin as [-> Hne]. simpl. tauto.
Qed.

Lemma order_gross_ids_In {dq dp} (full : list (ItemFull.t dq dp))
      (k : string) :
  In k (map OrderGross.order_id (order_gross_of full)) <->
  In k (map ItemFull.order_id full).
Proof. rewrite order_gross_ids. apply groupby_keys. Qed.

Lemma refunds_agg_NoDup {da} valid (refunds : list (Refund.t da)) :
  NoDup (map RefundAgg.order_id (refunds_agg_of valid refunds)).
Proof.
  unfold refunds_agg_of. rewrite map_map. simpl.
  apply (groupby_NoDup Refund.order_id).
Qed.

(* The refunds joined onto an order of the day are all the refunds of
   the ledger that carry its order_id. *)
Lemma refunds_agg_find {da} valid (refunds : list (Refund.t da)) k :
  In k valid ->
  find (fun a => keqb (RefundAgg.order_id a) k)
       (refunds_agg_of valid refunds) =
  match refunds_of refunds k with
  | [] => None
  | _ => Some (RefundAgg.mk k (refund_total refunds k))
  end.
Proof.
  intros Hk. unfold refunds_agg_of, refund_total.
  rewrite find_map. cbn [RefundAgg.order_id].
  rewrite (groupby_find Refund.order_id).
  rewrite rows_of_filter.
  - fold (refunds_of refunds k).
    destruct (refunds_of refunds k); reflexivity.
  - intros r _ ->. apply isin_In. assumption.
Qed.

Lemma has_null_map {R S} (f : R -> option S) (rows : list R) :
  has_null (map (fun r => (r, f r)) rows) =
  existsb (fun r => match f r with
                    | Some _ => false
                    | None => true
                    end) rows.
Proof.
  unfold has_null. induction rows as [|r rest IH]; [reflexivity|].
  cbn [map existsb snd]. rewrite IH. reflexivity.
Qed.

Lemma existsb_ext_in {A} (p q : A -> bool) (l : list A) :
  (forall x, In x l -> p x = q x) -> existsb p l = existsb q l.
Proof.
  induction l as [|x l IH]; intros Hpq; [reflexivity|].
  cbn [existsb]. rewrite (Hpq x) by (left; reflexivity).
  rewrite IH; [reflexivity|]. intros y Hy. apply Hpq. right. exact Hy.
Qed.

Lemma enrich_and_calculate_snd {dq dp da} (items : list (Item.t dq dp))
      customers (refunds : list (Refund.t da)) :
  snd (enrich_and_calculate items customers refunds) =
  let gross := order_gross_of (items_full_of items customers) in
  map (with_refunds (existsb (unrefunded refunds) gross) refunds) gross.
Proof.
  unfold enrich_and_calculate, items_full_of. cbn [fst snd].
  fold (order_gross_of
          (map (fun ic : Item.t dq dp * (string * string) =>
                  ItemFull.mk (fst ic) (snd (snd ic))
                              (Num.mul (Cell.to_num (Item.qty (fst ic)))
                                       (Cell.to_num
                                          (Item.unit_price (fst ic)))))
               (merge_inner Item.customer_id fst items
                  (map (fun c => (Customer.customer_id c, Customer.city c))
                       customers)))).
  set (gross := order_gross_of _).
  fold (refunds_agg_of
          (drop_duplicates (fun s : string => s)
                           (map OrderGross.order_id gross)) refunds).
  set (valid := drop_duplicates _ _).
  assert (Hvalid : forall g, In g gross -> In (OrderGross.order_id g) valid).
  { intros g Hg. subst valid. unfold drop_duplicates.
    rewrite drop_duplicates_from_id.
    - apply in_map. assumption.
    - rewrite map_id. apply order_gross_NoDup.
    - intros r _ []. }
  cbv zeta.
  rewrite merge_left_unique by apply refunds_agg_NoDup.
  rewrite has_null_map, map_map.
  assert (Hnull :
            existsb (fun r : OrderGross.t =>
                       match find (fun a => keqb (RefundAgg.order_id a)
                                                 (OrderGross.order_id r))
                                  (refunds_agg_of valid refunds) with
                       | Some _ => false
                       | None => true
                       end) gross =
            existsb (unrefunded refunds) gross).
  { apply existsb_ext_in. intros g Hg.
    rewrite refunds_agg_find by (apply Hvalid; exact Hg).
    unfold unrefunded.
    destruct (refunds_of refunds (OrderGross.order_id g)); reflexivity. }
  rewrite Hnull. apply map_ext_in. intros g Hg. cbn [fst snd].
  rewrite refunds_agg_find by (apply Hvalid; exact Hg).
  unfold with_refunds, unrefunded.
  destruct (refunds_of refunds (OrderGross.order_id g)); reflexivity.
Qed.

Lemma enrich_and_calculate_eq {dq dp da} (items : list (Item.t dq dp))
      customers (refunds : list (Refund.t da)) :
  enrich_and_calculate items customers refunds =
  (items_full_of items customers,
   let gross := order_gross_of (items_full_of items customers) in
   map (with_refunds (existsb (unrefunded refunds) gross) refunds) gross).
Proof.
  rewrite (surjective_pairing (enrich_and_calculate items customers refunds)).
  rewrite enrich_and_calculate_fst, enrich_and_calculate_snd. reflexivity.
Qed.

Lemma items_full_of_eq {dq dp} (items : list (Item.t dq dp)) customers :
  items_full_of items customers =
  flat_map (fun i =>
              map (fun c => ItemFull.mk i (Customer.city c)
                                        (Num.mul (Cell.to_num (Item.qty i))
                                                 (Cell.to_num
                                                    (Item.unit_price i))))
                  (filter (fun c => String.eqb (Customer.customer_id c)
                                               (Item.customer_id i))
                          customers))
           items.
Proof.
  unfold items_full_of, enrich_and_calculate, merge_inner, rows_of.
  cbn [fst].
  induction items as [|i rest IH]; [reflexivity|].
  cbn [flat_map]. rewrite map_app, IH. f_equal.
  rewrite filter_map_commute, !map_map. reflexivity.
Qed.

Lemma items_full_of_app {dq dp} (items1 items2 : list (Item.t dq dp))
      customers :
  items_full_of (items1 ++ items2) customers =
  items_full_of items1 customers ++ items_full_of items2 customers.
Proof. rewrite !items_full_of_eq. apply flat_map_app. Qed.

Lemma items_full_of_In {dq dp} (items : list (Item.t dq dp)) customers x :
  In x (items_full_of items customers) <->
  exists c, In (ItemFull.item x) items /\ In c customers /\
            Customer.customer_id c = ItemFull.customer_id x /\
            ItemFull.city x = Customer.city c /\
            ItemFull.line_total x =
              Num.mul (Cell.to_num (ItemFull.qty x))
                      (Cell.to_num (ItemFull.unit_price x)).
Proof.
  rewrite items_full_of_eq, in_flat_map. split.
  - intros [i [Hi Hx]]. apply in_map_iff in Hx.
    destruct Hx as [c [<- Hc]]. apply filter_In in Hc.
    destruct Hc as [Hc E]. apply String.eqb_eq in E.
    exists c. cbn. auto.
  - intros [c [Hi [Hc [E [Ec El]]]]]. exists (ItemFull.item x).
    split; [assumption|]. apply in_map_iff. exists c. split.
    + destruct x as [i ct lt].
      unfold ItemFull.qty, ItemFull.unit_price in El. cbn in *.
      subst. reflexivity.
    + apply filter_In. split; [assumption|]. apply String.eqb_eq. exact E.
Qed.

Lemma items_full_of_unmatched {dq dp} (items : list (Item.t dq dp))
      customers :
  (forall i c, In i items -> In c customers ->
               Customer.customer_id c <> Item.customer_id i) ->
  items_full_of items customers = [].
Proof.
  intros Hno.
  destruct (items_full_of items customers) as [|x l] eqn:E; auto.
  exfalso.
  assert (Hx : In x (items_full_of items customers))
    by (rewrite E; left; reflexivity).
  apply items_full_of_In in Hx. destruct Hx as [c [Hi [Hc [Ec _]]]].
  exact (Hno _ _ Hi Hc Ec).
Qed.

Lemma items_full_of_drop {dq dp} (items1 mid items2 : list (Item.t dq dp))
      customers :
  (forall i c, In i mid -> In c customers ->
               Customer.customer_id c <> Item.customer_id i) ->
  items_full_of (items1 ++ mid ++ items2) customers =
  items_full_of (items1 ++ items2) customers.
Proof.
  intros Hno. rewrite !items_full_of_app.
  rewrite (items_full_of_unmatched mid customers Hno). reflexivity.
Qed.

(** ** The stages of aggregate_daily, named *)

(* Whether no enriched item carries the order_id of an order row. *)
Definition uncounted {dq dp} (df_items_full : list (ItemFull.t dq dp))
           (rd : OrderRevenue.t * option Date.t) : bool :=
  match rows_of ItemFull.order_id (OrderRevenue.order_id (fst rd))
                df_items_full with
  | [] => true
  | _ => false
  end.

(* [items_sold] of an order: null when no enriched item carries its
   order_id; the column is float64 as soon as it holds a null. *)
Definition items_sold_of {dq dp} (null : bool)
           (df_items_full : list (ItemFull.t dq dp)) (k : string)
  : option Num.t :=
  match rows_of ItemFull.order_id k df_items_full with
  | [] => None
  | rs =>
      Some (Num.after_merge
              null
              (Num.sum (map (fun x => Cell.to_num (ItemFull.qty x)) rs)))
  end.

Definition fact_of {dq dp} (null : bool)
           (df_items_full : list (ItemFull.t dq dp))
           (rd : OrderRevenue.t * option Date.t) : OrderFact.t :=
  OrderFact.mk (fst rd) (snd rd)
               (items_sold_of null df_items_full
                              (OrderRevenue.order_id (fst rd))).

Section AggregationFacts.
Variable to_datetime : list string -> string -> Parsed.t.
Context {dq dp : dtype}.

(* The [date] column of the rows, when the assignment does not raise. *)
Definition dated_rows (rows : list OrderRevenue.t)
  : list (OrderRevenue.t * option Date.t) :=
  map (fun r =>
         (r, Parsed.date
               (to_datetime (map OrderRevenue.created_at rows)
                            (OrderRevenue.created_at r))))
      rows.

Lemma assign_date_eq (rows : list OrderRevenue.t) :
  assign_date to_datetime rows =
  if existsb (fun s =>
                Parsed.fails
                  (to_datetime (map OrderRevenue.created_at rows) s))
             (map OrderRevenue.created_at rows)
  then None else Some (dated_rows rows).
Proof. reflexivity. Qed.

Lemma assign_date_Some (rows : list OrderRevenue.t) dated :
  assign_date to_datetime rows = Some dated ->
  dated = dated_rows rows /\
  forall r, In r rows ->
            to_datetime (map OrderRevenue.created_at rows)
                        (OrderRevenue.created_at r) <> Parsed.Fails.
Proof.
  rewrite assign_date_eq.
  destruct (existsb _ _) eqn:E; [discriminate|].
  intros E'. injection E' as <-. split; [reflexivity|].
  intros r Hr Hf.
  assert (Ex : existsb
                 (fun s =>
                    Parsed.fails
                      (to_datetime (map OrderRevenue.created_at rows) s))
                 (map OrderRevenue.created_at rows) = true).
  { apply existsb_exists. exists (OrderRevenue.created_at r).
    split; [apply in_map; exact Hr|]. rewrite Hf. reflexivity. }
  congruence.
Qed.

(* The assignment raises exactly when a timestamp of the column cannot be
   parsed. *)
Lemma assign_date_None (rows : list OrderRevenue.t) :
  assign_date to_datetime rows = None <->
  exists r, In r rows /\
            to_datetime (map OrderRevenue.created_at rows)
                        (OrderRevenue.created_at r) = Parsed.Fails.
Proof.
  rewrite assign_date_eq.
  destruct (existsb _ _) eqn:E.
  - split; [intros _|reflexivity].
    apply existsb_exists in E. destruct E as [s [Hs Hf]].
    apply in_map_iff in Hs. destruct Hs as [r [<- Hr]].
    exists r. split; [exact Hr|].
    destruct (to_datetime _ _); try discriminate. reflexivity.
  - split; [discriminate|]. intros [r [Hr Hf]].
    assert (Ex : existsb
                   (fun s =>
                      Parsed.fails
                        (to_datetime (map OrderRevenue.created_at rows) s))
                   (map OrderRevenue.created_at rows) = true).
    { apply existsb_exists. exists (OrderRevenue.created_at r).
      split; [apply in_map; exact Hr|]. rewrite Hf. reflexivity. }
    congruence.
Qed.

Lemma aggregate_daily_eq (orev : list OrderRevenue.t)
      (full : list (ItemFull.t dq dp)) :
  aggregate_daily to_datetime orev full =
  match assign_date to_datetime orev with
  | None => None
  | Some dated =>
      let facts := map (fact_of (existsb (uncounted full) dated) full) dated in
      Some (map summary_row (groupby_dropna OrderFact.group_key facts), facts)
  end.
Proof.
  unfold aggregate_daily.
  destruct (assign_date to_datetime orev) as [dated|]; [|reflexivity].
  cbv zeta.
  set (counts := map _ (groupby ItemFull.order_id full)).
  assert (ND : NoDup (map fst counts)).
  { subst counts. rewrite map_map. cbn [fst].
    apply (groupby_NoDup ItemFull.order_id). }
  assert (Hfind : forall k,
             find (fun a : string * Num.t => keqb (fst a) k) counts =
             match rows_of ItemFull.order_id k full with
             | [] => None
             | rs => Some (k, Num.sum (map (fun x => Cell.to_num
                                                       (ItemFull.qty x)) rs))
             end).
  { intros k. subst counts. rewrite find_map. cbn [fst].
    rewrite (groupby_find ItemFull.order_id).
    destruct (rows_of ItemFull.order_id k full); reflexivity. }
  rewrite merge_left_unique by exact ND.
  rewrite has_null_map, map_map.
  assert (Hnull :
            existsb (fun r : OrderRevenue.t * option Date.t =>
                       match find (fun a : string * Num.t =>
                                     keqb (fst a)
                                          (OrderRevenue.order_id (fst r)))
                                  counts with
                       | Some _ => false
                       | None => true
                       end) dated =
            existsb (uncounted full) dated).
  { apply existsb_ext_in. intros rd _. rewrite Hfind. unfold uncounted.
    destruct (rows_of ItemFull.order_id _ full); reflexivity. }
  rewrite Hnull.
  assert (E : map (fun x : OrderRevenue.t * option Date.t =>
                     OrderFact.mk
                       (fst (fst (x, find (fun a : string * Num.t =>
                                             keqb (fst a)
                                                  (OrderRevenue.order_id
                                                     (fst x))) counts)))
                       (snd (fst (x, find (fun a : string * Num.t =>
                                             keqb (fst a)
                                                  (OrderRevenue.order_id
                                                     (fst x))) counts)))
                       (option_map
                          (fun kv : string * Num.t =>
                             Num.after_merge
                               (existsb (uncounted full) dated) (snd kv))
                          (snd (x, find (fun a : string * Num.t =>
                                           keqb (fst a)
                                                (OrderRevenue.order_id
                                                   (fst x))) counts))))
                  dated =
              map (fact_of (existsb (uncounted full) dated) full) dated).
  { apply map_ext. intros rd. cbn [fst snd]. rewrite Hfind.
    unfold fact_of, items_sold_of.
    destruct (rows_of ItemFull.order_id _ full); reflexivity. }
  rewrite E. reflexivity.
Qed.

Lemma aggregate_daily_Some orev (full : list (ItemFull.t dq dp))
      summary facts :
  aggregate_daily to_datetime orev full = Some (summary, facts) ->
  map OrderFact.rev facts = orev /\
  summary = map summary_row (groupby_dropna OrderFact.group_key facts) /\
  facts = map (fact_of (existsb (uncounted full) (dated_rows orev)) full)
              (dated_rows orev) /\
  forall r, In r orev ->
            to_datetime (map OrderRevenue.created_at orev)
                        (OrderRevenue.created_at r) <> Parsed.Fails.
Proof.
  rewrite aggregate_daily_eq.
  destruct (assign_date to_datetime orev) as [dated|] eqn:E; [|discriminate].
  cbv zeta. intros E'. injection E' as <- <-.
  apply assign_date_Some in E. destruct E as [-> Hparse].
  split; [|split; [|split]].
  - unfold dated_rows. rewrite !map_map. cbn [fact_of OrderFact.rev fst].
    apply map_id.
  - reflexivity.
  - reflexivity.
  - exact Hparse.
Qed.

(* A summary row is the fold of the dated order rows of its key. *)
Lemma summary_In (facts : list OrderFact.t) (s : DailySummary.t) :
  In s (map summary_row (groupby_dropna OrderFact.group_key facts)) ->
  let members := filter (OrderFact.in_group (DailySummary.group_key s)) facts in
  members <> [] /\
  s = summary_row (DailySummary.group_key s, members).
Proof.
  rewrite in_map_iff. intros [[k fs'] [<- Hin]].
  apply groupby_dropna_In in Hin. destruct Hin as [-> Hne].
  destruct k as [d [c ch]]. cbv zeta.
  change (DailySummary.group_key (summary_row (d, (c, ch), _)))
    with (d, (c, ch)).
  split; [exact Hne | reflexivity].
Qed.

Lemma summary_keys (facts : list OrderFact.t) :
  map DailySummary.group_key
      (map summary_row (groupby_dropna OrderFact.group_key facts)) =
  map fst (groupby fst (keyed OrderFact.group_key facts)).
Proof.
  rewrite <- groupby_dropna_keys, map_map. apply map_ext.
  intros [[d [c ch]] fs]. reflexivity.
Qed.

(* The rows of a group carry its date, city and channel. *)
Lemma in_group_true (k : Date.t * (string * string)) (f : OrderFact.t) :
  OrderFact.in_group k f = true <-> OrderFact.group_key f = Some k.
Proof.
  unfold OrderFact.in_group. destruct (OrderFact.group_key f) as [k'|].
  - split.
    + intros E. apply keqb_eq in E. congruence.
    + intros E. injection E as ->. apply keqb_refl.
  - split; discriminate.
Qed.
End AggregationFacts.

(** ** From the order records to the order rows *)

(* The enriched items and the order rows of a run. *)
Definition run_items_full {dq dp} (customers : list Customer.t)
           (data : list (Order.t dq dp)) : list (ItemFull.t dq dp) :=
  let c := clean_data customers data (json_normalize data) in
  items_full_of (Cleaned.items_clean c) (Cleaned.customers c).

Definition run_order_rows {dq dp da} (customers : list Customer.t)
           (data : list (Order.t dq dp)) (refunds : list (Refund.t da))
  : list OrderRevenue.t :=
  let c := clean_data customers data (json_normalize data) in
  snd (enrich_and_calculate (Cleaned.items_clean c) (Cleaned.customers c)
                            refunds).

Lemma run_order_rows_eq {dq dp da} customers (data : list (Order.t dq dp))
      (refunds : list (Refund.t da)) :
  run_order_rows customers data refunds =
  let gross := order_gross_of (run_items_full customers data) in
  map (with_refunds (existsb (unrefunded refunds) gross) refunds) gross.
Proof.
  unfold run_order_rows, run_items_full. cbv zeta.
  rewrite enrich_and_calculate_snd. reflexivity.
Qed.

(* The orders that reach the order-level frame are orders of the cleaned
   order set. *)
Lemma order_rows_of_the_day {dq dp} customers (data : list (Order.t dq dp))
      g :
  In g (order_gross_of (run_items_full customers data)) ->
  In (OrderGross.order_id g)
     (map Order.order_id
          (Cleaned.orders (clean_data customers data (json_normalize data)))).
Proof.
  intros Hg. unfold run_items_full in Hg. cbv zeta in Hg.
  apply (in_map OrderGross.order_id) in Hg.
  apply order_gross_ids_In in Hg. apply in_map_iff in Hg.
  destruct Hg as [x [<- Hx]]. apply items_full_of_In in Hx.
  destruct Hx as [_ [Hi _]].
  rewrite clean_data_items_clean in Hi.
  apply filter_In in Hi. destruct Hi as [Hi _].
  apply filter_In in Hi. destruct Hi as [Hi Hpaid].
  apply json_normalize_In in Hi. destruct Hi as [o [Ho [Eid [_ Est]]]].
  rewrite clean_data_orders. unfold drop_duplicates.
  apply drop_duplicates_keys. split; [|intros []].
  apply in_map_iff. exists o. split.
  - unfold ItemFull.order_id. congruence.
  - apply filter_In. split; [assumption|]. rewrite <- Est. exact Hpaid.
Qed.

(* Every order row stems from an enriched item: the join of items_sold
   leaves no null. *)
Lemma order_rows_counted {dq dp} (full : list (ItemFull.t dq dp))
      (f : OrderGross.t -> OrderRevenue.t)
      (d : OrderRevenue.t -> option Date.t) :
  (forall g, OrderRevenue.order_id (f g) = OrderGross.order_id g) ->
  existsb (uncounted full)
          (map (fun r => (r, d r)) (map f (order_gross_of full))) = false.
Proof.
  intros Hid. destruct (existsb _ _) eqn:E; [|reflexivity].
  apply existsb_exists in E. destruct E as [rd [Hrd Hun]].
  apply in_map_iff in Hrd. destruct Hrd as [r [<- Hr]].
  apply in_map_iff in Hr. destruct Hr as [g [<- Hg]].
  apply order_gross_In in Hg. destruct Hg as [Hne _].
  unfold uncounted in Hun. cbn [fst] in Hun. rewrite Hid in Hun.
  destruct (rows_of ItemFull.order_id (OrderGross.order_id g) full);
    [contradiction | discriminate].
Qed.

Section RunFacts.
Variable to_datetime : list string -> string -> Parsed.t.
Context {dq dp da : dtype}.

Lemma main_eq customers (data : list (Order.t dq dp))
      (refunds : list (Refund.t da)) :
  json_normalize data <> [] ->
  main to_datetime customers data refunds =
  Run.mk (Cleaned.rejected_file
            (clean_data customers data (json_normalize data)))
         (aggregate_daily to_datetime
                          (run_order_rows customers data refunds)
                          (run_items_full customers data)).
Proof.
  intros Hne. unfold main, run_order_rows, run_items_full. cbv zeta.
  destruct (json_normalize data) eqn:E; [contradiction|].
  rewrite enrich_and_calculate_fst. reflexivity.
Qed.

(* An order file that expands to no line makes the run raise before any
   output. *)
Lemma main_raises customers (data : list (Order.t dq dp))
      (refunds : list (Refund.t da)) :
  json_normalize data = [] ->
  main to_datetime customers data refunds = Run.mk None None.
Proof. intros E. unfold main. cbv zeta. rewrite E. reflexivity. Qed.

Lemma main_result_Some customers (data : list (Order.t dq dp))
      (refunds : list (Refund.t da)) summary facts :
  Run.result (main to_datetime customers data refunds) =
    Some (summary, facts) ->
  json_normalize data <> [] /\
  aggregate_daily to_datetime (run_order_rows customers data refunds)
                  (run_items_full customers data) = Some (summary, facts).
Proof.
  intros E.
  destruct (json_normalize data) eqn:Ej.
  - rewrite main_raises in E by exact Ej. discriminate.
  - assert (Hne : json_normalize data <> []) by (rewrite Ej; discriminate).
    rewrite main_eq in E by exact Hne. rewrite <- Ej. split; assumption.
Qed.

(* What a completed run outputs: the summary is the group-by of the
   order rows, which are the order rows of the enrichment, in order,
   each with its date and the items_sold of its order. *)
Lemma run_facts customers (data : list (Order.t dq dp))
      (refunds : list (Refund.t da)) summary facts :
  Run.result (main to_datetime customers data refunds) =
    Some (summary, facts) ->
  let orev := run_order_rows customers data refunds in
  map OrderFact.rev facts = orev /\
  summary = map summary_row (groupby_dropna OrderFact.group_key facts) /\
  facts = map (fact_of false (run_items_full customers data))
              (dated_rows to_datetime orev) /\
  forall r, In r orev ->
            to_datetime (map OrderRevenue.created_at orev)
                        (OrderRevenue.created_at r) <> Parsed.Fails.
Proof.
  intros E orev. apply main_result_Some in E. destruct E as [_ E].
  apply aggregate_daily_Some in E. fold orev in E.
  destruct E as [E1 [E2 [E3 E4]]].
  split; [exact E1|]. split; [exact E2|]. split; [|exact E4].
  rewrite E3. f_equal. f_equal.
  subst orev. rewrite run_order_rows_eq. cbv zeta.
  unfold dated_rows. apply order_rows_counted. reflexivity.
Qed.

(* [items_sold] is joined from the frame the order rows were grouped
   from, so the join always finds its order. *)
Lemma run_fact_In customers (data : list (Order.t dq dp))
      (refunds : list (Refund.t da)) summary facts f :
  Run.result (main to_datetime customers data refunds) =
    Some (summary, facts) ->
  In f facts ->
  let mine := rows_of ItemFull.order_id (OrderFact.order_id f)
                      (run_items_full customers data) in
  In (OrderFact.rev f) (run_order_rows customers data refunds) /\
  In (OrderRevenue.base (OrderFact.rev f))
     (order_gross_of (run_items_full customers data)) /\
  mine <> [] /\
  OrderFact.items_sold f =
    Some (Num.sum (map (fun x => Cell.to_num (ItemFull.qty x)) mine)) /\
  OrderFact.date f =
    Parsed.date
      (to_datetime
         (map OrderRevenue.created_at
              (run_order_rows customers data refunds))
         (OrderRevenue.created_at (OrderFact.rev f))).
Proof.
  intros E Hf mine. apply run_facts in E. cbv zeta in E.
  destruct E as [E1 [_ [E3 _]]].
  assert (Hr : In (OrderFact.rev f) (run_order_rows customers data refunds))
    by (rewrite <- E1; apply in_map; exact Hf).
  split; [exact Hr|].
  assert (Hg : In (OrderRevenue.base (OrderFact.rev f))
                  (order_gross_of (run_items_full customers data))).
  { rewrite run_order_rows_eq in Hr. cbv zeta in Hr.
    apply in_map_iff in Hr. destruct Hr as [g [<- Hg]]. exact Hg. }
  split; [exact Hg|].
  apply order_gross_In in Hg. destruct Hg as [Hne _].
  change (OrderGross.order_id (OrderRevenue.base (OrderFact.rev f)))
    with (OrderFact.order_id f) in Hne.
  fold mine in Hne. split; [exact Hne|].
  rewrite E3 in Hf. apply in_map_iff in Hf. destruct Hf as [rd [<- Hrd]].
  unfold dated_rows in Hrd. apply in_map_iff in Hrd.
  destruct Hrd as [r [<- _]].
  subst mine. unfold fact_of, items_sold_of, OrderFact.order_id in *.
  cbn [fst snd OrderFact.items_sold OrderFact.date OrderFact.rev] in *.
  split; [|reflexivity].
  destruct (rows_of ItemFull.order_id (OrderRevenue.order_id r)
                    (run_items_full customers data));
    [contradiction | reflexivity].
Qed.
End RunFacts.

(* An enriched item of a run is a line of a paid order record whose
   price is not negative and whose customer is active. *)
Lemma run_items_full_In {dq dp} customers (data : list (Order.t dq dp)) x :
  In x (run_items_full customers data) <->
  exists o l c,
    In o data /\ In l (Order.items o) /\ In c customers /\
    ItemFull.item x = item_of o l /\
    Order.payment_status o = "paid"%string /\
    Cell.ge0 (Line.unit_price l) = true /\
    Customer.is_active c = true /\
    Customer.customer_id c = Order.customer_id o /\
    ItemFull.city x = Customer.city c /\
    ItemFull.line_total x =
      Num.mul (Cell.to_num (Line.qty l)) (Cell.to_num (Line.unit_price l)).
Proof.
  unfold run_items_full. cbv zeta. rewrite items_full_of_In. split.
  - intros [c [Hi [Hc [Ec [Ecity El]]]]].
    rewrite clean_data_items_clean in Hi.
    apply filter_In in Hi. destruct Hi as [Hi Hp].
    apply filter_In in Hi. destruct Hi as [Hi Hpaid].
    apply json_normalize_In_iff in Hi. destruct Hi as [o [l [Ho [Hl Ei]]]].
    rewrite clean_data_customers in Hc. apply filter_In in Hc.
    destruct Hc as [Hc Hact].
    exists o, l, c.
    unfold ItemFull.customer_id, ItemFull.qty, ItemFull.unit_price in *.
    rewrite Ei in *. cbn [item_of Item.customer_id Item.qty Item.unit_price
                           Item.payment_status] in *.
    apply is_paid_true in Hpaid. tauto.
  - intros [o [l [c [Ho [Hl [Hc [Ei [Hpaid [Hp [Hact [Ec [Ecity El]]]]]]]]]]]].
    exists c.
    unfold ItemFull.customer_id, ItemFull.qty, ItemFull.unit_price.
    rewrite Ei. cbn [item_of Item.customer_id Item.qty Item.unit_price].
    split; [|split; [|tauto]].
    + rewrite clean_data_items_clean. apply filter_In. split.
      * apply filter_In. split.
        -- apply json_normalize_In_iff. exists o, l. tauto.
        -- cbn [item_of Item.payment_status]. apply is_paid_true. exact Hpaid.
      * exact Hp.
    + rewrite clean_data_customers. apply filter_In. tauto.
Qed.

(** ** Number facts used by the properties *)

(* Adding the float64 zero leaves a float64 as it is, the negative zero
   apart. *)
Lemma float_add_zero (g : float) :
  Prim2SF g <> S754_zero true -> (g + 0)%float = g.
Proof.
  intros Hnz. apply Prim2SF_inj. rewrite FloatAxioms.add_spec.
  change (Prim2SF 0) with (S754_zero false).
  destruct (Prim2SF g) as [[|]| [|] | |]; try reflexivity.
  contradiction.
Qed.

Lemma Num_int_value_of_Z (z : Z) :
  Int64.in_range z = true -> Num.int_value (Num.Int (Int64.of_Z z)) = Some z.
Proof.
  intros Hr. cbn [Num.int_value]. rewrite Int64_to_Z_of_Z.
  unfold Int64.in_range in Hr. apply andb_true_iff in Hr.
  rewrite Z.leb_le, Z.ltb_lt in Hr.
  rewrite Int64_wrap_small by exact Hr. reflexivity.
Qed.

(* The int64 group sum is exact modulo 2^64, and exact when the exact
   sum is an int64. *)
Lemma Num_sum_exact (cells : list Num.t) (ints : list Int64.t) :
  cells = map Num.Int ints ->
  let exact := exact_sum (map Int64.to_Z ints) in
  Num.sum cells = Num.Int (Int64.of_Z exact) /\
  (Int64.in_range exact = true -> Num.int_value (Num.sum cells) = Some exact).
Proof.
  intros -> exact. rewrite Num_sum_ints. fold exact.
  split; [reflexivity|]. apply Num_int_value_of_Z.
Qed.

Lemma Num_add_exact (a b : Num.t) (x y : Int64.t) :
  a = Num.Int x -> b = Num.Int y ->
  let exact := Int64.to_Z x + Int64.to_Z y in
  Num.add a b = Num.Int (Int64.of_Z exact) /\
  (Int64.in_range exact = true -> Num.int_value (Num.add a b) = Some exact).
Proof.
  intros -> -> exact. cbn [Num.add]. unfold Int64.add. fold exact.
  split; [reflexivity|]. apply Num_int_value_of_Z.
Qed.

Lemma Num_mul_exact (a b : Num.t) (x y : Int64.t) :
  a = Num.Int x -> b = Num.Int y ->
  let exact := Int64.to_Z x * Int64.to_Z y in
  Num.mul a b = Num.Int (Int64.of_Z exact) /\
  (Int64.in_range exact = true -> Num.int_value (Num.mul a b) = Some exact).
Proof.
  intros -> -> exact. cbn [Num.mul]. unfold Int64.mul. fold exact.
  split; [reflexivity|]. apply Num_int_value_of_Z.
Qed.

(** * Properties of the pipeline *)

(** C1 -- Revenue conservation, in the arithmetic of the columns.  For
    every row of the order-level revenue frame returned by
    [enrich_and_calculate], the order has enriched items, each
    line_total is the product qty * unit_price, gross_revenue is the
    [sum] of line_total over the enriched items of that order, and
    net_revenue is gross_revenue + refunds_amount, each computed in the
    dtype of its operands: int64 operands give the exact result modulo
    2^64 (the exact result when it is an int64), any float64 operand
    gives the float64 result, gross_revenue then being the compensated
    float64 sum. *)
Theorem revenue_conservation {dq dp da} (items : list (Item.t dq dp))
        customers (refunds : list (Refund.t da)) r :
  In r (snd (enrich_and_calculate items customers refunds)) ->
  let mine :=
    rows_of ItemFull.order_id (OrderRevenue.order_id r)
            (fst (enrich_and_calculate items customers refunds)) in
  mine <> [] /\
  Forall (fun x => ItemFull.line_total x =
                   Num.mul (Cell.to_num (ItemFull.qty x))
                           (Cell.to_num (ItemFull.unit_price x))) mine /\
  OrderRevenue.gross_revenue r = Num.sum (map ItemFull.line_total mine) /\
  OrderRevenue.net_revenue r =
    Num.add (OrderRevenue.gross_revenue r) (OrderRevenue.refunds_amount r) /\
  (forall x q p,
      In x mine ->
      Cell.to_num (ItemFull.qty x) = Num.Int q ->
      Cell.to_num (ItemFull.unit_price x) = Num.Int p ->
      let exact := Int64.to_Z q * Int64.to_Z p in
      ItemFull.line_total x = Num.Int (Int64.of_Z exact) /\
      (Int64.in_range exact = true ->
       Num.int_value (ItemFull.line_total x) = Some exact)) /\
  (forall totals,
      map ItemFull.line_total mine = map Num.Int totals ->
      let exact := exact_sum (map Int64.to_Z totals) in
      OrderRevenue.gross_revenue r = Num.Int (Int64.of_Z exact) /\
      (Int64.in_range exact = true ->
       Num.int_value (OrderRevenue.gross_revenue r) = Some exact)) /\
  (forall g a,
      OrderRevenue.gross_revenue r = Num.Int g ->
      OrderRevenue.refunds_amount r = Num.Int a ->
      let exact := Int64.to_Z g + Int64.to_Z a in
      OrderRevenue.net_revenue r = Num.Int (Int64.of_Z exact) /\
      (Int64.in_range exact = true ->
       Num.int_value (OrderRevenue.net_revenue r) = Some exact)).
Proof.
  intros Hr mine. subst mine. revert Hr.
  rewrite enrich_and_calculate_eq. cbn [fst snd]. cbv zeta.
  rewrite in_map_iff. intros [g [<- Hg]].
  set (null := existsb _ _).
  change (OrderRevenue.order_id (with_refunds null refunds g))
    with (OrderGross.order_id g).
  change (OrderRevenue.gross_revenue (with_refunds null refunds g))
    with (OrderGross.gross_revenue g).
  set (mine := rows_of ItemFull.order_id (OrderGross.order_id g)
                       (items_full_of items customers)).
  apply order_gross_In in Hg. fold mine in Hg. destruct Hg as [Hne [Hgross _]].
  assert (HF : Forall (fun x => ItemFull.line_total x =
                                Num.mul (Cell.to_num (ItemFull.qty x))
                                        (Cell.to_num (ItemFull.unit_price x)))
                      mine).
  { apply Forall_forall. intros x Hx. apply rows_of_key in Hx.
    destruct Hx as [Hx _]. apply items_full_of_In in Hx.
    destruct Hx as [c Hc]. tauto. }
  assert (Hnet : OrderRevenue.net_revenue (with_refunds null refunds g) =
                 Num.add (OrderGross.gross_revenue g)
                         (OrderRevenue.refunds_amount
                            (with_refunds null refunds g)))
    by reflexivity.
  split; [exact Hne|]. split; [exact HF|].
  split; [exact Hgross|]. split; [exact Hnet|].
  split; [|split].
  - intros x q p Hx Eq Ep. rewrite Forall_forall in HF.
    rewrite (HF x Hx). apply Num_mul_exact; assumption.
  - intros totals Et. rewrite Hgross. apply Num_sum_exact. exact Et.
  - intros gi a Eg Ea. rewrite Hnet. apply Num_add_exact; assumption.
Qed.

(** C6 -- No matching refund.  The final left join keeps every order row
    of the group-by, and an order for which the refund ledger holds no
    record has refunds_amount 0, the zero of the float64 column that the
    join leaves; its net_revenue is its gross_revenue plus that zero in
    float64: its gross_revenue when that is a float64 (a negative zero
    becoming zero), its gross_revenue converted to float64 when that is
    an int64. *)
Theorem missing_refund_is_zero {dq dp da} (items : list (Item.t dq dp))
        customers (refunds : list (Refund.t da)) :
  let out := enrich_and_calculate items customers refunds in
  map OrderRevenue.base (snd out) = order_gross_of (fst out) /\
  forall r,
    In r (snd out) ->
    (forall f, In f refunds ->
               Refund.order_id f <> OrderRevenue.order_id r) ->
    OrderRevenue.refunds_amount r = Num.Float 0 /\
    OrderRevenue.net_revenue r =
      Num.Float (Num.to_float (OrderRevenue.gross_revenue r) + 0) /\
    (forall g, OrderRevenue.gross_revenue r = Num.Float g ->
               Prim2SF g <> S754_zero true ->
               OrderRevenue.net_revenue r = OrderRevenue.gross_revenue r).
Proof.
  rewrite enrich_and_calculate_eq. cbn [fst snd]. cbv zeta.
  set (null := existsb _ _). split.
  - rewrite map_map. cbn [with_refunds OrderRevenue.base]. apply map_id.
  - intros r Hr Hnone. apply in_map_iff in Hr. destruct Hr as [g [<- Hg]].
    change (OrderRevenue.order_id (with_refunds null refunds g))
      with (OrderGross.order_id g) in Hnone.
    change (OrderRevenue.gross_revenue (with_refunds null refunds g))
      with (OrderGross.gross_revenue g).
    assert (E : refunds_of refunds (OrderGross.order_id g) = []).
    { destruct (refunds_of refunds (OrderGross.order_id g))
        as [|f l] eqn:E; auto.
      exfalso.
      assert (Hf : In f (refunds_of refunds (OrderGross.order_id g)))
        by (rewrite E; left; auto).
      apply rows_of_key in Hf. destruct Hf as [Hf Ek].
      exact (Hnone f Hf Ek). }
    assert (Ea : OrderRevenue.refunds_amount (with_refunds null refunds g) =
                 Num.Float 0).
    { unfold with_refunds, unrefunded. rewrite E. reflexivity. }
    assert (En : OrderRevenue.net_revenue (with_refunds null refunds g) =
                 Num.Float (Num.to_float (OrderGross.gross_revenue g) + 0)).
    { unfold with_refunds, unrefunded. rewrite E.
      cbn [OrderRevenue.net_revenue].
      destruct (OrderGross.gross_revenue g); reflexivity. }
    split; [exact Ea|]. split; [exact En|].
    intros gf Eg Hnz. rewrite En, Eg. cbn [Num.to_float].
    rewrite float_add_zero by exact Hnz. reflexivity.
Qed.


(** C8 -- dedupOrders.  [drop_duplicates] on order_id, the step the
    cleaning stage applies to the paid orders, returns a list whose
    order_ids are pairwise distinct, keeps the rows it keeps in input
    order, keeps for every order_id the first row that carries it,
    returns its input unchanged when the order_ids are already distinct,
    and is therefore idempotent. *)
Theorem dedup_orders_first_wins {dq dp} (orders : list (Order.t dq dp)) :
  let out := drop_duplicates Order.order_id orders in
  (NoDup (map Order.order_id orders) -> out = orders) /\
  NoDup (map Order.order_id out) /\
  subseq out orders /\
  (forall k, In k (map Order.order_id out) <->
             In k (map Order.order_id orders)) /\
  (forall k, find (fun o => keqb (Order.order_id o) k) out =
             find (fun o => keqb (Order.order_id o) k) orders) /\
  drop_duplicates Order.order_id out = out /\
  (forall customers items,
      Cleaned.orders (clean_data customers orders items) =
      drop_duplicates Order.order_id
        (filter (fun o => is_paid (Order.payment_status o)) orders)).
Proof.
  intros out. subst out. unfold drop_duplicates.
  assert (ND : NoDup (map Order.order_id
                          (drop_duplicates_from Order.order_id [] orders)))
    by apply drop_duplicates_from_NoDup.
  repeat split.
  - intros H. apply drop_duplicates_from_id; auto.
  - exact ND.
  - apply drop_duplicates_from_subseq.
  - intros Hk. apply drop_duplicates_keys in Hk. tauto.
  - intros Hk. apply drop_duplicates_keys. simpl. tauto.
  - intros k. rewrite drop_duplicates_from_find. reflexivity.
  - apply drop_duplicates_from_id; auto.
Qed.

(** C10 -- Cleaning is a pure filter.  The customers, the orders and the
    valid items returned by [clean_data] (and the rejected items) are
    rows of the corresponding input, unmodified and in input order. *)
Theorem cleaning_is_pure_filter {dq dp} customers
        (orders : list (Order.t dq dp)) items :
  let c := clean_data customers orders items in
  subseq (Cleaned.customers c) customers /\
  subseq (Cleaned.orders c) orders /\
  subseq (Cleaned.items_clean c) items /\
  subseq (Cleaned.rejected c) items.
Proof.
  intros c. subst c.
  rewrite clean_data_rejected, clean_data_items_clean, clean_data_orders,
    clean_data_customers.
  repeat split.
  - apply filter_subseq.
  - eapply subseq_trans; [apply drop_duplicates_from_subseq|].
    apply filter_subseq.
  - eapply subseq_trans; apply filter_subseq.
  - eapply subseq_trans; apply filter_subseq.
Qed.

(* The [nunique] aggregator counts the distinct values of its column. *)
Lemma nunique_spec (l : list string) :
  exists ids,
    NoDup ids /\ (forall c, In c ids <-> In c l) /\
    nunique l = Z.of_nat (List.length ids).
Proof.
  exists (drop_duplicates (fun s : string => s) l).
  unfold drop_duplicates. split; [|split].
  - rewrite <- (map_id (drop_duplicates_from _ _ _)).
    apply (drop_duplicates_from_NoDup (fun s : string => s)).
  - intros c.
    pose proof (drop_duplicates_keys (fun s : string => s) l [] c) as Hk.
    rewrite !map_id in Hk. rewrite Hk. cbn [In]. tauto.
  - reflexivity.
Qed.

(** C4 -- Aggregate conservation, in the arithmetic of the columns.  The
    daily summary has one row per (date, city, channel) present among
    the order rows that have a date; for each summary row, the member
    orders are the order rows with its date, city and channel, there is
    at least one, gross_revenue_eur is the [sum] of gross_revenue over
    them (on int64, the exact sum modulo 2^64, and the exact sum when it
    is an int64), orders_count is their number, and unique_customers is
    the number of distinct customer_id among them, at least 1 and at
    most orders_count. *)
Theorem aggregate_conservation to_datetime {dq dp} orev
        (full : list (ItemFull.t dq dp)) summary facts :
  aggregate_daily to_datetime orev full = Some (summary, facts) ->
  NoDup (map DailySummary.group_key summary) /\
  (forall f k, In f facts -> OrderFact.group_key f = Some k ->
               In k (map DailySummary.group_key summary)) /\
  forall s, In s summary ->
    let members :=
      filter (OrderFact.in_group (DailySummary.group_key s)) facts in
    members <> [] /\
    (forall f, In f members <->
               In f facts /\
               OrderFact.date f = Some (DailySummary.date s) /\
               OrderFact.city f = DailySummary.city s /\
               OrderFact.channel f = DailySummary.channel s) /\
    DailySummary.gross_revenue_eur s =
      Num.sum (map OrderFact.gross_revenue members) /\
    (forall gross,
        map OrderFact.gross_revenue members = map Num.Int gross ->
        let exact := exact_sum (map Int64.to_Z gross) in
        DailySummary.gross_revenue_eur s = Num.Int (Int64.of_Z exact) /\
        (Int64.in_range exact = true ->
         Num.int_value (DailySummary.gross_revenue_eur s) = Some exact)) /\
    DailySummary.orders_count s = Z.of_nat (List.length members) /\
    (exists ids,
        NoDup ids /\
        (forall c, In c ids <-> In c (map OrderFact.customer_id members)) /\
        DailySummary.unique_customers s = Z.of_nat (List.length ids)) /\
    1 <= DailySummary.unique_customers s <= DailySummary.orders_count s.
Proof.
  intros E. apply aggregate_daily_Some in E.
  destruct E as [_ [-> _]]. split; [|split].
  - rewrite summary_keys. apply groupby_NoDup.
  - intros f k Hf Ek. rewrite summary_keys. apply groupby_keys.
    apply in_map_iff. exists (k, f). split; [reflexivity|].
    unfold keyed. apply in_flat_map. exists f. split; [exact Hf|].
    rewrite Ek. left. reflexivity.
  - intros s Hs members. apply summary_In in Hs. cbv zeta in Hs.
    fold members in Hs. destruct Hs as [Hne Es].
    assert (Hmem : forall f, In f members <->
                             In f facts /\
                             OrderFact.date f = Some (DailySummary.date s) /\
                             OrderFact.city f = DailySummary.city s /\
                             OrderFact.channel f = DailySummary.channel s).
    { intros f. subst members. rewrite filter_In, in_group_true.
      unfold OrderFact.group_key, DailySummary.group_key.
      destruct (OrderFact.date f) as [d|].
      - split.
        + intros [Hf Ek]. injection Ek as <- <- <-. tauto.
        + intros [Hf [Ed [Ec Ech]]]. injection Ed as <-.
          rewrite Ec, Ech. tauto.
      - split; [intros [_ Ek]; discriminate Ek|].
        intros [_ [Ed _]]. discriminate Ed. }
    assert (Eg : DailySummary.gross_revenue_eur s =
                 Num.sum (map OrderFact.gross_revenue members))
      by (rewrite Es at 1; reflexivity).
    assert (Ec : DailySummary.orders_count s =
                 Z.of_nat (List.length members)).
    { rewrite Es at 1. unfold summary_row.
      cbn [fst snd DailySummary.orders_count]. rewrite length_map.
      reflexivity. }
    assert (Eu : DailySummary.unique_customers s =
                 nunique (map OrderFact.customer_id members))
      by (rewrite Es at 1; reflexivity).
    split; [exact Hne|]. split; [exact Hmem|]. split; [exact Eg|].
    split; [|split; [exact Ec|split]].
    + intros gross Egs. rewrite Eg. apply Num_sum_exact. exact Egs.
    + rewrite Eu. apply nunique_spec.
    + rewrite Eu, Ec. split.
      * destruct (nunique_spec (map OrderFact.customer_id members))
          as [ids [_ [Hids ->]]].
        destruct members as [|f rest]; [contradiction|].
        destruct ids as [|c l].
        -- exfalso. apply (Hids (OrderFact.customer_id f)).
           left. reflexivity.
        -- cbn [List.length]. lia.
      * rewrite <- (length_map OrderFact.customer_id).
        apply nunique_le_length.
Qed.

(** C9 -- items_sold is never null.  Every order row that a run outputs
    stems from at least one enriched item of its order_id, and its
    items_sold is the (non-null) [sum] of qty over those items. *)
Theorem items_sold_never_null to_datetime {dq dp da} customers
        (data : list (Order.t dq dp)) (refunds : list (Refund.t da))
        summary facts :
  Run.result (main to_datetime customers data refunds) = Some (summary, facts) ->
  forall f, In f facts ->
    let c := clean_data customers data (json_normalize data) in
    let mine :=
      rows_of ItemFull.order_id (OrderFact.order_id f)
              (fst (enrich_and_calculate (Cleaned.items_clean c)
                                         (Cleaned.customers c) refunds)) in
    mine <> [] /\
    OrderFact.items_sold f <> None /\
    OrderFact.items_sold f =
      Some (Num.sum (map (fun x => Cell.to_num (ItemFull.qty x)) mine)).
Proof.
  intros E f Hf. cbv zeta. rewrite enrich_and_calculate_fst.
  destruct (run_fact_In _ _ _ _ _ E Hf) as [_ [_ [Hne [Es _]]]].
  split; [exact Hne|]. split; [|exact Es].
  rewrite Es. discriminate.
Qed.

(* The final join depends on the ledger only through the refunds of the
   orders it joins them to. *)
Lemma with_refunds_ext {da} (refunds refunds' : list (Refund.t da))
      (gross : list OrderGross.t) :
  (forall g, In g gross ->
             refunds_of refunds (OrderGross.order_id g) =
             refunds_of refunds' (OrderGross.order_id g)) ->
  map (with_refunds (existsb (unrefunded refunds) gross) refunds) gross =
  map (with_refunds (existsb (unrefunded refunds') gross) refunds') gross.
Proof.
  intros Hsame.
  assert (En : existsb (unrefunded refunds) gross =
               existsb (unrefunded refunds') gross).
  { apply existsb_ext_in. intros g Hg. unfold unrefunded.
    rewrite (Hsame g Hg). reflexivity. }
  rewrite En. apply map_ext_in. intros g Hg.
  unfold with_refunds, unrefunded, refund_total. rewrite (Hsame g Hg).
  reflexivity.
Qed.

(** C5 -- Refund scoping.  A refund record whose order_id is not the
    order_id of any order of the day's cleaned order set leaves the
    whole run unchanged: rejected items, order-level rows and daily
    summary are what they are without that record. *)
Theorem refund_out_of_scope_ignored to_datetime {dq dp da} customers
        (data : list (Order.t dq dp)) (refunds1 : list (Refund.t da))
        ref refunds2 :
  ~ In (Refund.order_id ref)
       (map Order.order_id
            (Cleaned.orders
               (clean_data customers data (json_normalize data)))) ->
  main to_datetime customers data (refunds1 ++ ref :: refunds2) =
  main to_datetime customers data (refunds1 ++ refunds2).
Proof.
  intros Hout.
  destruct (json_normalize data) eqn:Ej.
  - rewrite !main_raises by exact Ej. reflexivity.
  - assert (Hne : json_normalize data <> []) by (rewrite Ej; discriminate).
    rewrite <- Ej in Hout. rewrite !main_eq by exact Hne.
    f_equal. f_equal. rewrite !run_order_rows_eq. cbv zeta.
    apply with_refunds_ext. intros g Hg.
    apply order_rows_of_the_day in Hg.
    assert (N : keqb (Refund.order_id ref) (OrderGross.order_id g) = false).
    { apply keqb_neq. intros E. apply Hout. rewrite E. exact Hg. }
    unfold refunds_of. rewrite !rows_of_app. f_equal.
    unfold rows_of. cbn [filter]. rewrite N. reflexivity.
Qed.

(** ** Items without an active customer *)

Lemma clean_data_rejected_file {dq dp} customers
      (orders : list (Order.t dq dp)) items :
  Cleaned.rejected_file (clean_data customers orders items) =
  match Cleaned.rejected (clean_data customers orders items) with
  | [] => None
  | rows => Some rows
  end.
Proof.
  unfold Cleaned.rejected, clean_data. cbn [Cleaned.rejected_file].
  destruct (filter _ (filter _ items)); reflexivity.
Qed.

Lemma clean_data_rejected_app {dq dp} customers
      (orders : list (Order.t dq dp)) items1 items2 :
  Cleaned.rejected (clean_data customers orders (items1 ++ items2)) =
  Cleaned.rejected (clean_data customers orders items1) ++
  Cleaned.rejected (clean_data customers orders items2).
Proof. rewrite !clean_data_rejected, !filter_app. reflexivity. Qed.

(* Dropping items that match no active customer changes nothing
   downstream of the customer join. *)
Lemma enrich_without_unmatched {dq dp da} customers
      (orders orders' : list (Order.t dq dp)) items1 mid items2
      (refunds : list (Refund.t da)) :
  (forall i c, In i mid -> In c customers -> Customer.is_active c = true ->
               Customer.customer_id c <> Item.customer_id i) ->
  let c := clean_data customers orders (items1 ++ mid ++ items2) in
  let c' := clean_data customers orders' (items1 ++ items2) in
  enrich_and_calculate (Cleaned.items_clean c) (Cleaned.customers c) refunds =
  enrich_and_calculate (Cleaned.items_clean c') (Cleaned.customers c') refunds.
Proof.
  intros Hno c c'. subst c c'.
  rewrite !enrich_and_calculate_eq, !clean_data_customers.
  rewrite !clean_data_items_clean_app.
  rewrite items_full_of_drop; [reflexivity|].
  intros i cu Hi Hcu. apply clean_data_items_clean_In in Hi.
  apply filter_In in Hcu. apply Hno; tauto.
Qed.

(* The items of an order record carry its customer. *)
Lemma json_normalize_one_customer {dq dp} (o : Order.t dq dp) i :
  In i (json_normalize [o]) ->
  Item.customer_id i = Order.customer_id o /\
  Item.payment_status i = Order.payment_status o /\
  Item.order_id i = Order.order_id o.
Proof.
  intros Hi. apply json_normalize_In in Hi.
  destruct Hi as [o' [[<- | []] [E1 [E2 E3]]]]. auto.
Qed.

(* A record whose customer is not active leaves the enriched items and
   the order rows of the run as they are without it. *)
Lemma run_without_unmatched {dq dp da} customers
      (data1 : list (Order.t dq dp)) o data2 (refunds : list (Refund.t da)) :
  (forall cu, In cu customers -> Customer.is_active cu = true ->
              Customer.customer_id cu <> Order.customer_id o) ->
  run_items_full customers (data1 ++ o :: data2) =
    run_items_full customers (data1 ++ data2) /\
  run_order_rows customers (data1 ++ o :: data2) refunds =
    run_order_rows customers (data1 ++ data2) refunds.
Proof.
  intros Hno.
  assert (E : enrich_and_calculate
                (Cleaned.items_clean
                   (clean_data customers (data1 ++ o :: data2)
                               (json_normalize (data1 ++ o :: data2))))
                (Cleaned.customers
                   (clean_data customers (data1 ++ o :: data2)
                               (json_normalize (data1 ++ o :: data2))))
                refunds =
              enrich_and_calculate
                (Cleaned.items_clean
                   (clean_data customers (data1 ++ data2)
                               (json_normalize (data1 ++ data2))))
                (Cleaned.customers
                   (clean_data customers (data1 ++ data2)
                               (json_normalize (data1 ++ data2))))
                refunds).
  { change (o :: data2) with ([o] ++ data2).
    rewrite !json_normalize_app.
    apply (enrich_without_unmatched customers).
    intros i cu Hi Hcu Hact.
    destruct (json_normalize_one_customer _ _ Hi) as [-> _]. auto. }
  split.
  - unfold run_items_full. cbv zeta.
    rewrite <- !(enrich_and_calculate_fst _ _ refunds), E. reflexivity.
  - unfold run_order_rows. cbv zeta. rewrite E. reflexivity.
Qed.

(** C7 -- Inactive or unknown customer.  An item whose customer_id is
    the customer_id of no active customer is dropped at the customer
    join: the enriched items and the order-level rows are what they are
    without it, no enriched row is made of it, and, its price being
    valid, it is not among the rejected items.  A record of the order
    file whose customer is not active leaves the order-level rows and
    the daily summary as they are without that record, as long as the
    file without it still expands to a line; the whole run, rejected
    items included, is then the same when no paid line of the record has
    a negative price, and a paid line of the record with a negative
    price is written to the rejected items.  No output order row carries
    the customer of the record, and none carries its order_id when every
    record with that order_id has a customer that is not active. *)
Theorem inactive_customer_drops_silently to_datetime {dq dp da} customers
        (refunds : list (Refund.t da)) :
  (forall (orders : list (Order.t dq dp)) items1 i items2,
      let c := clean_data customers orders (items1 ++ i :: items2) in
      let c' := clean_data customers orders (items1 ++ items2) in
      (forall cu, In cu (Cleaned.customers c) ->
                  Customer.customer_id cu <> Item.customer_id i) ->
      enrich_and_calculate (Cleaned.items_clean c) (Cleaned.customers c)
                           refunds =
      enrich_and_calculate (Cleaned.items_clean c') (Cleaned.customers c')
                           refunds /\
      (forall x,
          In x (fst (enrich_and_calculate (Cleaned.items_clean c)
                                          (Cleaned.customers c) refunds)) ->
          ItemFull.item x <> i) /\
      (Cell.ge0 (Item.unit_price i) = true ->
       ~ In i (Cleaned.rejected c))) /\
  (forall (data1 : list (Order.t dq dp)) o data2,
      let data := data1 ++ o :: data2 in
      (forall cu, In cu customers -> Customer.is_active cu = true ->
                  Customer.customer_id cu <> Order.customer_id o) ->
      (json_normalize (data1 ++ data2) <> [] ->
       Run.result (main to_datetime customers data refunds) =
       Run.result (main to_datetime customers (data1 ++ data2) refunds)) /\
      (json_normalize (data1 ++ data2) <> [] ->
       (forall i, In i (json_normalize [o]) ->
                  Item.payment_status i = "paid"%string ->
                  Cell.ge0 (Item.unit_price i) = true) ->
       main to_datetime customers data refunds =
       main to_datetime customers (data1 ++ data2) refunds) /\
      (forall summary facts,
          Run.result (main to_datetime customers data refunds) =
            Some (summary, facts) ->
          forall f, In f facts ->
                    OrderFact.customer_id f <> Order.customer_id o) /\
      (forall i, In i (json_normalize [o]) ->
                 Cell.ge0 (Item.unit_price i) = true ->
                 ~ In i (Cleaned.rejected
                           (clean_data customers data
                                       (json_normalize data)))) /\
      (forall i, In i (json_normalize [o]) ->
                 Item.payment_status i = "paid"%string ->
                 Cell.lt0 (Item.unit_price i) = true ->
                 In i (Cleaned.rejected
                         (clean_data customers data
                                     (json_normalize data)))) /\
      ((forall o' cu, In o' data -> Order.order_id o' = Order.order_id o ->
                      In cu customers -> Customer.is_active cu = true ->
                      Customer.customer_id cu <> Order.customer_id o') ->
       forall summary facts,
         Run.result (main to_datetime customers data refunds) =
           Some (summary, facts) ->
         forall f, In f facts ->
                   OrderFact.order_id f <> Order.order_id o)).
Proof.
  split.
  - intros orders items1 i items2 c c' Hno. subst c c'.
    split; [|split].
    + apply (enrich_without_unmatched customers orders orders items1 [i]
                                      items2 refunds).
      intros i' cu [<- | []] Hcu Hact. apply Hno.
      rewrite clean_data_customers. apply filter_In. tauto.
    + intros x Hx E. rewrite enrich_and_calculate_fst in Hx.
      apply items_full_of_In in Hx. destruct Hx as [cu [_ [Hcu [Ec _]]]].
      apply (Hno cu Hcu). rewrite Ec, <- E. reflexivity.
    + intros Hge Hin. rewrite clean_data_rejected in Hin.
      apply filter_In in Hin. destruct Hin as [_ Hlt].
      rewrite Cell_lt0_ge0, Hge in Hlt. discriminate.
  - intros data1 o data2 data Hno. subst data.
    assert (Hitems : json_normalize (data1 ++ o :: data2) <> [] \/
                     json_normalize [o] = []).
    { change (o :: data2) with ([o] ++ data2).
      rewrite !json_normalize_app.
      destruct (json_normalize [o]); [right; reflexivity|].
      left. intros E. apply app_eq_nil in E. destruct E as [_ E].
      discriminate E. }
    assert (Hmore : json_normalize (data1 ++ data2) <> [] ->
                    json_normalize (data1 ++ o :: data2) <> []).
    { change (o :: data2) with ([o] ++ data2).
      rewrite !json_normalize_app. intros Hne E. apply Hne.
      apply app_eq_nil in E. destruct E as [-> E].
      apply app_eq_nil in E. destruct E as [_ ->]. reflexivity. }
    destruct (run_without_unmatched customers data1 o data2 refunds Hno)
      as [Efull Erows].
    split; [|split; [|split; [|split; [|split]]]].
    + intros Hne. rewrite !main_eq by auto. cbn [Run.result].
      rewrite Efull, Erows. reflexivity.
    + intros Hne Hvalid. rewrite !main_eq by auto.
      rewrite Efull, Erows. f_equal.
      rewrite !clean_data_rejected_file. 
      change (o :: data2) with ([o] ++ data2).
      rewrite !json_normalize_app, !clean_data_rejected_app.
      assert (Er : Cleaned.rejected
                     (clean_data customers (data1 ++ [o] ++ data2)
                                 (json_normalize [o])) = []).
      { rewrite clean_data_rejected. apply filter_nil_all.
        intros i Hi. apply filter_In in Hi. destruct Hi as [Hi Hp].
        apply is_paid_true in Hp.
        rewrite Cell_lt0_ge0, (Hvalid i Hi Hp). reflexivity. }
      rewrite Er, !clean_data_rejected. reflexivity.
    + intros summary facts E f Hf.
      destruct (run_fact_In _ _ _ _ _ E Hf) as [_ [Hg _]].
      apply order_gross_In in Hg. destruct Hg as [Hne [_ [Ec _]]].
      destruct (first_In ItemFull.customer_id Hne) as [x [Hx Ex]].
      apply rows_of_key in Hx. destruct Hx as [Hx _].
      apply run_items_full_In in Hx.
      destruct Hx as [o' [l [cu [_ [_ [Hcu [Ei [_ [_ [Hact [Ecu _]]]]]]]]]]].
      change (OrderGross.customer_id (OrderRevenue.base (OrderFact.rev f)))
        with (OrderFact.customer_id f) in Ec.
      rewrite Ec, Ex. unfold ItemFull.customer_id. rewrite Ei.
      cbn [item_of Item.customer_id]. rewrite <- Ecu. apply Hno; tauto.
    + intros i _ Hge Hin. rewrite clean_data_rejected in Hin.
      apply filter_In in Hin. destruct Hin as [_ Hlt].
      rewrite Cell_lt0_ge0, Hge in Hlt. discriminate.
    + intros i Hi Hp Hlt. rewrite clean_data_rejected.
      apply filter_In. split; [|exact Hlt].
      apply filter_In. split; [|apply is_paid_true; exact Hp].
      change (o :: data2) with ([o] ++ data2).
      rewrite !json_normalize_app. apply in_or_app. right.
      apply in_or_app. left. exact Hi.
    + intros Hall summary facts E f Hf Eid.
      destruct (run_fact_In _ _ _ _ _ E Hf) as [_ [_ [Hne _]]].
      destruct (first_In ItemFull.order_id Hne) as [x [Hx _]].
      apply rows_of_key in Hx. destruct Hx as [Hx Ex].
      apply run_items_full_In in Hx.
      destruct Hx as [o' [l [cu [Ho' [_ [Hcu [Ei [_ [_ [Hact [Ecu _]]]]]]]]]]].
      apply (Hall o' cu Ho'); try assumption.
      unfold ItemFull.order_id in Ex. rewrite Ei in Ex.
      cbn [item_of Item.order_id] in Ex. congruence.
Qed.

(** C3 -- Items of a duplicate order occurrence.  The run on an order
    file that holds the same paid order twice: the cleaned order set
    retains one occurrence, yet the order row is made of the items of
    both occurrences, so gross_revenue and items_sold are twice those of
    the run on the single occurrence. *)
Theorem duplicate_order_items_still_counted :
  let observed (r : Run.t int64 float64) :=
    option_map
      (fun out : list DailySummary.t * list OrderFact.t =>
         map (fun f => (OrderFact.order_id f, OrderFact.gross_revenue f,
                        OrderFact.items_sold f)) (snd out))
      (Run.result r) in
  let twice := [Sample.o3; Sample.o3] in
  Cleaned.orders (clean_data Sample.customers twice (json_normalize twice)) =
    [Sample.o3] /\
  observed (main Sample.to_datetime Sample.customers twice Sample.refunds) =
    Some [("O3"%string, Num.Float 6, Some (Num.Int (Sample.int 10)))] /\
  observed (main Sample.to_datetime Sample.customers [Sample.o3]
                 Sample.refunds) =
    Some [("O3"%string, Num.Float 3, Some (Num.Int (Sample.int 5)))].
Proof. cbv zeta. repeat split; vm_compute; reflexivity. Qed.

(** * The properties at work on the sample days *)

Lemma sample_run_result :
  Run.result Sample.run = Some (Sample.summary, Sample.facts).
Proof. vm_compute. reflexivity. Qed.

Lemma sample_aggregate :
  aggregate_daily Sample.to_datetime (snd Sample.enriched)
                  (fst Sample.enriched) =
  Some (Sample.summary, Sample.facts).
Proof. vm_compute. reflexivity. Qed.

Lemma sample_order_ids_distinct : NoDup (map Order.order_id Sample.orders).
Proof.
  apply (NoDup_count_occ' string_dec). intros k Hk.
  destruct Hk as [<- | [<- | [<- | [<- | []]]]]; vm_compute; reflexivity.
Qed.

(* int64 wrap-around: an order of 2^62 units at 4 each has line_total
   and gross_revenue 0, not 2^64. *)
Lemma revenue_conservation_counterexample :
  let out :=
    enrich_and_calculate (json_normalize [Sample.big])
                         (filter Customer.is_active Sample.customers)
                         Sample.old_refunds in
  map (fun x => (ItemFull.order_id x,
                 Num.int_value (Cell.to_num (ItemFull.qty x)),
                 Num.int_value (Cell.to_num (ItemFull.unit_price x)),
                 Num.int_value (ItemFull.line_total x)))
      (fst out) =
    [("B1"%string, Some 4611686018427387904, Some 4, Some 0)] /\
  map (fun r => (OrderRevenue.order_id r,
                 Num.int_value (OrderRevenue.gross_revenue r)))
      (snd out) =
    [("B1"%string, Some 0)] /\
  4611686018427387904 * 4 <> 0.
Proof.
  cbv zeta. split; [|split].
  - vm_compute. reflexivity.
  - vm_compute. reflexivity.
  - discriminate.
Qed.

Lemma revenue_conservation_witness :
  In Sample.row_cents (snd Sample.cent_out) /\
  OrderRevenue.gross_revenue Sample.row_cents =
    Num.sum (map ItemFull.line_total
                 (rows_of ItemFull.order_id "B5"%string
                          (fst Sample.cent_out))) /\
  OrderRevenue.net_revenue Sample.row_cents =
    Num.add (OrderRevenue.gross_revenue Sample.row_cents)
            (OrderRevenue.refunds_amount Sample.row_cents) /\
  Num.int_value (OrderRevenue.net_revenue Sample.row_cents) =
    Some (2750 + -600).
Proof.
  assert (Hin : In Sample.row_cents (snd Sample.cent_out))
    by (vm_compute; left; reflexivity).
  split; [exact Hin|].
  pose proof (revenue_conservation _ _ _ _ Hin)
    as [_ [_ [Hg [Hn [_ [_ Hexact]]]]]].
  split; [exact Hg|]. split; [exact Hn|].
  exact (proj2 (Hexact (Sample.int 2750) (Sample.int (-600))
                       eq_refl eq_refl) eq_refl).
Defined.

(* float64 after the left join: an order of gross_revenue 2^53 + 1
   without refund has net_revenue 2^53. *)
Lemma missing_refund_is_zero_counterexample :
  let out :=
    enrich_and_calculate (json_normalize [Sample.odd])
                         (filter Customer.is_active Sample.customers)
                         Sample.old_refunds in
  map (fun r => (OrderRevenue.order_id r,
                 refunds_of Sample.old_refunds (OrderRevenue.order_id r),
                 Num.int_value (OrderRevenue.gross_revenue r),
                 OrderRevenue.refunds_amount r,
                 Num.int_value (OrderRevenue.net_revenue r)))
      (snd out) =
    [("B2"%string, [], Some 9007199254740993, Num.Float 0,
      Some 9007199254740992)].
Proof. vm_compute. reflexivity. Qed.

Lemma missing_refund_is_zero_witness :
  In Sample.row_o3 (snd Sample.enriched) /\
  (forall f, In f Sample.refunds -> Refund.order_id f <> "O3"%string) /\
  OrderRevenue.refunds_amount Sample.row_o3 = Num.Float 0 /\
  OrderRevenue.net_revenue Sample.row_o3 =
    OrderRevenue.gross_revenue Sample.row_o3.
Proof.
  assert (Hin : In Sample.row_o3 (snd Sample.enriched))
    by (vm_compute; right; left; reflexivity).
  assert (Hnone : forall f, In f Sample.refunds ->
                            Refund.order_id f <> "O3"%string).
  { intros f [<- | [<- | [<- | []]]]; vm_compute; discriminate. }
  split; [exact Hin|]. split; [exact Hnone|].
  destruct (proj2 (missing_refund_is_zero _ _ _) Sample.row_o3 Hin Hnone)
    as [Ha [_ Hn]].
  split; [exact Ha|].
  apply (Hn 3%float eq_refl). vm_compute. discriminate.
Defined.


(* int64 wrap-around: two orders of gross_revenue 2^62 each in one group
   have gross_revenue_eur -2^63. *)
Lemma aggregate_conservation_counterexample :
  let run :=
    main Sample.to_datetime Sample.customers
         [Sample.half "B3"; Sample.half "B4"] Sample.old_refunds in
  option_map
    (fun out : list DailySummary.t * list OrderFact.t =>
       (map (fun f => (OrderFact.order_id f, OrderFact.group_key f,
                       Num.int_value (OrderFact.gross_revenue f)))
            (snd out),
        map (fun s => (DailySummary.group_key s,
                       DailySummary.orders_count s,
                       Num.int_value (DailySummary.gross_revenue_eur s)))
            (fst out)))
    (Run.result run) =
  Some ([("B3"%string, Some Sample.paris_web_key,
          Some 4611686018427387904);
         ("B4"%string, Some Sample.paris_web_key,
          Some 4611686018427387904)],
        [(Sample.paris_web_key, 2, Some (- 9223372036854775808))]) /\
  4611686018427387904 + 4611686018427387904 <> - 9223372036854775808.
Proof. cbv zeta. split; [vm_compute; reflexivity | discriminate]. Qed.

Lemma aggregate_conservation_witness :
  aggregate_daily Sample.to_datetime (snd Sample.enriched)
                  (fst Sample.enriched) =
    Some (Sample.summary, Sample.facts) /\
  In Sample.paris_web Sample.summary /\
  DailySummary.gross_revenue_eur Sample.paris_web =
    Num.sum (map OrderFact.gross_revenue
                 (filter (OrderFact.in_group Sample.paris_web_key)
                         Sample.facts)) /\
  DailySummary.unique_customers Sample.paris_web <=
    DailySummary.orders_count Sample.paris_web.
Proof.
  assert (Hin : In Sample.paris_web Sample.summary)
    by (vm_compute; left; reflexivity).
  split; [exact sample_aggregate|]. split; [exact Hin|].
  destruct (aggregate_conservation _ _ _ sample_aggregate) as [_ [_ Hs]].
  destruct (Hs _ Hin) as [_ [_ [Hg [_ [_ [_ [_ Hu]]]]]]].
  split; [exact Hg | exact Hu].
Defined.

Lemma refund_out_of_scope_ignored_witness :
  ~ In "O9"%string (map Order.order_id (Cleaned.orders Sample.cleaned)) /\
  main Sample.to_datetime Sample.customers Sample.orders Sample.refunds =
  main Sample.to_datetime Sample.customers Sample.orders
       [Refund.mk "O1" (Sample.dec (-5)); Refund.mk "O1" (Sample.dec (-1))].
Proof.
  assert (Hout : ~ In "O9"%string
                      (map Order.order_id (Cleaned.orders Sample.cleaned))).
  { vm_compute. intros [E | [E | [E | []]]]; discriminate E. }
  split; [exact Hout|].
  exact (refund_out_of_scope_ignored
           Sample.to_datetime Sample.customers Sample.orders
           [Refund.mk "O1" (Sample.dec (-5))]
           (Refund.mk "O9" (Sample.dec (-7)))
           [Refund.mk "O1" (Sample.dec (-1))] Hout).
Defined.

(* The order of an inactive customer is in an output: its line of
   negative price is written to the rejected items. *)
Lemma inactive_customer_drops_silently_counterexample :
  let data := [Sample.o1; Sample.o2neg; Sample.o3] in
  let run := main Sample.to_datetime Sample.customers data Sample.refunds in
  filter (fun c => Customer.is_active c &&
                   String.eqb (Customer.customer_id c)
                              (Order.customer_id Sample.o2neg))
         Sample.customers = [] /\
  option_map (map (fun i => (Item.order_id i, Item.customer_id i)))
             (Run.rejected_file run) =
    Some [("O1", "C1"); ("O2", "C2")]%string.
Proof. cbv zeta. split; vm_compute; reflexivity. Qed.

Lemma inactive_customer_drops_silently_witness :
  (forall cu, In cu Sample.customers -> Customer.is_active cu = true ->
              Customer.customer_id cu <> Order.customer_id Sample.o2) /\
  Sample.run =
  main Sample.to_datetime Sample.customers
       [Sample.o1; Sample.o3; Sample.o4] Sample.refunds.
Proof.
  assert (Hno : forall cu, In cu Sample.customers ->
                           Customer.is_active cu = true ->
                           Customer.customer_id cu <>
                           Order.customer_id Sample.o2).
  { intros cu [<- | [<- | [<- | []]]] Hact; vm_compute;
      try discriminate; discriminate Hact. }
  assert (Hne : json_normalize ([Sample.o1] ++ [Sample.o3; Sample.o4]) <> [])
    by (vm_compute; discriminate).
  assert (Hvalid : forall i, In i (json_normalize [Sample.o2]) ->
                             Item.payment_status i = "paid"%string ->
                             Cell.ge0 (Item.unit_price i) = true).
  { intros i [<- | []] _. vm_compute. reflexivity. }
  split; [exact Hno|].
  exact (proj1 (proj2 (proj2 (inactive_customer_drops_silently
                                Sample.to_datetime Sample.customers
                                Sample.refunds)
                             [Sample.o1] Sample.o2 [Sample.o3; Sample.o4]
                             Hno))
               Hne Hvalid).
Defined.

Lemma dedup_orders_first_wins_witness :
  NoDup (map Order.order_id Sample.orders) /\
  drop_duplicates Order.order_id Sample.orders = Sample.orders.
Proof.
  split; [exact sample_order_ids_distinct|].
  exact (proj1 (dedup_orders_first_wins Sample.orders)
               sample_order_ids_distinct).
Defined.

Lemma items_sold_never_null_witness :
  Run.result Sample.run = Some (Sample.summary, Sample.facts) /\
  In Sample.fact_o3 Sample.facts /\
  OrderFact.items_sold Sample.fact_o3 <> None.
Proof.
  assert (Hin : In Sample.fact_o3 Sample.facts)
    by (vm_compute; right; left; reflexivity).
  split; [exact sample_run_result|]. split; [exact Hin|].
  exact (proj1 (proj2 (items_sold_never_null
                         Sample.to_datetime Sample.customers
                         Sample.orders Sample.refunds sample_run_result
                         Sample.fact_o3 Hin))).
Defined.

(** * Further properties of the pipeline *)

(** ** Sums over int64 columns *)

(* The int64 cell of a number of an int64 column. *)
Definition int_of (a : Num.t) : Int64.t :=
  match a with
  | Num.Int i => i
  | Num.Float _ => Int64.zero
  end.

Lemma map_all_int {A} (f : A -> Num.t) (l : list A) :
  (forall x, In x l -> Num.is_int (f x) = true) ->
  map f l = map Num.Int (map (fun x => int_of (f x)) l).
Proof.
  intros Hint. rewrite map_map. apply map_ext_in. intros x Hx.
  specialize (Hint x Hx). destruct (f x); [reflexivity | discriminate].
Qed.

Lemma Num_sum_all_int {A} (f : A -> Num.t) (l : list A) :
  (forall x, In x l -> Num.is_int (f x) = true) ->
  Num.sum (map f l) =
  Num.Int (Int64.of_Z (exact_sum (map (fun x => Int64.to_Z (int_of (f x)))
                                      l))).
Proof.
  intros Hint. rewrite (map_all_int f l Hint), Num_sum_ints, map_map.
  reflexivity.
Qed.

Lemma exact_sum_concat {A} (f : A -> Z) (ls : list (list A)) :
  exact_sum (map f (List.concat ls)) =
  exact_sum (map (fun l => exact_sum (map f l)) ls).
Proof.
  induction ls as [|l ls IH]; [reflexivity|].
  cbn [List.concat map]. rewrite map_app, exact_sum_app, IH.
  reflexivity.
Qed.

(* Over an int64 column, the sum of the sums of the groups is the sum of
   the column, in wrap-around arithmetic. *)
Lemma Num_sum_groups {A} (f : A -> Num.t) (groups : list (list A))
      (rows : list A) :
  Permutation (List.concat groups) rows ->
  (forall x, In x rows -> Num.is_int (f x) = true) ->
  Num.sum (map (fun g => Num.sum (map f g)) groups) = Num.sum (map f rows).
Proof.
  intros P Hint.
  assert (Hg : forall g x, In g groups -> In x g ->
                           Num.is_int (f x) = true).
  { intros g x Hg Hx. apply Hint. apply (Permutation_in _ P).
    apply in_concat. exists g. auto. }
  assert (E : map (fun g => Num.sum (map f g)) groups =
              map Num.Int
                  (map (fun g =>
                          Int64.of_Z
                            (exact_sum
                               (map (fun x => Int64.to_Z (int_of (f x))) g)))
                       groups)).
  { rewrite map_map. apply map_ext_in. intros g Hin.
    apply Num_sum_all_int. intros x Hx. exact (Hg g x Hin Hx). }
  rewrite E, Num_sum_ints, !map_map.
  rewrite (Num_sum_all_int f rows Hint). f_equal.
  rewrite <- (exact_sum_perm
                (Permutation_map (fun x => Int64.to_Z (int_of (f x))) P)).
  rewrite exact_sum_concat.
  rewrite <- (map_map (fun g => exact_sum
                                  (map (fun x => Int64.to_Z (int_of (f x)))
                                       g))
                      Int64.wrap).
  apply Int64_of_Z_sum_wrapped.
Qed.


(** ** The expansion of the order file *)

Lemma rows_of_item_of {dq dp} (o : Order.t dq dp) (ls : list (Line.t dq dp))
      (k : string) :
  rows_of Item.order_id k (map (item_of o) ls) =
  if String.eqb (Order.order_id o) k then map (item_of o) ls else [].
Proof.
  unfold rows_of. cbn [keqb Key_string].
  induction ls as [|l ls IH]; cbn [map filter].
  - destruct (String.eqb (Order.order_id o) k); reflexivity.
  - cbn [item_of Item.order_id]. rewrite IH.
    destruct (String.eqb (Order.order_id o) k); reflexivity.
Qed.

Lemma rows_of_json_normalize_other {dq dp} (data : list (Order.t dq dp)) k :
  ~ In k (map Order.order_id data) ->
  rows_of Item.order_id k (json_normalize data) = [].
Proof.
  induction data as [|o rest IH]; intros Hk; [reflexivity|].
  change (o :: rest) with ([o] ++ rest).
  rewrite json_normalize_app, rows_of_app, IH by (simpl in Hk; tauto).
  rewrite json_normalize_eq. cbn [flat_map]. rewrite !app_nil_r.
  rewrite rows_of_item_of.
  destruct (String.eqb_spec (Order.order_id o) k) as [E | _]; [|reflexivity].
  exfalso. apply Hk. left. exact E.
Qed.

(** X1 -- The expansion of the order file into item rows loses nothing:
    when the order_ids of the file are distinct, the item rows that
    carry the order_id of an order are exactly that order's lines, in
    order, each with the order's fields copied on it; reading qty and
    unit_price back gives the order's [items]. *)
Theorem json_normalize_round_trip {dq dp} (data : list (Order.t dq dp)) o :
  NoDup (map Order.order_id data) ->
  In o data ->
  let mine := rows_of Item.order_id (Order.order_id o) (json_normalize data) in
  mine = map (fun l =>
                Item.mk (Line.qty l) (Line.unit_price l)
                        (Order.order_id o) (Order.customer_id o)
                        (Order.channel o) (Order.created_at o)
                        (Order.payment_status o))
             (Order.items o) /\
  map (fun i => Line.mk (Item.qty i) (Item.unit_price i)) mine =
    Order.items o.
Proof.
  intros ND Ho mine.
  assert (E : mine = map (item_of o) (Order.items o)).
  { subst mine. induction data as [|o' rest IH]; [contradiction|].
    inversion ND as [|? ? Hfresh ND']; subst.
    change (o' :: rest) with ([o'] ++ rest).
    rewrite json_normalize_app, rows_of_app.
    rewrite (json_normalize_eq [o']). cbn [flat_map]. rewrite app_nil_r.
    rewrite rows_of_item_of.
    destruct Ho as [-> | Ho].
    - rewrite String.eqb_refl.
      rewrite rows_of_json_normalize_other by assumption.
      apply app_nil_r.
    - destruct (String.eqb_spec (Order.order_id o') (Order.order_id o))
        as [E | _].
      + exfalso. apply Hfresh. rewrite E. apply in_map. exact Ho.
      + apply IH; assumption. }
  split; [exact E|].
  rewrite E, map_map. cbn [item_of Item.qty Item.unit_price].
  rewrite <- (map_id (Order.items o)) at 2.
  apply map_ext. intros [q p]. reflexivity.
Qed.


(** ** Orders that contribute nothing *)

(* The run reads the order file through its item rows only. *)
Lemma main_items to_datetime {dq dp da} customers
      (data data' : list (Order.t dq dp)) (refunds : list (Refund.t da)) :
  json_normalize data = json_normalize data' ->
  main to_datetime customers data refunds =
  main to_datetime customers data' refunds.
Proof.
  intros E. unfold main. cbv zeta. rewrite E.
  destruct (json_normalize data'); reflexivity.
Qed.

(* A run on a file that expands to a line reads it through the paid
   item rows only. *)
Lemma main_paid_items to_datetime {dq dp da} customers
      (data data' : list (Order.t dq dp)) (refunds : list (Refund.t da)) :
  json_normalize data <> [] -> json_normalize data' <> [] ->
  filter (fun i => is_paid (Item.payment_status i)) (json_normalize data) =
  filter (fun i => is_paid (Item.payment_status i)) (json_normalize data') ->
  main to_datetime customers data refunds =
  main to_datetime customers data' refunds.
Proof.
  intros Hne Hne' E. unfold main. cbv zeta.
  destruct (json_normalize data) eqn:Ed; [contradiction|].
  destruct (json_normalize data') eqn:Ed'; [contradiction|].
  unfold clean_data.
  cbn [Cleaned.rejected_file Cleaned.items_clean Cleaned.customers].
  rewrite E. reflexivity.
Qed.

(* A run on a file whose lines all belong to records that are not paid
   completes with empty outputs. *)
Lemma main_nothing_paid to_datetime {dq dp da} customers
      (data : list (Order.t dq dp)) (refunds : list (Refund.t da)) :
  json_normalize data <> [] ->
  filter (fun i => is_paid (Item.payment_status i)) (json_normalize data)
    = [] ->
  main to_datetime customers data refunds = Run.mk None (Some ([], [])).
Proof.
  intros Hne E. unfold main. cbv zeta.
  destruct (json_normalize data) eqn:Ed; [contradiction|].
  unfold clean_data.
  cbn [Cleaned.rejected_file Cleaned.items_clean Cleaned.customers].
  rewrite E. reflexivity.
Qed.

(** X3 -- An order record whose payment_status is not exactly "paid"
    contributes to nothing: as long as another record of the file has a
    line, the whole run (rejected-items file, order rows, daily summary)
    is what it is without the record, even when the record has lines of
    negative price or a timestamp that does not parse.  When the record
    is the only one with lines, the run with it completes with empty
    outputs and the run without it raises. *)
Theorem unpaid_order_ignored to_datetime {dq dp da} customers
        (data1 : list (Order.t dq dp)) o data2 (refunds : list (Refund.t da)) :
  Order.payment_status o <> "paid"%string ->
  (json_normalize (data1 ++ data2) <> [] ->
   main to_datetime customers (data1 ++ o :: data2) refunds =
   main to_datetime customers (data1 ++ data2) refunds) /\
  (json_normalize (data1 ++ data2) = [] -> Order.items o <> [] ->
   main to_datetime customers (data1 ++ o :: data2) refunds =
     Run.mk None (Some ([], [])) /\
   main to_datetime customers (data1 ++ data2) refunds = Run.mk None None).
Proof.
  intros Hunpaid.
  assert (Eo : filter (fun i => is_paid (Item.payment_status i))
                      (json_normalize [o]) = []).
  { apply filter_nil_all. intros i Hi.
    destruct (json_normalize_one_customer _ _ Hi) as [_ [-> _]].
    destruct (is_paid (Order.payment_status o)) eqn:E; auto.
    apply is_paid_true in E. contradiction. }
  assert (Esplit : json_normalize (data1 ++ o :: data2) =
                   json_normalize data1 ++ json_normalize [o] ++
                   json_normalize data2).
  { change (o :: data2) with ([o] ++ data2).
    rewrite !json_normalize_app. reflexivity. }
  split.
  - intros Hne. apply main_paid_items.
    + rewrite Esplit. rewrite json_normalize_app in Hne.
      intros E. apply Hne. apply app_eq_nil in E. destruct E as [-> E].
      apply app_eq_nil in E. destruct E as [_ ->]. reflexivity.
    + exact Hne.
    + rewrite Esplit, json_normalize_app, !filter_app, Eo. reflexivity.
  - intros Hnone Hlines. split; [|apply main_raises; exact Hnone].
    rewrite json_normalize_app in Hnone. apply app_eq_nil in Hnone.
    destruct Hnone as [E1 E2].
    apply main_nothing_paid.
    + rewrite Esplit, E1, E2, app_nil_r. cbn [app].
      rewrite json_normalize_eq. cbn [flat_map]. rewrite app_nil_r.
      destruct (Order.items o); [contradiction | discriminate].
    + rewrite Esplit, E1, E2, app_nil_r. cbn [app]. exact Eo.
Qed.

(** X4 -- An order record without lines contributes to nothing, paid or
    not: no item row is expanded from it, so the whole run is what it
    is without the record and no order row carries its order_id unless
    another record does. *)
Theorem order_without_items_ignored to_datetime {dq dp da} customers
        (data1 : list (Order.t dq dp)) o data2 (refunds : list (Refund.t da)) :
  Order.items o = [] ->
  json_normalize (data1 ++ o :: data2) = json_normalize (data1 ++ data2) /\
  main to_datetime customers (data1 ++ o :: data2) refunds =
  main to_datetime customers (data1 ++ data2) refunds.
Proof.
  intros Hempty.
  assert (E : json_normalize (data1 ++ o :: data2) =
              json_normalize (data1 ++ data2)).
  { change (o :: data2) with ([o] ++ data2).
    rewrite !json_normalize_app. rewrite (json_normalize_eq [o]).
    cbn [flat_map]. rewrite Hempty. reflexivity. }
  split; [exact E|]. apply main_items. exact E.
Qed.

(** ** The customer join *)

Lemma items_full_of_items {dq dp} (items : list (Item.t dq dp)) customers :
  map ItemFull.item (items_full_of items customers) =
  flat_map (fun i =>
              repeat i (List.length
                          (rows_of Customer.customer_id (Item.customer_id i)
                                   customers)))
           items.
Proof.
  rewrite items_full_of_eq.
  induction items as [|i rest IH]; [reflexivity|].
  cbn [flat_map]. rewrite map_app, IH. f_equal.
  change (filter (fun c => String.eqb (Customer.customer_id c)
                                      (Item.customer_id i)) customers)
    with (rows_of Customer.customer_id (Item.customer_id i) customers).
  induction (rows_of Customer.customer_id (Item.customer_id i) customers)
    as [|c cs IHc]; [reflexivity|].
  cbn [map List.length repeat ItemFull.item]. f_equal. exact IHc.
Qed.

(** X5 -- The customer join yields, for each item, one enriched row per
    customer row that has the item's customer_id, the rows of an item
    together and the items in input order: a customer_id listed twice
    doubles its items.  When the customer_ids of the customer frame are
    distinct, the enriched items are exactly the items whose customer_id
    is in the frame, each once, in input order. *)
Theorem customer_join_multiplicity {dq dp da} (items : list (Item.t dq dp))
        customers (refunds : list (Refund.t da)) :
  let full := fst (enrich_and_calculate items customers refunds) in
  map ItemFull.item full =
    flat_map (fun i =>
                repeat i (List.length
                            (filter (fun c =>
                                       String.eqb (Customer.customer_id c)
                                                  (Item.customer_id i))
                                    customers)))
             items /\
  (NoDup (map Customer.customer_id customers) ->
   map ItemFull.item full =
     filter (fun i => isin (Item.customer_id i)
                           (map Customer.customer_id customers))
            items).
Proof.
  cbv zeta. rewrite enrich_and_calculate_fst. split.
  - apply items_full_of_items.
  - intros ND. rewrite items_full_of_items.
    induction items as [|i rest IH]; [reflexivity|].
    cbn [flat_map filter]. rewrite IH.
    rewrite (rows_of_unique Customer.customer_id customers
                            (Item.customer_id i) ND).
    rewrite isin_find.
    destruct (find (fun r => keqb (Customer.customer_id r)
                                  (Item.customer_id i)) customers);
      reflexivity.
Qed.

(** X6 -- The enriched items of a run are exactly the lines of the order
    file that belong to a paid order, have a unit_price of zero or more
    and whose order's customer_id is that of an active customer, one
    enriched row per such line and matching active customer row; the
    row carries the order's fields, that customer's city and
    line_total = qty * unit_price in the arithmetic of the two
    columns. *)
Theorem enriched_items_characterised {dq dp da} customers
        (data : list (Order.t dq dp)) (refunds : list (Refund.t da)) x :
  let c := clean_data customers data (json_normalize data) in
  In x (fst (enrich_and_calculate (Cleaned.items_clean c)
                                  (Cleaned.customers c) refunds)) <->
  exists o l cu,
    In o data /\ In l (Order.items o) /\
    Order.payment_status o = "paid"%string /\
    Cell.ge0 (Line.unit_price l) = true /\
    In cu customers /\ Customer.is_active cu = true /\
    Customer.customer_id cu = Order.customer_id o /\
    x = ItemFull.mk
          (Item.mk (Line.qty l) (Line.unit_price l)
                   (Order.order_id o) (Order.customer_id o)
                   (Order.channel o) (Order.created_at o)
                   (Order.payment_status o))
          (Customer.city cu)
          (Num.mul (Cell.to_num (Line.qty l))
                   (Cell.to_num (Line.unit_price l))).
Proof.
  cbv zeta. rewrite enrich_and_calculate_fst.
  fold (run_items_full customers data). rewrite run_items_full_In. split.
  - intros [o [l [cu H]]]. exists o, l, cu.
    destruct x as [i city total].
    cbn [ItemFull.item ItemFull.city ItemFull.line_total] in H.
    destruct H as [Ho [Hl [Hcu [-> [Hp [Hge [Hact [Ec [-> ->]]]]]]]]].
    repeat split; assumption.
  - intros [o [l [cu [Ho [Hl [Hp [Hge [Hcu [Hact [Ec ->]]]]]]]]]].
    exists o, l, cu. cbn [ItemFull.item ItemFull.city ItemFull.line_total].
    repeat split; assumption.
Qed.

(** ** The refund ledger *)

(** X7 -- The refunds_amount of an order row comes from all the records
    of the refund ledger that carry its order_id: 0 when there is none,
    and otherwise the [sum] of their amounts, whatever their sign, the
    ledger not being restricted to the day; the sum is converted to
    float64 when some order row of the output has no refund, and a sum
    that is NaN counts for 0.  On an int64 ledger, when every order row
    has a refund, it is the exact sum modulo 2^64. *)
Theorem refunds_amount_is_ledger_sum {dq dp da} (items : list (Item.t dq dp))
        customers (refunds : list (Refund.t da)) r :
  let out := enrich_and_calculate items customers refunds in
  In r (snd out) ->
  let mine :=
    filter (fun f => String.eqb (Refund.order_id f)
                                (OrderRevenue.order_id r)) refunds in
  let null :=
    existsb (unrefunded refunds) (map OrderRevenue.base (snd out)) in
  OrderRevenue.refunds_amount r =
    match mine with
    | [] => Num.Float 0
    | _ => Num.fillna0
             (Num.after_merge
                null
                (Num.sum (map (fun f => Cell.to_num (Refund.amount f)) mine)))
    end /\
  (forall amounts,
      mine <> [] -> null = false ->
      map (fun f => Cell.to_num (Refund.amount f)) mine =
        map Num.Int amounts ->
      OrderRevenue.refunds_amount r =
        Num.Int (Int64.of_Z (exact_sum (map Int64.to_Z amounts)))).
Proof.
  cbv zeta. rewrite enrich_and_calculate_snd. cbv zeta.
  set (gross := order_gross_of (items_full_of items customers)).
  rewrite map_map. cbn [with_refunds OrderRevenue.base]. rewrite map_id.
  set (null := existsb (unrefunded refunds) gross).
  rewrite in_map_iff. intros [g [<- _]].
  change (OrderRevenue.order_id (with_refunds null refunds g))
    with (OrderGross.order_id g).
  change (filter (fun f => String.eqb (Refund.order_id f)
                                      (OrderGross.order_id g)) refunds)
    with (refunds_of refunds (OrderGross.order_id g)).
  unfold with_refunds, unrefunded, refund_total.
  cbn [OrderRevenue.refunds_amount].
  destruct (refunds_of refunds (OrderGross.order_id g)) as [|f rest] eqn:E.
  - split; [reflexivity|]. intros amounts Hne. contradiction.
  - split; [reflexivity|]. intros amounts _ -> Ea.
    rewrite Ea, Num_sum_ints. reflexivity.
Qed.

Lemma Permutation_nil_iff {A} (l l' : list A) :
  Permutation l l' -> (l = [] <-> l' = []).
Proof.
  intros P. split; intros ->.
  - apply Permutation_nil. exact P.
  - apply Permutation_nil. symmetry. exact P.
Qed.

(** X8 -- On an int64 ledger, the order of the records does not matter:
    two ledgers that hold the same records give the same enriched items
    and the same order rows. *)
Theorem refund_ledger_order_irrelevant {dq dp} (items : list (Item.t dq dp))
        customers (refunds refunds' : list (Refund.t int64)) :
  Permutation refunds refunds' ->
  enrich_and_calculate items customers refunds =
  enrich_and_calculate items customers refunds'.
Proof.
  intros P. rewrite !enrich_and_calculate_eq. f_equal. cbv zeta.
  set (gross := order_gross_of (items_full_of items customers)).
  assert (Pk : forall k, Permutation (refunds_of refunds k)
                                     (refunds_of refunds' k))
    by (intros k; apply filter_perm; exact P).
  assert (Eu : forall g, unrefunded refunds g = unrefunded refunds' g).
  { intros g. unfold unrefunded.
    pose proof (Permutation_nil_iff (Pk (OrderGross.order_id g))) as Hn.
    destruct (refunds_of refunds (OrderGross.order_id g)),
             (refunds_of refunds' (OrderGross.order_id g));
      try reflexivity.
    - destruct Hn as [Hn _]. discriminate (Hn eq_refl).
    - destruct Hn as [_ Hn]. discriminate (Hn eq_refl). }
  assert (Et : forall k, refund_total refunds k = refund_total refunds' k).
  { intros k. unfold refund_total. cbn [Cell.to_num].
    rewrite <- !(map_map (fun f : Refund.t int64 =>
                            (Refund.amount f : Int64.t)) Num.Int).
    rewrite !Num_sum_ints.
    f_equal. f_equal. apply exact_sum_perm.
    apply Permutation_map. apply Permutation_map. apply Pk. }
  rewrite (existsb_ext_in (unrefunded refunds) (unrefunded refunds') gross)
    by (intros g _; apply Eu).
  apply map_ext. intros g. unfold with_refunds. rewrite Eu, Et.
  reflexivity.
Qed.

(** ** Order of the output rows *)

(** X9 -- The order rows come out in strictly ascending order_id order:
    one row per order_id, sorted, whatever the order of the items. *)
Theorem order_rows_sorted_by_order_id {dq dp da} (items : list (Item.t dq dp))
        customers (refunds : list (Refund.t da)) :
  StronglySorted (fun a b : string => String.leb a b = true /\ a <> b)
                 (map OrderRevenue.order_id
                      (snd (enrich_and_calculate items customers refunds))).
Proof.
  rewrite enrich_and_calculate_eq. cbn [snd]. cbv zeta. rewrite map_map.
  set (null := existsb _ _).
  change (fun x => OrderRevenue.order_id (with_refunds null refunds x))
    with OrderGross.order_id.
  refine (sorted_NoDup_strict (K := string) _ _).
  - rewrite order_gross_ids. apply (groupby_sorted (K := string)).
  - apply order_gross_NoDup.
Qed.


(** ** Conservation between the stages *)

Lemma exact_sum_plus {A} (f g : A -> Z) (l : list A) :
  exact_sum (map (fun x => f x + g x) l) =
  exact_sum (map f l) + exact_sum (map g l).
Proof.
  induction l as [|x l IH]; [reflexivity|].
  cbn [map]. unfold exact_sum in *. cbn [fold_right]. lia.
Qed.


(* Over int64 columns, the sum of a column of sums is the sum of the
   sums of the columns, in wrap-around arithmetic. *)
Lemma Num_sum_add {A} (f g h : A -> Num.t) (l : list A) :
  (forall x, In x l -> Num.is_int (f x) = true) ->
  (forall x, In x l -> Num.is_int (g x) = true) ->
  (forall x, In x l -> h x = Num.add (f x) (g x)) ->
  Num.sum (map h l) = Num.add (Num.sum (map f l)) (Num.sum (map g l)).
Proof.
  intros Hf Hg Hh.
  assert (Hint : forall x, In x l -> Num.is_int (h x) = true).
  { intros x Hx. rewrite (Hh x Hx). specialize (Hf x Hx).
    specialize (Hg x Hx). destruct (f x), (g x); try discriminate.
    reflexivity. }
  rewrite (Num_sum_all_int h l Hint), (Num_sum_all_int f l Hf),
    (Num_sum_all_int g l Hg).
  cbn [Num.add]. rewrite Int64_add_of_Z, <- exact_sum_plus. f_equal.
  assert (E : map (fun x => Int64.to_Z (int_of (h x))) l =
              map Int64.wrap
                  (map (fun x => Int64.to_Z (int_of (f x)) +
                                 Int64.to_Z (int_of (g x))) l)).
  { rewrite map_map. apply map_ext_in. intros x Hx.
    rewrite (Hh x Hx). specialize (Hf x Hx). specialize (Hg x Hx).
    destruct (f x), (g x); try discriminate. reflexivity. }
  rewrite E. apply Int64_of_Z_sum_wrapped.
Qed.

(* The sum of a column whose cells are all populated. *)
Lemma Num_sum_nullable_populated {A} (f : A -> option Num.t)
      (v : A -> Num.t) (l : list A) :
  (forall x, In x l -> f x = Some (v x)) ->
  Num.sum_nullable (map f l) = Num.sum (map v l).
Proof.
  intros Hv.
  assert (E : map f l = map (fun x => Some (v x)) l)
    by (apply map_ext_in; exact Hv).
  rewrite E. unfold Num.sum_nullable.
  assert (En : existsb (fun c : option Num.t =>
                          match c with
                          | Some _ => false
                          | None => true
                          end) (map (fun x => Some (v x)) l) = false).
  { clear. induction l as [|x l IH]; [reflexivity | exact IH]. }
  assert (Ev : Num.values (map (fun x => Some (v x)) l) = map v l).
  { clear. unfold Num.values.
    induction l as [|x l IH]; [reflexivity|].
    cbn [map flat_map app]. rewrite IH. reflexivity. }
  rewrite En, Ev. reflexivity.
Qed.

(** X11 -- On int64 quantities and prices, nothing is lost or counted
    twice between the enriched items and the order rows: the
    gross_revenue of all the order rows adds up to the line_total of all
    the enriched items, which is the sum of their qty * unit_price
    modulo 2^64; and the order ids of the order rows are exactly the
    order ids of the enriched items. *)
Theorem order_rows_conserve_line_totals {da}
        (items : list (Item.t int64 int64)) customers
        (refunds : list (Refund.t da)) :
  let out := enrich_and_calculate items customers refunds in
  Num.sum (map OrderRevenue.gross_revenue (snd out)) =
    Num.sum (map ItemFull.line_total (fst out)) /\
  Num.sum (map ItemFull.line_total (fst out)) =
    Num.Int (Int64.of_Z
               (exact_sum
                  (map (fun x : ItemFull.t int64 int64 =>
                          Int64.to_Z (ItemFull.qty x) *
                          Int64.to_Z (ItemFull.unit_price x))
                       (fst out)))) /\
  forall k, In k (map OrderRevenue.order_id (snd out)) <->
            In k (map ItemFull.order_id (fst out)).
Proof.
  cbv zeta. rewrite enrich_and_calculate_eq. cbn [fst snd]. cbv zeta.
  set (full := items_full_of items customers).
  set (null := existsb _ _).
  assert (Hline : forall x, In x full ->
                            ItemFull.line_total x =
                            Num.Int (Int64.mul (ItemFull.qty x)
                                               (ItemFull.unit_price x))).
  { intros x Hx. apply items_full_of_In in Hx.
    destruct Hx as [c [_ [_ [_ [_ ->]]]]]. reflexivity. }
  assert (Hint : forall x, In x full ->
                           Num.is_int (ItemFull.line_total x) = true)
    by (intros x Hx; rewrite (Hline x Hx); reflexivity).
  split; [|split].
  - rewrite map_map.
    change (fun x => OrderRevenue.gross_revenue (with_refunds null refunds x))
      with OrderGross.gross_revenue.
    unfold order_gross_of. rewrite map_map. cbn [OrderGross.gross_revenue].
    rewrite <- (map_map snd (fun rs => Num.sum (map ItemFull.line_total rs))).
    apply Num_sum_groups; [|exact Hint].
    apply groupby_partition.
  - rewrite (Num_sum_all_int ItemFull.line_total full Hint). f_equal.
    assert (E : map (fun x => Int64.to_Z (int_of (ItemFull.line_total x)))
                    full =
                map Int64.wrap
                    (map (fun x : ItemFull.t int64 int64 =>
                            Int64.to_Z (ItemFull.qty x) *
                            Int64.to_Z (ItemFull.unit_price x)) full)).
    { rewrite map_map. apply map_ext_in. intros x Hx.
      rewrite (Hline x Hx). reflexivity. }
    rewrite E. apply Int64_of_Z_sum_wrapped.
  - intros k. rewrite map_map.
    change (fun x => OrderRevenue.order_id (with_refunds null refunds x))
      with OrderGross.order_id.
    apply order_gross_ids_In.
Qed.


(** ** What an order row is made of *)

(* An order row of a run, traced back to the order record its first
   enriched item was expanded from. *)
Lemma order_gross_origin {dq dp} customers (data : list (Order.t dq dp)) g :
  In g (order_gross_of (run_items_full customers data)) ->
  exists o l cu,
    In o data /\ In l (Order.items o) /\
    Order.payment_status o = "paid"%string /\
    Cell.ge0 (Line.unit_price l) = true /\
    In cu customers /\ Customer.is_active cu = true /\
    Customer.customer_id cu = Order.customer_id o /\
    OrderGross.order_id g = Order.order_id o /\
    OrderGross.customer_id g = Order.customer_id o /\
    OrderGross.channel g = Order.channel o /\
    OrderGross.city g = Customer.city cu /\
    OrderGross.created_at g = Order.created_at o.
Proof.
  intros Hg. apply order_gross_In in Hg. cbv zeta in Hg.
  destruct Hg as [Hne [_ [Ec [Ech [Ecity Ecr]]]]].
  destruct (rows_of ItemFull.order_id (OrderGross.order_id g)
                    (run_items_full customers data)) as [|x rest] eqn:E;
    [contradiction|].
  assert (Hx : In x (rows_of ItemFull.order_id (OrderGross.order_id g)
                             (run_items_full customers data)))
    by (rewrite E; left; reflexivity).
  apply rows_of_key in Hx. destruct Hx as [Hx Ek].
  apply run_items_full_In in Hx.
  destruct Hx as [o [l [cu [Ho [Hl [Hcu [Ei [Hpaid [Hprice [Hact [Ecu
                   [Ecity' _]]]]]]]]]]]].
  exists o, l, cu.
  unfold first, ItemFull.customer_id, ItemFull.channel, ItemFull.created_at,
    ItemFull.order_id in *.
  rewrite Ei in *.
  cbn [item_of Item.customer_id Item.channel Item.created_at Item.order_id]
    in *.
  repeat split; try assumption; congruence.
Qed.

(** X15 -- Every order row a run outputs takes its order-level fields
    from one paid order record of the file that has its order_id and an
    active customer: customer_id, channel and created_at are that
    record's, city is the city of an active customer with that
    customer_id, and date is what the timestamp of that record parses
    to in the column of the timestamps of the order rows. *)
Theorem order_row_provenance to_datetime {dq dp da} customers
        (data : list (Order.t dq dp)) (refunds : list (Refund.t da))
        summary facts f :
  Run.result (main to_datetime customers data refunds) = Some (summary, facts) ->
  In f facts ->
  exists o cu,
    In o data /\ Order.payment_status o = "paid"%string /\
    In cu customers /\ Customer.is_active cu = true /\
    Customer.customer_id cu = Order.customer_id o /\
    OrderFact.order_id f = Order.order_id o /\
    OrderFact.customer_id f = Order.customer_id o /\
    OrderFact.channel f = Order.channel o /\
    OrderFact.city f = Customer.city cu /\
    OrderRevenue.created_at (OrderFact.rev f) = Order.created_at o /\
    OrderFact.date f =
      Parsed.date
        (to_datetime
           (map OrderRevenue.created_at
                (snd (enrich_and_calculate
                        (Cleaned.items_clean
                           (clean_data customers data (json_normalize data)))
                        (Cleaned.customers
                           (clean_data customers data (json_normalize data)))
                        refunds)))
           (Order.created_at o)).
Proof.
  intros E Hf.
  destruct (run_fact_In _ _ _ _ _ E Hf) as [_ [Hg [_ [_ Hdate]]]].
  apply order_gross_origin in Hg.
  destruct Hg as [o [l [cu [Ho [_ [Hpaid [_ [Hcu [Hact [Ecu
                   [Eid [Ec [Ech [Ecity Ecr]]]]]]]]]]]]]].
  exists o, cu.
  fold (run_order_rows customers data refunds).
  rewrite Hdate.
  unfold OrderFact.order_id, OrderFact.customer_id, OrderFact.channel,
    OrderFact.city, OrderRevenue.order_id, OrderRevenue.customer_id,
    OrderRevenue.channel, OrderRevenue.city, OrderRevenue.created_at.
  rewrite Ecr. repeat split; assumption.
Qed.

(** X13 -- In a run, the items_sold of every summary row is the [sum],
    over its member orders, of their items_sold, each the [sum] of qty
    over the enriched items of the order; and when gross_revenue and
    refunds_amount are int64 on its member orders,
    net_revenue_eur = gross_revenue_eur + refunds_eur, modulo 2^64. *)
Theorem summary_net_is_gross_plus_refunds to_datetime {dq dp da} customers
        (data : list (Order.t dq dp)) (refunds : list (Refund.t da))
        summary facts s :
  Run.result (main to_datetime customers data refunds) = Some (summary, facts) ->
  In s summary ->
  let members :=
    filter (OrderFact.in_group (DailySummary.group_key s)) facts in
  DailySummary.items_sold s =
    Num.sum (map (fun f =>
                    Num.sum
                      (map (fun x => Cell.to_num (ItemFull.qty x))
                           (rows_of ItemFull.order_id (OrderFact.order_id f)
                                    (run_items_full customers data))))
                 members) /\
  ((forall f, In f members ->
              Num.is_int (OrderFact.gross_revenue f) = true /\
              Num.is_int (OrderFact.refunds_amount f) = true) ->
   DailySummary.net_revenue_eur s =
     Num.add (DailySummary.gross_revenue_eur s)
             (DailySummary.refunds_eur s)).
Proof.
  intros E Hs members.
  pose proof (run_facts _ _ _ _ E) as [_ [Esum _]].
  rewrite Esum in Hs. apply summary_In in Hs. cbv zeta in Hs.
  fold members in Hs. destruct Hs as [_ Es].
  assert (Hmem : forall f, In f members -> In f facts)
    by (intros f Hf; subst members; apply filter_In in Hf; tauto).
  split.
  - rewrite Es at 1. unfold summary_row.
    cbn [fst snd DailySummary.items_sold].
    apply Num_sum_nullable_populated. intros f Hf.
    destruct (run_fact_In _ _ _ _ _ E (Hmem f Hf)) as [_ [_ [_ [Hsold _]]]].
    exact Hsold.
  - intros Hint.
    assert (En : DailySummary.net_revenue_eur s =
                 Num.sum (map OrderFact.net_revenue members))
      by (rewrite Es at 1; reflexivity).
    assert (Eg : DailySummary.gross_revenue_eur s =
                 Num.sum (map OrderFact.gross_revenue members))
      by (rewrite Es at 1; reflexivity).
    assert (Er : DailySummary.refunds_eur s =
                 Num.sum (map OrderFact.refunds_amount members))
      by (rewrite Es at 1; reflexivity).
    rewrite En, Eg, Er. apply Num_sum_add.
    + intros f Hf. apply Hint. exact Hf.
    + intros f Hf. apply Hint. exact Hf.
    + intros f Hf.
      destruct (run_fact_In _ _ _ _ _ E (Hmem f Hf)) as [Hr _].
      rewrite run_order_rows_eq in Hr. cbv zeta in Hr.
      apply in_map_iff in Hr. destruct Hr as [g [Eg' _]].
      unfold OrderFact.net_revenue, OrderFact.gross_revenue,
        OrderFact.refunds_amount. rewrite <- Eg'. reflexivity.
Qed.

(** X16 -- A run has no result exactly when the order file expands to
    no line, the cleaning stage then raising before any output, or when
    a timestamp of the created_at column of the order rows cannot be
    parsed; and every timestamp of that column is the created_at of a
    paid order record with a valid-priced line and an active
    customer. *)
Theorem run_fails_only_on_timestamp to_datetime {dq dp da} customers
        (data : list (Order.t dq dp)) (refunds : list (Refund.t da)) :
  let c := clean_data customers data (json_normalize data) in
  let rows :=
    snd (enrich_and_calculate (Cleaned.items_clean c) (Cleaned.customers c)
                              refunds) in
  (Run.result (main to_datetime customers data refunds) = None <->
   json_normalize data = [] \/
   exists r, In r rows /\
             to_datetime (map OrderRevenue.created_at rows)
                         (OrderRevenue.created_at r) = Parsed.Fails) /\
  (json_normalize data = [] ->
   main to_datetime customers data refunds = Run.mk None None) /\
  (forall r, In r rows ->
     exists o l cu,
       In o data /\ In l (Order.items o) /\
       Order.payment_status o = "paid"%string /\
       Cell.ge0 (Line.unit_price l) = true /\
       In cu customers /\ Customer.is_active cu = true /\
       Customer.customer_id cu = Order.customer_id o /\
       OrderRevenue.order_id r = Order.order_id o /\
       OrderRevenue.created_at r = Order.created_at o).
Proof.
  cbv zeta. fold (run_order_rows customers data refunds).
  split; [|split].
  - destruct (json_normalize data) as [|i0 rest0] eqn:Ej.
    + rewrite main_raises by exact Ej. cbn [Run.result]. tauto.
    + assert (Hne : json_normalize data <> [])
        by (rewrite Ej; discriminate).
      rewrite <- Ej. rewrite main_eq by exact Hne. cbn [Run.result].
      rewrite aggregate_daily_eq.
      destruct (assign_date to_datetime _) as [dated|] eqn:E.
      * split; [discriminate|]. intros [Hnil | Hfail]; [contradiction|].
        apply assign_date_None in Hfail. congruence.
      * split; [|reflexivity]. intros _. right.
        apply assign_date_None. exact E.
  - apply main_raises.
  - intros r Hr. rewrite run_order_rows_eq in Hr. cbv zeta in Hr.
    apply in_map_iff in Hr. destruct Hr as [g [<- Hg]].
    apply order_gross_origin in Hg.
    destruct Hg as [o [l [cu [Ho [Hl [Hpaid [Hprice [Hcu [Hact [Ecu
                     [Eid [_ [_ [_ Ecr]]]]]]]]]]]]]].
    exists o, l, cu. repeat split; assumption.
Qed.

(** * The output directory: files and cumulative store *)

Lemma write_same {dq dp} path (content : File dq dp) d :
  Disk.files (Disk.write path content d) path = Some content.
Proof.
  unfold Disk.write. cbn [Disk.files]. rewrite String.eqb_refl. reflexivity.
Qed.

Lemma write_other {dq dp} path (content : File dq dp) d p :
  p <> path -> Disk.files (Disk.write path content d) p = Disk.files d p.
Proof.
  intros N. unfold Disk.write. cbn [Disk.files].
  apply String.eqb_neq in N. rewrite N. reflexivity.
Qed.

Lemma write_orders_clean {dq dp} path (content : File dq dp) d :
  Disk.orders_clean (Disk.write path content d) = Disk.orders_clean d.
Proof. reflexivity. Qed.

Lemma write_daily_city_sales {dq dp} path (content : File dq dp) d :
  Disk.daily_city_sales (Disk.write path content d) = Disk.daily_city_sales d.
Proof. reflexivity. Qed.

Lemma save_rejected_tables {dq dp} date_str rejected (disk : Disk.t dq dp) :
  Disk.orders_clean (save_rejected date_str rejected disk) =
    Disk.orders_clean disk /\
  Disk.daily_city_sales (save_rejected date_str rejected disk) =
    Disk.daily_city_sales disk.
Proof. destruct rejected; split; reflexivity. Qed.

Lemma save_rejected_other {dq dp} date_str rejected (disk : Disk.t dq dp) p :
  p <> rejected_items_path date_str ->
  Disk.files (save_rejected date_str rejected disk) p = Disk.files disk p.
Proof.
  intros N. destruct rejected; [|reflexivity].
  apply write_other. exact N.
Qed.

(** X17 -- A run only appends to the cumulative store and only writes
    its own two files.  Whatever its outcome, the rows already in
    orders_clean and daily_city_sales stay, in place, at the head of the
    tables; a completed run adds its order rows and its summary rows
    after them and writes the summary file; a run that raises adds no
    row and leaves the summary file as it was: it leaves the directory
    as it was when the order file expands to no line, and has already
    written its rejected items when it raises on a timestamp; no other
    path of the directory changes. *)
Theorem run_effect_on_disk to_datetime {dq dp da} date_str customers
        (data : list (Order.t dq dp)) (refunds : list (Refund.t da)) disk :
  let run := main to_datetime customers data refunds in
  let outcome :=
    main_on_disk to_datetime date_str customers data refunds disk in
  let after := disk_after outcome in
  match Run.result run with
  | Some (summary, facts) =>
      outcome = Completed after /\
      Disk.orders_clean after = Disk.orders_clean disk ++ facts /\
      Disk.daily_city_sales after = Disk.daily_city_sales disk ++ summary /\
      Disk.files after (daily_summary_path date_str) =
        Some (DailySummaryCsv summary)
  | None =>
      outcome = Raised after /\
      Disk.orders_clean after = Disk.orders_clean disk /\
      Disk.daily_city_sales after = Disk.daily_city_sales disk /\
      Disk.files after (daily_summary_path date_str) =
        Disk.files disk (daily_summary_path date_str)
  end /\
  Disk.files after (rejected_items_path date_str) =
    match Run.rejected_file run with
    | Some rows => Some (RejectedItemsCsv rows)
    | None => Disk.files disk (rejected_items_path date_str)
    end /\
  (forall p, p <> rejected_items_path date_str ->
             p <> daily_summary_path date_str ->
             Disk.files after p = Disk.files disk p) /\
  (json_normalize data = [] -> outcome = Raised disk).
Proof.
  cbv zeta. unfold main_on_disk.
  set (run := main to_datetime customers data refunds).
  destruct (save_rejected_tables date_str (Run.rejected_file run) disk)
    as [To Td].
  assert (Hrej : Disk.files (save_rejected date_str (Run.rejected_file run)
                                           disk)
                            (rejected_items_path date_str) =
                 match Run.rejected_file run with
                 | Some rows => Some (RejectedItemsCsv rows)
                 | None => Disk.files disk (rejected_items_path date_str)
                 end).
  { destruct (Run.rejected_file run); [apply write_same | reflexivity]. }
  assert (Hnil : json_normalize data = [] -> run = Run.mk None None)
    by (intros Ej; apply main_raises; exact Ej).
  destruct (Run.result run) as [[summary facts]|] eqn:Eres;
    cbn [disk_after export_results Disk.orders_clean Disk.daily_city_sales
         Disk.files].
  - split; [|split; [|split]].
    + rewrite write_orders_clean, write_daily_city_sales, To, Td.
      split; [reflexivity|]. split; [reflexivity|].
      split; [reflexivity|]. apply write_same.
    + rewrite write_other by apply paths_apart. exact Hrej.
    + intros p Nr Ns. rewrite write_other by exact Ns.
      apply save_rejected_other. exact Nr.
    + intros Ej. rewrite (Hnil Ej) in Eres. discriminate Eres.
  - split; [|split; [|split]].
    + split; [reflexivity|]. split; [exact To|]. split; [exact Td|].
      apply save_rejected_other. intros E. symmetry in E.
      exact (@paths_apart _ _ E).
    + exact Hrej.
    + intros p Nr _. apply save_rejected_other. exact Nr.
    + intros Ej. rewrite (Hnil Ej). reflexivity.
Qed.

(** X18 -- Running the same date again is not idempotent on the store:
    after a second completed run on the same inputs every order row and
    every summary row of the run is in its table twice, while the files
    are what they were after the first run. *)
Theorem rerun_duplicates_store_rows to_datetime {dq dp da} date_str customers
        (data : list (Order.t dq dp)) (refunds : list (Refund.t da)) disk
        summary facts :
  Run.result (main to_datetime customers data refunds) = Some (summary, facts) ->
  let once :=
    disk_after (main_on_disk to_datetime date_str customers data refunds
                             disk) in
  let twice :=
    disk_after (main_on_disk to_datetime date_str customers data refunds
                             once) in
  Disk.orders_clean twice = Disk.orders_clean disk ++ facts ++ facts /\
  Disk.daily_city_sales twice =
    Disk.daily_city_sales disk ++ summary ++ summary /\
  forall p, Disk.files twice p = Disk.files once p.
Proof.
  intros E once twice. subst once twice. unfold main_on_disk. rewrite E.
  cbn [disk_after]. unfold export_results.
  cbn [Disk.orders_clean Disk.daily_city_sales Disk.files].
  destruct (Run.rejected_file (main to_datetime customers data refunds))
    as [rows|]; cbn [save_rejected Disk.write Disk.orders_clean
                     Disk.daily_city_sales Disk.files].
  - rewrite <- !app_assoc. split; [reflexivity|]. split; [reflexivity|].
    intros p.
    destruct (String.eqb p (daily_summary_path date_str)); [reflexivity|].
    destruct (String.eqb p (rejected_items_path date_str)); reflexivity.
  - rewrite <- !app_assoc. split; [reflexivity|]. split; [reflexivity|].
    intros p.
    destruct (String.eqb p (daily_summary_path date_str)); reflexivity.
Qed.

(** X19 -- The files of another date are safe: a run for one date_str
    changes neither the rejected-items file nor the summary file of any
    other date_str, whatever its inputs and outcome. *)
Theorem other_dates_files_kept to_datetime {dq dp da} date_str other customers
        (data : list (Order.t dq dp)) (refunds : list (Refund.t da)) disk :
  other <> date_str ->
  let after :=
    disk_after (main_on_disk to_datetime date_str customers data refunds
                             disk) in
  Disk.files after (rejected_items_path other) =
    Disk.files disk (rejected_items_path other) /\
  Disk.files after (daily_summary_path other) =
    Disk.files disk (daily_summary_path other).
Proof.
  intros N after. subst after. unfold main_on_disk.
  set (run := main to_datetime customers data refunds).
  assert (Nr : rejected_items_path other <> rejected_items_path date_str)
    by (intros E; apply N; exact (@rejected_items_path_inj _ _ E)).
  assert (Ns : daily_summary_path other <> daily_summary_path date_str)
    by (intros E; apply N; exact (@daily_summary_path_inj _ _ E)).
  assert (Nsr : daily_summary_path other <> rejected_items_path date_str)
    by (intros E; symmetry in E; exact (@paths_apart _ _ E)).
  destruct (Run.result run) as [[summary facts]|];
    cbn [disk_after export_results Disk.files].
  - rewrite !write_other by (exact Ns || apply paths_apart).
    split; apply save_rejected_other; assumption.
  - split; apply save_rejected_other; assumption.
Qed.

(** X20 -- A rejected-items file is never cleared: when no paid line of
    the order file has a negative unit_price, the run writes no
    rejected-items file and whatever file of that name an earlier run
    left, for the same date_str, is still there afterwards. *)
Theorem stale_rejected_file_stays to_datetime {dq dp da} date_str customers
        (data : list (Order.t dq dp)) (refunds : list (Refund.t da)) disk :
  (forall o l, In o data -> In l (Order.items o) ->
               Order.payment_status o = "paid"%string ->
               Cell.ge0 (Line.unit_price l) = true) ->
  Run.rejected_file (main to_datetime customers data refunds) = None /\
  Disk.files
    (disk_after (main_on_disk to_datetime date_str customers data refunds
                              disk))
    (rejected_items_path date_str) =
  Disk.files disk (rejected_items_path date_str).
Proof.
  intros Hall.
  assert (E : Run.rejected_file (main to_datetime customers data refunds)
              = None).
  { destruct (json_normalize data) as [|i0 rest0] eqn:Ej.
    - rewrite main_raises by exact Ej. reflexivity.
    - assert (Hne : json_normalize data <> [])
        by (rewrite Ej; discriminate).
      rewrite main_eq by exact Hne. cbn [Run.rejected_file].
      apply no_negative_price_no_file.
      intros i Hi Hp. apply json_normalize_In_iff in Hi.
      destruct Hi as [o [l [Ho [Hl ->]]]]. cbn in Hp |- *.
      exact (Hall o l Ho Hl Hp). }
  split; [exact E|].
  unfold main_on_disk. rewrite E. cbn [save_rejected].
  destruct (Run.result (main to_datetime customers data refunds))
    as [[summary facts]|]; cbn [disk_after export_results Disk.files].
  - apply write_other. apply paths_apart.
  - reflexivity.
Qed.


(** * The further properties at work on the sample days *)

Lemma cent_run_result :
  Run.result Sample.cent_run = Some (Sample.cent_summary, Sample.cent_facts).
Proof. vm_compute. reflexivity. Qed.


Lemma json_normalize_round_trip_witness :
  NoDup (map Order.order_id Sample.orders) /\
  In Sample.o1 Sample.orders /\
  map (fun i => Line.mk (Item.qty i) (Item.unit_price i))
      (rows_of Item.order_id "O1"%string (json_normalize Sample.orders)) =
    Order.items Sample.o1.
Proof.
  assert (Hin : In Sample.o1 Sample.orders) by (left; reflexivity).
  split; [exact sample_order_ids_distinct|]. split; [exact Hin|].
  exact (proj2 (json_normalize_round_trip Sample.orders Sample.o1
                  sample_order_ids_distinct Hin)).
Defined.


Lemma unpaid_order_ignored_witness :
  Order.payment_status Sample.o4 <> "paid"%string /\
  json_normalize ([Sample.o1; Sample.o2; Sample.o3] ++ []) <> [] /\
  main Sample.to_datetime Sample.customers Sample.orders Sample.refunds =
  main Sample.to_datetime Sample.customers
       ([Sample.o1; Sample.o2; Sample.o3] ++ []) Sample.refunds.
Proof.
  assert (N : Order.payment_status Sample.o4 <> "paid"%string)
    by (vm_compute; discriminate).
  assert (Hne : json_normalize ([Sample.o1; Sample.o2; Sample.o3] ++ [])
                <> []) by (vm_compute; discriminate).
  split; [exact N|]. split; [exact Hne|].
  exact (proj1 (unpaid_order_ignored
                  Sample.to_datetime Sample.customers
                  [Sample.o1; Sample.o2; Sample.o3] Sample.o4 []
                  Sample.refunds N) Hne).
Defined.

Lemma order_without_items_ignored_witness :
  Order.items Sample.o5 = [] /\
  main Sample.to_datetime Sample.customers
       [Sample.o1; Sample.o5; Sample.o3] Sample.refunds =
  main Sample.to_datetime Sample.customers [Sample.o1; Sample.o3]
       Sample.refunds.
Proof.
  assert (E : Order.items Sample.o5 = []) by reflexivity.
  split; [exact E|].
  exact (proj2 (order_without_items_ignored
                  Sample.to_datetime Sample.customers
                  [Sample.o1] Sample.o5 [Sample.o3] Sample.refunds E)).
Defined.

Lemma customer_join_multiplicity_witness :
  NoDup (map Customer.customer_id (Cleaned.customers Sample.cleaned)) /\
  map ItemFull.item (fst Sample.enriched) =
    filter (fun i => isin (Item.customer_id i)
                          (map Customer.customer_id
                               (Cleaned.customers Sample.cleaned)))
           (Cleaned.items_clean Sample.cleaned).
Proof.
  assert (ND : NoDup (map Customer.customer_id
                          (Cleaned.customers Sample.cleaned))).
  { apply (NoDup_count_occ' string_dec). intros k Hk.
    destruct Hk as [<- | [<- | []]]; vm_compute; reflexivity. }
  split; [exact ND|].
  exact (proj2 (customer_join_multiplicity
                  (Cleaned.items_clean Sample.cleaned)
                  (Cleaned.customers Sample.cleaned) Sample.refunds) ND).
Defined.

Lemma enriched_items_characterised_witness :
  In Sample.full_o1 (fst Sample.enriched) /\
  exists o l cu,
    In o Sample.orders /\ In l (Order.items o) /\
    Order.payment_status o = "paid"%string /\
    Cell.ge0 (Line.unit_price l) = true /\
    In cu Sample.customers /\ Customer.is_active cu = true /\
    Customer.customer_id cu = Order.customer_id o /\
    Sample.full_o1 =
      ItemFull.mk
        (Item.mk (Line.qty l) (Line.unit_price l)
                 (Order.order_id o) (Order.customer_id o)
                 (Order.channel o) (Order.created_at o)
                 (Order.payment_status o))
        (Customer.city cu)
        (Num.mul (Cell.to_num (Line.qty l))
                 (Cell.to_num (Line.unit_price l))).
Proof.
  assert (Hin : In Sample.full_o1 (fst Sample.enriched))
    by (vm_compute; left; reflexivity).
  split; [exact Hin|].
  exact (proj1 (enriched_items_characterised Sample.customers Sample.orders
                  Sample.refunds Sample.full_o1) Hin).
Defined.

Lemma refunds_amount_is_ledger_sum_witness :
  In Sample.row_cents (snd Sample.cent_out) /\
  OrderRevenue.refunds_amount Sample.row_cents =
    Num.Int (Int64.of_Z (exact_sum [-500; -100])).
Proof.
  assert (Hin : In Sample.row_cents (snd Sample.cent_out))
    by (vm_compute; left; reflexivity).
  split; [exact Hin|].
  refine (proj2 (refunds_amount_is_ledger_sum _ _ _ _ Hin)
                [Sample.int (-500); Sample.int (-100)] _ _ _).
  - vm_compute. discriminate.
  - vm_compute. reflexivity.
  - vm_compute. reflexivity.
Defined.

Lemma refund_ledger_order_irrelevant_witness :
  Permutation Sample.cent_refunds
              [Refund.mk "B5" (Sample.int (-100));
               Refund.mk "B5" (Sample.int (-500))] /\
  Sample.cent_out =
  enrich_and_calculate (json_normalize [Sample.cents])
                       (filter Customer.is_active Sample.customers)
                       [Refund.mk "B5" (Sample.int (-100));
                        Refund.mk "B5" (Sample.int (-500))].
Proof.
  assert (P : Permutation Sample.cent_refunds
                          [Refund.mk "B5" (Sample.int (-100));
                           Refund.mk "B5" (Sample.int (-500))])
    by apply perm_swap.
  split; [exact P|].
  exact (refund_ledger_order_irrelevant _ _ P).
Defined.




Lemma summary_net_is_gross_plus_refunds_witness :
  Run.result Sample.cent_run =
    Some (Sample.cent_summary, Sample.cent_facts) /\
  In Sample.cent_row Sample.cent_summary /\
  DailySummary.net_revenue_eur Sample.cent_row =
    Num.add (DailySummary.gross_revenue_eur Sample.cent_row)
            (DailySummary.refunds_eur Sample.cent_row).
Proof.
  assert (Hin : In Sample.cent_row Sample.cent_summary)
    by (vm_compute; left; reflexivity).
  assert (Hint : forall f,
             In f (filter (OrderFact.in_group
                             (DailySummary.group_key Sample.cent_row))
                          Sample.cent_facts) ->
             Num.is_int (OrderFact.gross_revenue f) = true /\
             Num.is_int (OrderFact.refunds_amount f) = true).
  { intros f Hf. vm_compute in Hf. destruct Hf as [<- | []].
    split; reflexivity. }
  split; [exact cent_run_result|]. split; [exact Hin|].
  exact (proj2 (summary_net_is_gross_plus_refunds
                  Sample.to_datetime Sample.customers [Sample.cents]
                  Sample.cent_refunds Sample.cent_row cent_run_result Hin)
               Hint).
Defined.

Lemma order_row_provenance_witness :
  Run.result Sample.run = Some (Sample.summary, Sample.facts) /\
  In Sample.fact_o1 Sample.facts /\
  exists o cu,
    In o Sample.orders /\ Order.payment_status o = "paid"%string /\
    In cu Sample.customers /\ Customer.is_active cu = true /\
    Customer.customer_id cu = Order.customer_id o /\
    OrderFact.order_id Sample.fact_o1 = Order.order_id o /\
    OrderFact.customer_id Sample.fact_o1 = Order.customer_id o /\
    OrderFact.channel Sample.fact_o1 = Order.channel o /\
    OrderFact.city Sample.fact_o1 = Customer.city cu /\
    OrderRevenue.created_at (OrderFact.rev Sample.fact_o1) =
      Order.created_at o /\
    OrderFact.date Sample.fact_o1 =
      Parsed.date
        (Sample.to_datetime
           (map OrderRevenue.created_at (snd Sample.enriched))
           (Order.created_at o)).
Proof.
  assert (Hin : In Sample.fact_o1 Sample.facts)
    by (vm_compute; left; reflexivity).
  split; [exact sample_run_result|]. split; [exact Hin|].
  exact (order_row_provenance Sample.to_datetime Sample.customers
           Sample.orders Sample.refunds Sample.fact_o1 sample_run_result
           Hin).
Defined.


Lemma rerun_duplicates_store_rows_witness :
  Run.result Sample.run = Some (Sample.summary, Sample.facts) /\
  Disk.orders_clean
    (disk_after
       (main_on_disk Sample.to_datetime "2024-01-15" Sample.customers
          Sample.orders Sample.refunds
          (disk_after
             (main_on_disk Sample.to_datetime "2024-01-15" Sample.customers
                Sample.orders Sample.refunds Sample.empty_disk)))) =
  Disk.orders_clean Sample.empty_disk ++ Sample.facts ++ Sample.facts.
Proof.
  split; [exact sample_run_result|].
  exact (proj1 (rerun_duplicates_store_rows
                  Sample.to_datetime "2024-01-15"
                  Sample.customers Sample.orders Sample.refunds
                  Sample.empty_disk sample_run_result)).
Defined.

Lemma other_dates_files_kept_witness :
  "2024-01-14"%string <> "2024-01-15"%string /\
  Disk.files
    (disk_after
       (main_on_disk Sample.to_datetime "2024-01-15" Sample.customers
          Sample.orders Sample.refunds Sample.empty_disk))
    (rejected_items_path "2024-01-14") =
  Disk.files Sample.empty_disk (rejected_items_path "2024-01-14").
Proof.
  assert (N : "2024-01-14"%string <> "2024-01-15"%string) by discriminate.
  split; [exact N|].
  exact (proj1 (other_dates_files_kept
                  Sample.to_datetime Sample.customers
                  Sample.orders Sample.refunds Sample.empty_disk N)).
Defined.

Lemma stale_rejected_file_stays_witness :
  (forall o l, In o [Sample.o3] -> In l (Order.items o) ->
               Order.payment_status o = "paid"%string ->
               Cell.ge0 (Line.unit_price l) = true) /\
  Disk.files
    (disk_after
       (main_on_disk Sample.to_datetime "2024-01-15" Sample.customers
          [Sample.o3] Sample.refunds
          (disk_after
             (main_on_disk Sample.to_datetime "2024-01-15" Sample.customers
                Sample.orders Sample.refunds Sample.empty_disk))))
    (rejected_items_path "2024-01-15") =
  Disk.files
    (disk_after
       (main_on_disk Sample.to_datetime "2024-01-15" Sample.customers
          Sample.orders Sample.refunds Sample.empty_disk))
    (rejected_items_path "2024-01-15").
Proof.
  assert (Hall : forall o l, In o [Sample.o3] -> In l (Order.items o) ->
                             Order.payment_status o = "paid"%string ->
                             Cell.ge0 (Line.unit_price l) = true).
  { intros o l [<- | []] [<- | [<- | []]] _; vm_compute; reflexivity. }
  split; [exact Hall|].
  exact (proj2 (stale_rejected_file_stays
                  Sample.to_datetime "2024-01-15"
                  Sample.customers [Sample.o3] Sample.refunds _ Hall)).
Defined.
